(** * SWEN news pipeline: a shallow embedding and its checked properties

    The development follows the Python sources of the pipeline:

    - [services/ai_utils.py]            response sanitisation
    - [services/ai_constants.py]        fallback tables and limits
    - [services/ai_service.py]          the enrichment facets
    - [services/brave_search_service.py] the media lookup client
    - [services/ingestion_service.py]   the orchestrator
    - [db/models.py], [db/repository.py], [db/database.py]  persistence
    - [api/v1/endpoints.py]             the routes
    - [migrate_database.py]             the migration script

    Part I holds the embedding, Part II the vocabulary of the statements and
    the concrete runs, Part III the proofs. *)

From Stdlib Require Import String Ascii List ZArith QArith Bool Lia Arith.
From Stdlib Require Import Sorting.Sorted Sorting.Permutation DecimalString.
Import ListNotations.

Local Close Scope Q_scope.
Local Open Scope nat_scope.
Local Open Scope list_scope.
Local Open Scope string_scope.

(* ================================================================== *)
(** * Part I.  The embedding                                           *)
(* ================================================================== *)

(** ** Python's [str] operations used by the sources

    A [string] stands for a Python [str] whose characters are code points
    below 256; every operation below is the builtin of the same name. *)

Module Py.

(** [str.isspace] on one character: TAB..CR, FS..US, SPACE, NEL, NBSP. *)
Definition is_space (c : ascii) : bool :=
  let n := nat_of_ascii c in
  (((9 <=? n) && (n <=? 13)) || ((28 <=? n) && (n <=? 32))
   || (n =? 133) || (n =? 160))%nat.

(** [s.lstrip(...)], [s.rstrip(...)], [s.strip(...)], the set of characters
    to remove given as a predicate. *)
Fixpoint lstrip_by (p : ascii -> bool) (s : string) : string :=
  match s with
  | EmptyString => EmptyString
  | String c s' => if p c then lstrip_by p s' else s
  end.

Fixpoint rstrip_by (p : ascii -> bool) (s : string) : string :=
  match s with
  | EmptyString => EmptyString
  | String c s' =>
      match rstrip_by p s' with
      | EmptyString => if p c then EmptyString else String c EmptyString
      | r => String c r
      end
  end.

Definition strip_by (p : ascii -> bool) (s : string) : string :=
  rstrip_by p (lstrip_by p s).

(** [s.strip()] *)
Definition strip (s : string) : string := strip_by is_space s.

(** [s.strip(ch)] for a one-character argument. *)
Definition strip_char (ch : ascii) (s : string) : string :=
  strip_by (Ascii.eqb ch) s.

(** [s.startswith(p)] *)
Fixpoint startswith (s p : string) {struct p} : bool :=
  match p with
  | EmptyString => true
  | String a p' =>
      match s with
      | EmptyString => false
      | String b s' => Ascii.eqb a b && startswith s' p'
      end
  end.

(** [sub in s] *)
Fixpoint contains (sub s : string) : bool :=
  startswith s sub
  || match s with
     | EmptyString => false
     | String _ s' => contains sub s'
     end.

(** [s[:n]] and [s[n:]] for [n >= 0]. *)
Fixpoint take (n : nat) (s : string) : string :=
  match n, s with
  | S k, String c s' => String c (take k s')
  | _, _ => EmptyString
  end.

Fixpoint drop (n : nat) (s : string) : string :=
  match n, s with
  | S k, String _ s' => drop k s'
  | _, _ => s
  end.

(** [s.split(sep)] for a non-empty [sep]: the leftmost occurrences of
    [sep], not overlapping, cut the string.  [skip] counts the characters
    of a matched separator that are still to be passed over. *)
Fixpoint split_go (sep : string) (skip : nat) (s : string) : list string :=
  match s with
  | EmptyString => [EmptyString]
  | String c s' =>
      match skip with
      | S k => split_go sep k s'
      | O =>
          if startswith s sep
          then EmptyString :: split_go sep (String.length sep - 1) s'
          else match split_go sep 0 s' with
               | piece :: rest => String c piece :: rest
               | [] => [String c EmptyString]
               end
      end
  end.

Definition split (sep s : string) : list string := split_go sep 0 s.

(** [s.split()]: the maximal runs of characters that are not white space. *)
Fixpoint split_ws (s : string) : list string :=
  match s with
  | EmptyString => []
  | String c s' =>
      if is_space c then split_ws s'
      else match s' with
           | EmptyString => [String c EmptyString]
           | String c' _ =>
               if is_space c' then String c EmptyString :: split_ws s'
               else match split_ws s' with
                    | w :: ws => String c w :: ws
                    | [] => [String c EmptyString]
                    end
           end
  end.

(** [sep.join(l)] *)
Definition join (sep : string) (l : list string) : string :=
  String.concat sep l.

(** [s.lower()] on the letters A..Z: the case folding of [float(s)] on
    the words inf and nan, and the one taken for ILIKE. *)
Definition lower_char (c : ascii) : ascii :=
  let n := nat_of_ascii c in
  if ((65 <=? n) && (n <=? 90))%nat then ascii_of_nat (n + 32) else c.

Fixpoint lower (s : string) : string :=
  match s with
  | EmptyString => EmptyString
  | String c s' => String (lower_char c) (lower s')
  end.

(** Truth value of a string: [if s:] *)
Definition truthy (s : string) : bool :=
  match s with EmptyString => false | _ => true end.

End Py.

(** ** Python's [float] *)

Module PyFloat.

(** A Python [float] (and, for comparisons, an [int]) by the number it
    denotes: a finite value is sign * digits * 10^exp10, with a sign of its
    own so that -0.0 is told from 0.0.  A float is written here with the
    digits of its [repr], the shortest decimal that reads back as the same
    float; the order of these decimals is the order of the floats.  What is
    left out is the rounding of [float(s)] to 53 bits (a text of more than
    15 significant digits keeps all of them here) and the overflow to inf;
    neither changes a comparison with 0, 1, 90 or 180, which are floats. *)
Inductive t : Type :=
| Finite (neg : bool) (digits : N) (exp10 : Z)
| Inf (neg : bool)
| NaN.

Definition value (neg : bool) (digits : N) (exp10 : Z) : Q :=
  (inject_Z (if neg then - Z.of_N digits else Z.of_N digits)
   * inject_Z 10 ^ exp10)%Q.

Definition of_Z (z : Z) : t := Finite (z <? 0)%Z (Z.abs_N z) 0.

(** The three-way comparison behind [<], [<=], [>], [>=], [==]; [None]
    when one side is nan, on which every comparison is false. *)
Definition compare (a b : t) : option comparison :=
  match a, b with
  | NaN, _ | _, NaN => None
  | Inf s1, Inf s2 =>
      Some (if s1 then (if s2 then Eq else Lt) else (if s2 then Gt else Eq))
  | Inf s, Finite _ _ _ => Some (if s then Lt else Gt)
  | Finite _ _ _, Inf s => Some (if s then Gt else Lt)
  | Finite s1 m1 e1, Finite s2 m2 e2 =>
      Some (value s1 m1 e1 ?= value s2 m2 e2)%Q
  end.

Definition ltb (a b : t) : bool :=
  match compare a b with Some Lt => true | _ => false end.
Definition gtb (a b : t) : bool :=
  match compare a b with Some Gt => true | _ => false end.
Definition leb (a b : t) : bool :=
  match compare a b with Some Lt | Some Eq => true | _ => false end.
Definition geb (a b : t) : bool :=
  match compare a b with Some Gt | Some Eq => true | _ => false end.

(** The builtins [max(a, b)] and [min(a, b)]: the first argument is kept
    unless the second compares strictly greater (smaller). *)
Definition max (a b : t) : t := if gtb b a then b else a.
Definition min (a b : t) : t := if ltb b a then b else a.

(** *** [float(s)] *)

Definition is_digit (c : ascii) : bool :=
  let n := nat_of_ascii c in ((48 <=? n) && (n <=? 57))%nat.

Definition digit_val (c : ascii) : N := N.of_nat (nat_of_ascii c - 48).

(** Reads [digit (["_"] digit)*] after its first digit was seen: the value
    read so far, the number of digits, and what is left. *)
Fixpoint digits_go (acc : N) (cnt : nat) (s : string) : N * nat * string :=
  match s with
  | EmptyString => (acc, cnt, s)
  | String c s' =>
      if is_digit c then digits_go (10 * acc + digit_val c)%N (S cnt) s'
      else if Ascii.eqb c "_" then
        match s' with
        | String d s'' =>
            if is_digit d
            then digits_go (10 * acc + digit_val d)%N (S cnt) s''
            else (acc, cnt, s)
        | EmptyString => (acc, cnt, s)
        end
      else (acc, cnt, s)
  end.

Definition read_digits (s : string) : option (N * nat * string) :=
  match s with
  | String c _ => if is_digit c then Some (digits_go 0 0 s) else None
  | EmptyString => None
  end.

Definition read_sign (s : string) : bool * string :=
  match s with
  | String "-" s' => (true, s')
  | String "+" s' => (false, s')
  | _ => (false, s)
  end.

(** The optional exponent; [None] when the text is not a float. *)
Definition read_exponent (s : string) : option Z :=
  match s with
  | EmptyString => Some 0%Z
  | String c s' =>
      if Ascii.eqb c "e" || Ascii.eqb c "E" then
        let '(neg, s'') := read_sign s' in
        match read_digits s'' with
        | Some (x, _, EmptyString) =>
            Some (if neg then - Z.of_N x else Z.of_N x)%Z
        | _ => None
        end
      else None
  end.

(** Drops the trailing zeros of the digits. *)
Fixpoint normalize (fuel : nat) (m : N) (e : Z) : N * Z :=
  match fuel with
  | O => (m, e)
  | S k =>
      if (m =? 0)%N then (0%N, 0%Z)
      else if (m mod 10 =? 0)%N then normalize k (m / 10)%N (e + 1)%Z
      else (m, e)
  end.

Definition finite (neg : bool) (m : N) (cnt : nat) (e : Z) : t :=
  let '(m', e') := normalize (S cnt) m e in Finite neg m' e'.

Definition read_number (neg : bool) (s : string) : option t :=
  match read_digits s with
  | Some (i, ci, rest) =>
      match rest with
      | String "." rest' =>
          match read_digits rest' with
          | Some (f, cf, rest'') =>
              match read_exponent rest'' with
              | Some x =>
                  Some (finite neg (i * 10 ^ N.of_nat cf + f)%N (ci + cf)
                          (x - Z.of_nat cf)%Z)
              | None => None
              end
          | None =>
              match read_exponent rest' with
              | Some x => Some (finite neg i ci x)
              | None => None
              end
          end
      | _ =>
          match read_exponent rest with
          | Some x => Some (finite neg i ci x)
          | None => None
          end
      end
  | None =>
      match s with
      | String "." rest' =>
          match read_digits rest' with
          | Some (f, cf, rest'') =>
              match read_exponent rest'' with
              | Some x => Some (finite neg f cf (x - Z.of_nat cf)%Z)
              | None => None
              end
          | None => None
          end
      | _ => None
      end
  end.

(** [float(s)]: [None] stands for the [ValueError]. *)
Definition of_string (s : string) : option t :=
  let '(neg, body) := read_sign (Py.strip s) in
  let word := Py.lower body in
  if String.eqb word "inf" || String.eqb word "infinity" then Some (Inf neg)
  else if String.eqb word "nan" then Some NaN
  else read_number neg body.

(** *** [str(x)] of a float and of an int *)

Definition digits_of (m : N) : string := NilZero.string_of_uint (N.to_uint m).

Fixpoint zeros (n : nat) : string :=
  match n with O => EmptyString | S k => String "0" (zeros k) end.

Definition sign_str (neg : bool) : string := if neg then "-" else EmptyString.

Definition exponent_str (x : Z) : string :=
  let ds := digits_of (Z.abs_N x) in
  (if (x <? 0)%Z then "e-" else "e+")
  ++ (if (String.length ds <? 2)%nat then "0" ++ ds else ds).

(** [repr] of a float: positional notation when the decimal point falls
    within -4 < decpt <= 16, exponent notation otherwise. *)
Definition to_string (x : t) : string :=
  match x with
  | NaN => "nan"
  | Inf neg => sign_str neg ++ "inf"
  | Finite neg m e =>
      let '(m, e) := normalize (S (String.length (digits_of m))) m e in
      let ds := digits_of m in
      let n := Z.of_nat (String.length ds) in
      let decpt := (n + e)%Z in
      sign_str neg ++
      if (m =? 0)%N then "0.0"
      else if ((-4 <? decpt) && (decpt <=? 16))%Z then
        if (decpt <=? 0)%Z then "0." ++ zeros (Z.to_nat (- decpt)) ++ ds
        else if (n <=? decpt)%Z then ds ++ zeros (Z.to_nat (decpt - n)) ++ ".0"
        else Py.take (Z.to_nat decpt) ds ++ "." ++ Py.drop (Z.to_nat decpt) ds
      else
        Py.take 1 ds
        ++ (if (1 <? n)%Z then "." ++ Py.drop 1 ds else EmptyString)
        ++ exponent_str (decpt - 1)
  end.

Definition Z_to_string (z : Z) : string :=
  sign_str (z <? 0)%Z ++ digits_of (Z.abs_N z).

End PyFloat.

(** ** Exceptions and fallible results *)

(** The exception classes the sources raise, catch or let through.
    [JSONDecodeError] and pydantic's [ValidationError] are subclasses of
    [ValueError]; every class below is a subclass of [Exception].  What is
    not an [Exception] (the cancellation of a task, a keyboard interrupt)
    is no outcome of a call and is left out. *)
Inductive exc : Type :=
| JSONDecodeError
| ValidationError
| ValueError
| KeyError
| AttributeError
| TypeError
| IndexError
| RecursionError
| HTTPError                      (* httpx.HTTPError and its subclasses *)
| SQLAlchemyError                (* any error of the database layer *)
| ServiceError (what : string)   (* any other Exception of a client *)
| Wrapped (prefix : string) (cause : exc).
                                 (* raise Exception(f"{prefix}: {str(e)}") *)

Inductive result (A : Type) : Type :=
| Ok (a : A)
| Raise (e : exc).
Arguments Ok {A} a.
Arguments Raise {A} e.

Definition bind {A B} (r : result A) (k : A -> result B) : result B :=
  match r with
  | Ok a => k a
  | Raise e => Raise e
  end.

Declare Scope py_scope.
Delimit Scope py_scope with py.
Notation "x <- c ;; k" := (bind c (fun x => k))
  (at level 61, c at next level, right associativity) : py_scope.

(** [isinstance(e, ValueError)] and friends, following the class tree. *)
Definition is_JSONDecodeError (e : exc) : bool :=
  match e with JSONDecodeError => true | _ => false end.
Definition is_ValueError (e : exc) : bool :=
  match e with JSONDecodeError | ValidationError | ValueError => true | _ => false end.
Definition is_KeyError (e : exc) : bool :=
  match e with KeyError => true | _ => false end.
Definition is_AttributeError (e : exc) : bool :=
  match e with AttributeError => true | _ => false end.
Definition is_TypeError (e : exc) : bool :=
  match e with TypeError => true | _ => false end.
Definition is_HTTPError (e : exc) : bool :=
  match e with HTTPError => true | _ => false end.
Definition is_Exception (e : exc) : bool := true.

(** ** JSON values as Python objects

    What [json.loads] and [response.json()] return, with the operations the
    sources apply to such a value.  A dict keeps one entry per key; the
    first entry with a key is the one looked up. *)

#[local] Set Warnings "-register-all".
Inductive json : Type :=
| JNull
| JBool (b : bool)
| JInt (z : Z)
| JFloat (f : PyFloat.t)
| JStr (s : string)
| JList (items : list json)
| JDict (entries : list (string * json)).
#[local] Set Warnings "register-all".

Module Json.

Fixpoint lookup (key : string) (entries : list (string * json)) : option json :=
  match entries with
  | [] => None
  | (k, v) :: rest => if String.eqb k key then Some v else lookup key rest
  end.

(** [obj.get(key, default)]: only a dict has the method. *)
Definition get (obj : json) (key : string) (default : json) : result json :=
  match obj with
  | JDict entries =>
      Ok (match lookup key entries with Some v => v | None => default end)
  | _ => Raise AttributeError
  end.

(** [obj[key]] with a string key. *)
Definition item (obj : json) (key : string) : result json :=
  match obj with
  | JDict entries =>
      match lookup key entries with Some v => Ok v | None => Raise KeyError end
  | JStr _ | JList _ => Raise TypeError
  | _ => Raise TypeError
  end.

(** [obj[0]] *)
Definition first (obj : json) : result json :=
  match obj with
  | JList (x :: _) => Ok x
  | JList [] => Raise IndexError
  | JStr (String c _) => Ok (JStr (String c EmptyString))
  | JStr EmptyString => Raise IndexError
  | JDict _ => Raise KeyError
  | _ => Raise TypeError
  end.

(** [len(obj)] *)
Definition len (obj : json) : result nat :=
  match obj with
  | JStr s => Ok (String.length s)
  | JList l => Ok (List.length l)
  | JDict d => Ok (List.length d)
  | _ => Raise TypeError
  end.

(** Truth value: [if obj:] *)
Definition truthy (obj : json) : bool :=
  match obj with
  | JNull => false
  | JBool b => b
  | JInt z => negb (z =? 0)%Z
  | JFloat f =>
      match PyFloat.compare f (PyFloat.of_Z 0) with
      | Some Eq => false
      | _ => true
      end
  | JStr s => Py.truthy s
  | JList l => match l with [] => false | _ => true end
  | JDict d => match d with [] => false | _ => true end
  end.

(** The number an int, a bool or a float denotes in a comparison. *)
Definition as_number (obj : json) : option PyFloat.t :=
  match obj with
  | JBool b => Some (PyFloat.of_Z (if b then 1 else 0))
  | JInt z => Some (PyFloat.of_Z z)
  | JFloat f => Some f
  | _ => None
  end.

(** [lo <= obj] and [obj <= hi] against an int constant: a [TypeError]
    unless [obj] is a number. *)
Definition ge_int (obj : json) (lo : Z) : result bool :=
  match as_number obj with
  | Some x => Ok (PyFloat.leb (PyFloat.of_Z lo) x)
  | None => Raise TypeError
  end.

Definition le_int (obj : json) (hi : Z) : result bool :=
  match as_number obj with
  | Some x => Ok (PyFloat.leb x (PyFloat.of_Z hi))
  | None => Raise TypeError
  end.

(** [str(obj)] of a number, as an f-string interpolates it. *)
Definition number_str (obj : json) : string :=
  match obj with
  | JBool b => if b then "True" else "False"
  | JInt z => PyFloat.Z_to_string z
  | JFloat f => PyFloat.to_string f
  | _ => EmptyString
  end.

(** [obj.split()]: only a str has the method. *)
Definition split_ws (obj : json) : result (list string) :=
  match obj with
  | JStr s => Ok (Py.split_ws s)
  | _ => Raise AttributeError
  end.

(** pydantic, field of type [Optional[str]]. *)
Definition as_optional_str (obj : json) : result (option string) :=
  match obj with
  | JNull => Ok None
  | JStr s => Ok (Some s)
  | _ => Raise ValidationError
  end.

(** pydantic, field of type [str]. *)
Definition as_str (obj : json) : result string :=
  match obj with
  | JStr s => Ok s
  | _ => Raise ValidationError
  end.

(** pydantic, field of type [Optional[float]]: an int or a bool is
    converted to the float of the same value. *)
Definition as_optional_float (obj : json) : result (option PyFloat.t) :=
  match obj with
  | JNull => Ok None
  | _ => match as_number obj with
         | Some x => Ok (Some x)
         | None => Raise ValidationError
         end
  end.

End Json.

(** [json.loads], a function of the Python library.  On a text it returns
    a value or raises: [JSONDecodeError] where the text is no JSON,
    [RecursionError] where it is nested too deep, [ValueError] where an
    integer has more digits than the interpreter converts.  The sources are
    modelled for whatever it raises. *)
Definition json_parser : Type := string -> result json.

Definition loads (parse : json_parser) (text : string) : result json :=
  parse text.

(** ** services/ai_utils.py: [clean_json_response] *)

Module AiUtils.

Definition fence : string := "```".

(** [content.split("```")[1]]; the index exists whenever the fence occurs,
    an [IndexError] stands for the impossible other case. *)
Definition second_piece (content : string) : result string :=
  match nth_error (Py.split fence content) 1 with
  | Some piece => Ok piece
  | None => Raise IndexError
  end.

Definition drop_json_tag (content : string) : string :=
  if Py.startswith content "json" then Py.drop 4 content else content.

(** The block shared by [clean_json_response] and the facets that repeat
    it inline: cut at the fence if there is one, then trim. *)
Definition unfence (content : string) : result string :=
  (content <-
     (if Py.contains fence content
      then (piece <- second_piece content ;; Ok (drop_json_tag piece))
      else Ok content) ;;
   Ok (Py.strip content))%py.

Definition clean_json_response (content : string) : result string :=
  unfence (Py.strip content).

End AiUtils.

(** ** services/ai_constants.py *)

Module AiConstants.

Definition float_0_7 : PyFloat.t := PyFloat.Finite false 7 (-1).

Module DEFAULT_FALLBACKS.
Definition tags : list json := [JStr "#Africa"; JStr "#News"; JStr "#Development"].
Definition wikipedia_snippet : string :=
  "This article covers topics of significance to African audiences and regional development.".
Definition social_sentiment : string := "neutral".
Definition search_trend : string := "stable".
Definition relevance_score : PyFloat.t := float_0_7.
Definition media_justification : string :=
  "High-quality media content selected from authoritative sources for African audience engagement and understanding".
Definition featured_image_url : string :=
  "https://images.unsplash.com/photo-1484417894907-623942c8ee29?w=800&q=80".
Definition related_video_url : string :=
  "https://www.youtube.com/watch?v=zn8o_DwUwFk".
End DEFAULT_FALLBACKS.

Module CONTENT_LIMITS.
Definition max_tags : nat := 5.
Definition min_tags : nat := 3.
End CONTENT_LIMITS.

End AiConstants.

(** ** models/data_models.py

    The pydantic models, with the validation their constructors run on the
    values the services pass in. *)

Module RawNewsInput.
Record t : Type := mk {
  title : string;
  body : string;
  source_url : string;
  author : option string;
  published_date : option string
}.
End RawNewsInput.

Module EnrichedNewsMedia.
Record t : Type := mk {
  search_query : option string;
  featured_image_url : option string;
  image_caption : option string;
  related_video_url : option string;
  video_caption : option string;
  media_justification : option string
}.

(** [EnrichedNewsMedia(search_query=..., ...)]: each field is validated
    as [Optional[str]], in the order of declaration. *)
Definition make (search_query featured_image_url image_caption
                 related_video_url video_caption media_justification : json)
    : result t :=
  (q <- Json.as_optional_str search_query ;;
   i <- Json.as_optional_str featured_image_url ;;
   ic <- Json.as_optional_str image_caption ;;
   v <- Json.as_optional_str related_video_url ;;
   vc <- Json.as_optional_str video_caption ;;
   j <- Json.as_optional_str media_justification ;;
   Ok (mk q i ic v vc j))%py.
End EnrichedNewsMedia.

Module EnrichedNewsContext.
Record t : Type := mk {
  wikipedia_snippet : option string;
  social_sentiment : option string;
  search_trend : option string
}.

Definition make (wikipedia_snippet social_sentiment search_trend : json)
    : result t :=
  (w <- Json.as_optional_str wikipedia_snippet ;;
   s <- Json.as_optional_str social_sentiment ;;
   t <- Json.as_optional_str search_trend ;;
   Ok (mk w s t))%py.
End EnrichedNewsContext.

Module Geo.
Record t : Type := mk {
  lat : option PyFloat.t;
  lng : option PyFloat.t;
  map_url : option string
}.

(** [Geo()] *)
Definition empty : t := mk None None None.

(** [Geo(lat=..., lng=..., map_url=...)] *)
Definition make (lat lng map_url : json) : result t :=
  (a <- Json.as_optional_float lat ;;
   b <- Json.as_optional_float lng ;;
   u <- Json.as_optional_str map_url ;;
   Ok (mk a b u))%py.
End Geo.

Module FinalNewsOutput.
Record t : Type := mk {
  id : string;
  title : string;
  body : string;
  source_url : string;
  publisher : option string;
  published_at : option string;
  summary : string;
  tags : list string;
  relevance_score : PyFloat.t;
  media : EnrichedNewsMedia.t;
  context : EnrichedNewsContext.t;
  geo : Geo.t;
  ingested_at : string
}.

(** [tags: List[str]] *)
Fixpoint validate_tags (tags : list json) : result (list string) :=
  match tags with
  | [] => Ok []
  | x :: rest =>
      (s <- Json.as_str x ;;
       others <- validate_tags rest ;;
       Ok (s :: others))%py
  end.

(** [relevance_score: float = Field(..., ge=0.0, le=1.0)].  The two bounds
    are checked by pydantic's compiled validator, which is not part of the
    sources.  On nan every comparison is false, so a check that refuses a
    value below [ge] lets nan through and a check that refuses a value not
    at or above [ge] refuses it: [nan_meets_bounds] is the answer of the
    validator at hand. *)
Definition validate_score (nan_meets_bounds : bool) (x : PyFloat.t)
    : result PyFloat.t :=
  match x with
  | PyFloat.NaN => if nan_meets_bounds then Ok x else Raise ValidationError
  | _ =>
      if PyFloat.geb x (PyFloat.of_Z 0) && PyFloat.leb x (PyFloat.of_Z 1)
      then Ok x else Raise ValidationError
  end.

(** [FinalNewsOutput(id=..., title=..., ...)] *)
Definition make (nan_meets_bounds : bool) (id title body source_url : string)
    (publisher published_at : option string) (summary : string)
    (tags : list json) (relevance_score : PyFloat.t)
    (media : EnrichedNewsMedia.t) (context : EnrichedNewsContext.t)
    (geo : Geo.t) (ingested_at : string) : result t :=
  (tags <- validate_tags tags ;;
   score <- validate_score nan_meets_bounds relevance_score ;;
   Ok (mk id title body source_url publisher published_at summary tags score
          media context geo ingested_at))%py.
End FinalNewsOutput.


(** ** The outside world of the services *)

(** A prompt sent to the generative service.  Each prompt of the sources
    is a fixed instruction text around the values interpolated into it; the
    constructor names the instruction, its arguments are the values. *)
Inductive prompt : Type :=
| SummaryPrompt (title body : string)
| TagsPrompt (title body_preview : string)
| RelevanceScorePrompt (title body_preview : string)
| MediaQueryPrompt (title body_preview : string)
| ContextPrompt (title body_preview : string)
| GeoPrompt (title body_preview : string).

(** [client.models.generate_content(model=..., contents=prompt)] followed
    by [response.text]: the call raises, or the response carries a text,
    or its text is [None]. *)
Definition gen_client : Type := prompt -> result (option string).

(** [httpx.AsyncClient(timeout=30.0).get(url, headers=..., params={"q": q,
    "count": count})], [raise_for_status()] and [response.json()]: one of
    them raises, or the decoded body is returned. *)
Definition http_client : Type := string -> string -> Z -> result json.

(** [try: ... except C1: h1  except C2: h2 ...]: the first clause whose
    classes match handles the exception. *)
Fixpoint handle {A} (e : exc)
    (clauses : list ((exc -> bool) * (exc -> result A))) : result A :=
  match clauses with
  | [] => Raise e
  | (catches, handler) :: rest =>
      if catches e then handler e else handle e rest
  end.

Definition try_ {A} (body : result A)
    (clauses : list ((exc -> bool) * (exc -> result A))) : result A :=
  match body with
  | Ok a => Ok a
  | Raise e => handle e clauses
  end.

(** ** services/brave_search_service.py *)

Module BraveSearchService.

Record t : Type := mk {
  api_key : option string;
  image_search_url : string;
  video_search_url : string;
  http : http_client
}.

(** [not self.api_key] *)
Definition no_api_key (self : t) : bool :=
  match api_key self with
  | None => true
  | Some k => negb (Py.truthy k)
  end.

(** [data.get("results") and len(data["results"]) > 0] *)
Definition has_results (data : json) : result bool :=
  (r <- Json.get data "results" JNull ;;
   if Json.truthy r
   then (rs <- Json.item data "results" ;;
         n <- Json.len rs ;;
         Ok (0 <? n)%nat)
   else Ok false)%py.

Definition search_images (self : t) (query : string) (count : Z)
    : result (option json) :=
  if no_api_key self then Ok None
  else
    try_
      (data <- http self (image_search_url self) query count ;;
       found <- has_results data ;;
       if found then
         rs <- Json.item data "results" ;;
         first_result <- Json.first rs ;;
         props <- Json.get first_result "properties" (JDict []) ;;
         image_url <- Json.get props "url" JNull ;;
         page_url <- Json.get first_result "url" JNull ;;
         title <- Json.get first_result "title" JNull ;;
         source <- Json.get first_result "source" JNull ;;
         thumb <- Json.get first_result "thumbnail" (JDict []) ;;
         thumb_src <- Json.get thumb "src" JNull ;;
         props_w <- Json.get first_result "properties" (JDict []) ;;
         width <- Json.get props_w "width" JNull ;;
         props_h <- Json.get first_result "properties" (JDict []) ;;
         height <- Json.get props_h "height" JNull ;;
         Ok (Some (JDict [("url", image_url); ("page_url", page_url);
                          ("title", title); ("source", source);
                          ("thumbnail", thumb_src);
                          ("width", width); ("height", height)]))
       else Ok None)%py
      [ (is_HTTPError, fun _ => Ok None);
        (is_Exception, fun _ => Ok None) ].

Definition search_videos (self : t) (query : string) (count : Z)
    : result (option json) :=
  if no_api_key self then Ok None
  else
    try_
      (data <- http self (video_search_url self) query count ;;
       found <- has_results data ;;
       if found then
         rs <- Json.item data "results" ;;
         first_result <- Json.first rs ;;
         url <- Json.get first_result "url" JNull ;;
         title <- Json.get first_result "title" JNull ;;
         description <- Json.get first_result "description" JNull ;;
         thumb <- Json.get first_result "thumbnail" (JDict []) ;;
         thumb_src <- Json.get thumb "src" JNull ;;
         meta <- Json.get first_result "meta_url" (JDict []) ;;
         duration <- Json.get meta "duration" JNull ;;
         Ok (Some (JDict [("url", url); ("title", title);
                          ("description", description);
                          ("thumbnail", thumb_src);
                          ("duration", duration)]))
       else Ok None)%py
      [ (is_HTTPError, fun _ => Ok None);
        (is_Exception, fun _ => Ok None) ].

(** The dict [discover_media] returns, one field per key. *)
Record media_results : Type := mk_results {
  query : string;
  image_url : json;
  image_metadata : option json;
  video_url : json;
  video_metadata : option json
}.

(** [result.get("url") if result else None] *)
Definition url_of (found : option json) : result json :=
  match found with
  | Some d => if Json.truthy d then Json.get d "url" JNull else Ok JNull
  | None => Ok JNull
  end.

Definition discover_media (self : t) (query : string) : result media_results :=
  (image_result <- search_images self query 1 ;;
   video_result <- search_videos self query 1 ;;
   image_url <- url_of image_result ;;
   video_url <- url_of video_result ;;
   Ok (mk_results query image_url image_result video_url video_result))%py.

End BraveSearchService.

(** ** services/ai_service.py *)

Module AIService.
Import AiConstants.

Record t : Type := mk {
  use_mock : bool;
  client : gen_client
}.

(** The result of [enrich_news], one field per key of its dict. *)
Record enrichment : Type := mk_enrichment {
  summary : string;
  tags : list json;
  relevance_score : PyFloat.t;
  media : EnrichedNewsMedia.t;
  context : EnrichedNewsContext.t;
  geo : Geo.t
}.

(** [response.text.strip()]: an [AttributeError] when the text is [None]. *)
Definition text_strip (text : option string) : result string :=
  match text with
  | Some s => Ok (Py.strip s)
  | None => Raise AttributeError
  end.

Definition mock_tags : list json :=
  [JStr "#Africa"; JStr "#News"; JStr "#Technology"].

(** [while len(tags) < min_tags: tags.append("#Africa")]; the loop runs at
    most [min_tags] times, which [fuel] counts. *)
Fixpoint pad_tags (fuel : nat) (tags : list json) : list json :=
  match fuel with
  | O => tags
  | S k =>
      if (List.length tags <? CONTENT_LIMITS.min_tags)%nat
      then pad_tags k (tags ++ [JStr "#Africa"])%list
      else tags
  end.

Definition mock_media : EnrichedNewsMedia.t :=
  EnrichedNewsMedia.mk
    (Some "African development technology")
    (Some DEFAULT_FALLBACKS.featured_image_url)
    (Some "High-quality image relevant to African development")
    (Some DEFAULT_FALLBACKS.related_video_url)
    (Some "Authoritative video content")
    (Some DEFAULT_FALLBACKS.media_justification).

Definition fallback_media (title : string) : EnrichedNewsMedia.t :=
  EnrichedNewsMedia.mk
    (Some (Py.take 100 title))
    (Some DEFAULT_FALLBACKS.featured_image_url)
    (Some "High-quality image relevant to African development")
    (Some EmptyString)
    None
    (Some DEFAULT_FALLBACKS.media_justification).

Definition mock_context : EnrichedNewsContext.t :=
  EnrichedNewsContext.mk
    (Some DEFAULT_FALLBACKS.wikipedia_snippet)
    (Some DEFAULT_FALLBACKS.social_sentiment)
    (Some DEFAULT_FALLBACKS.search_trend).

Definition fallback_context : EnrichedNewsContext.t :=
  EnrichedNewsContext.mk
    (Some "This article covers topics of significance to African audiences and regional development.")
    (Some "neutral")
    (Some "stable").

Definition short_snippet_default : string :=
  "This article provides important insights relevant to African markets, regional development, and continental progress.".

Definition mock_geo : Geo.t :=
  Geo.mk (Some (PyFloat.Finite true 1286389 (-6)))
         (Some (PyFloat.Finite false 36817223 (-6)))
         (Some "https://www.google.com/maps?q=-1.286389,36.817223").

(** [f"https://www.google.com/maps?q={lat},{lng}"] *)
Definition maps_url (lat lng : json) : string :=
  "https://www.google.com/maps?q=" ++ Json.number_str lat ++ ","
  ++ Json.number_str lng.

(** The caption made of a result's title:
    [" ".join(words[:15]) if len(words) > 15 else title], when the title is
    true; [None] otherwise. *)
Definition caption_of (title : json) : result json :=
  if Json.truthy title then
    (words <- Json.split_ws title ;;
     Ok (if (15 <? List.length words)%nat
         then JStr (Py.join " " (firstn 15 words))
         else title))%py
  else Ok JNull.

(** [media_results["..._metadata"].get("title", "")] under the guard
    [url and media_results.get("..._metadata")]. *)
Definition caption_for (url : json) (metadata : option json) : result json :=
  match metadata with
  | Some md =>
      if Json.truthy url && Json.truthy md
      then (title <- Json.get md "title" (JStr EmptyString) ;;
            caption_of title)%py
      else Ok JNull
  | None => Ok JNull
  end.

Definition justification_of (search_query : string) (image_url video_url : json)
    : string :=
  "Media content discovered using search query '" ++ search_query
  ++ "' via Brave Search API. "
  ++ (if Json.truthy image_url
      then "Image sourced from authoritative content providers. "
      else EmptyString)
  ++ (if Json.truthy video_url
      then "Video content from verified sources. "
      else EmptyString)
  ++ "Selected to provide visual context relevant to the article's themes and regional audience interests.".

Section Facets.

(** [json.loads] and the module-level [brave_search_service]. *)
Variable json_loads : json_parser.
Variable brave_search_service : BraveSearchService.t.

Variable self : t.

Definition generate_summary (title body : string) : result string :=
  if use_mock self
  then Ok (Py.join " " (firstn 30 (Py.split_ws body)) ++ "...")
  else (text <- client self (SummaryPrompt title body) ;;
        text_strip text)%py.

Definition generate_tags (title body : string) : result (list json) :=
  if use_mock self then Ok mock_tags
  else
    try_
      (text <- client self (TagsPrompt title (Py.take 800 body)) ;;
       content <- text_strip text ;;
       cleaned_content <- AiUtils.clean_json_response content ;;
       tags <- loads json_loads cleaned_content ;;
       match tags with
       | JList (first :: others) =>
           let tags := (first :: others)%list in
           let tags :=
             if (List.length tags <? CONTENT_LIMITS.min_tags)%nat
             then pad_tags CONTENT_LIMITS.min_tags tags
             else tags in
           Ok (firstn CONTENT_LIMITS.max_tags tags)
       | _ => Ok DEFAULT_FALLBACKS.tags
       end)%py
      [ (fun e => is_JSONDecodeError e || is_KeyError e || is_Exception e,
         fun _ => Ok DEFAULT_FALLBACKS.tags) ].

Definition calculate_relevance_score (title body : string)
    : result PyFloat.t :=
  if use_mock self then Ok DEFAULT_FALLBACKS.relevance_score
  else
    try_
      (text <- client self (RelevanceScorePrompt title (Py.take 800 body)) ;;
       score_str <- text_strip text ;;
       score <- match PyFloat.of_string score_str with
                | Some x => Ok x
                | None => Raise ValueError
                end ;;
       Ok (PyFloat.min (PyFloat.max score (PyFloat.of_Z 0)) (PyFloat.of_Z 1)))%py
      [ (fun e => is_ValueError e || is_AttributeError e || is_Exception e,
         fun _ => Ok DEFAULT_FALLBACKS.relevance_score) ].

Definition generate_media_search_query (title body : string) : result string :=
  if use_mock self then Ok (Py.take 50 title)
  else
    try_
      (text <- client self (MediaQueryPrompt title (Py.take 800 body)) ;;
       query <- text_strip text ;;
       let query := Py.strip_char "'" (Py.strip_char "034" query) in
       let words := Py.split_ws query in
       Ok (if (7 <? List.length words)%nat
           then Py.join " " (firstn 7 words)
           else query))%py
      [ (is_Exception, fun _ => Ok (Py.take 100 title)) ].

Definition discover_media (title body : string) (tags : list json)
    : result EnrichedNewsMedia.t :=
  if use_mock self then Ok mock_media
  else
    try_
      (search_query <- generate_media_search_query title body ;;
       media_results <-
         BraveSearchService.discover_media brave_search_service search_query ;;
       let image_url := BraveSearchService.image_url media_results in
       let video_url := BraveSearchService.video_url media_results in
       image_caption <-
         caption_for image_url (BraveSearchService.image_metadata media_results) ;;
       video_caption <-
         caption_for video_url (BraveSearchService.video_metadata media_results) ;;
       let justification := justification_of search_query image_url video_url in
       let '(image_url, image_caption) :=
         if negb (Json.truthy image_url)
         then (JStr DEFAULT_FALLBACKS.featured_image_url,
               JStr "High-quality image relevant to African development")
         else (image_url, image_caption) in
       let '(video_url, video_caption) :=
         if negb (Json.truthy video_url)
         then (JStr EmptyString, JNull)
         else (video_url, video_caption) in
       EnrichedNewsMedia.make
         (JStr search_query)
         image_url
         image_caption
         (if Json.truthy video_url then video_url else JStr EmptyString)
         video_caption
         (JStr justification))%py
      [ (is_Exception, fun _ => Ok (fallback_media title)) ].

(** [snippet = data.get("wikipedia_snippet", "")] and the quality test
    [not snippet or len(snippet) < 20]. *)
Definition quality_snippet (data : json) : result json :=
  (snippet <- Json.get data "wikipedia_snippet" (JStr EmptyString) ;;
   if negb (Json.truthy snippet) then Ok (JStr short_snippet_default)
   else (n <- Json.len snippet ;;
         Ok (if (n <? 20)%nat then JStr short_snippet_default else snippet)))%py.

Definition extract_context (title body : string) : result EnrichedNewsContext.t :=
  if use_mock self then Ok mock_context
  else
    try_
      (text <- client self (ContextPrompt title (Py.take 1200 body)) ;;
       content <- text_strip text ;;
       content <- AiUtils.unfence content ;;
       data <- loads json_loads content ;;
       snippet <- quality_snippet data ;;
       sentiment <- Json.get data "social_sentiment" (JStr "neutral") ;;
       trend <- Json.get data "search_trend" (JStr "stable") ;;
       EnrichedNewsContext.make snippet sentiment trend)%py
      [ (fun e => is_JSONDecodeError e || is_KeyError e || is_AttributeError e,
         fun _ => Ok fallback_context) ].

Definition is_None (v : json) : bool :=
  match v with JNull => true | _ => false end.

(** [-90 <= lat <= 90 and -180 <= lng <= 180], evaluated left to right
    and stopping at the first comparison that is false. *)
Definition coordinates_in_range (lat lng : json) : result bool :=
  (c <- Json.ge_int lat (-90) ;;
   if negb c then Ok false else
   c <- Json.le_int lat 90 ;;
   if negb c then Ok false else
   c <- Json.ge_int lng (-180) ;;
   if negb c then Ok false else
   Json.le_int lng 180)%py.

Definition extract_geo (title body : string) : result Geo.t :=
  if use_mock self then Ok mock_geo
  else
    try_
      (text <- client self (GeoPrompt title (Py.take 1200 body)) ;;
       content <- text_strip text ;;
       content <- AiUtils.unfence content ;;
       data <- loads json_loads content ;;
       lat <- Json.get data "lat" JNull ;;
       lng <- Json.get data "lng" JNull ;;
       if negb (is_None lat) && negb (is_None lng) then
         ok <- coordinates_in_range lat lng ;;
         if ok then Geo.make lat lng (JStr (maps_url lat lng))
         else Ok Geo.empty
       else Ok Geo.empty)%py
      [ (fun e => is_JSONDecodeError e || is_KeyError e
                  || is_AttributeError e || is_ValueError e,
         fun _ => Ok Geo.empty) ].

Definition enrich_news (raw_input : RawNewsInput.t) : result enrichment :=
  let title := RawNewsInput.title raw_input in
  let body := RawNewsInput.body raw_input in
  (summary <- generate_summary title body ;;
   tags <- generate_tags title body ;;
   relevance_score <- calculate_relevance_score title body ;;
   media <- discover_media title body tags ;;
   context <- extract_context title body ;;
   geo <- extract_geo title body ;;
   Ok (mk_enrichment summary tags relevance_score media context geo))%py.

End Facets.

End AIService.

(** ** db/models.py: the table [news_articles] *)

Module NewsArticle.

(** One row.  [id] is the serial primary key; the three timestamps are
    filled by the server ([server_default=func.now()], and
    [onupdate=func.now()] for [updated_at]).  A column declared
    [nullable=False] that the code can hand [None] keeps an option here and
    is checked when the row is written. *)
Record t : Type := mk {
  id : Z;
  slug : string;
  title : string;
  body : string;
  source_url : string;
  author : option string;
  published_date : option string;
  summary : string;
  tags : list string;
  sentiment_label : option string;
  sentiment_score : PyFloat.t;
  featured_image_url : option string;
  related_video_url : option string;
  media_justification : option string;
  wikipedia_snippet : option string;
  search_trend : option string;
  geo_lat : option PyFloat.t;
  geo_lng : option PyFloat.t;
  map_url : option string;
  images : list json;
  videos : list json;
  relevance_score : PyFloat.t;
  ingested_at : Z;
  created_at : Z;
  updated_at : Z
}.

Definition fits (limit : nat) (s : string) : bool :=
  (String.length s <=? limit)%nat.

Definition fits_opt (limit : nat) (s : option string) : bool :=
  match s with Some x => fits limit x | None => true end.

(** The column constraints a written row must meet: [nullable=False] and
    the [String(n)] lengths. *)
Definition constraints_ok (r : t) : bool :=
  match sentiment_label r with
  | None => false
  | Some label => fits 50 label
  end
  && fits 255 (slug r) && fits 500 (title r) && fits 1000 (source_url r)
  && fits_opt 255 (author r) && fits_opt 50 (published_date r)
  && fits_opt 1000 (featured_image_url r)
  && fits_opt 1000 (related_video_url r)
  && fits_opt 50 (search_trend r) && fits_opt 1000 (map_url r).

(** The server-side values of an INSERT. *)
Definition inserted (r : t) (new_id now : Z) : t :=
  mk new_id (slug r) (title r) (body r) (source_url r) (author r)
     (published_date r) (summary r) (tags r) (sentiment_label r)
     (sentiment_score r) (featured_image_url r) (related_video_url r)
     (media_justification r) (wikipedia_snippet r) (search_trend r)
     (geo_lat r) (geo_lng r) (map_url r) (images r) (videos r)
     (relevance_score r) now now now.

(** The server-side value of an UPDATE. *)
Definition updated (r : t) (now : Z) : t :=
  mk (id r) (slug r) (title r) (body r) (source_url r) (author r)
     (published_date r) (summary r) (tags r) (sentiment_label r)
     (sentiment_score r) (featured_image_url r) (related_video_url r)
     (media_justification r) (wikipedia_snippet r) (search_trend r)
     (geo_lat r) (geo_lng r) (map_url r) (images r) (videos r)
     (relevance_score r) (ingested_at r) (created_at r) now.

End NewsArticle.

(** ** db/database.py: the session

    An [AsyncSession] made by [async_sessionmaker(..., autoflush=False)],
    inside one transaction.  [table] is the table as the transaction sees
    it, [begun] the table when the transaction began (what a rollback
    returns to), [new] the objects added and not yet flushed, [dirty] the
    loaded objects whose attributes were assigned.  [sequence] is the next
    value of the serial column, [now] the value of [func.now()] in this
    transaction.  [faults] tells, statement by statement, whether the
    database fails it (a lost connection, a timeout): the statements of a
    run consume it from the left, and past its end none fails. *)

Module Session.

Record t : Type := mk {
  table : list NewsArticle.t;
  begun : list NewsArticle.t;
  new : list NewsArticle.t;
  dirty : list NewsArticle.t;
  sequence : Z;
  now : Z;
  faults : list bool
}.

Definition set_table (s : t) (rows : list NewsArticle.t) : t :=
  mk rows (begun s) (new s) (dirty s) (sequence s) (now s) (faults s).
Definition set_new (s : t) (objs : list NewsArticle.t) : t :=
  mk (table s) (begun s) objs (dirty s) (sequence s) (now s) (faults s).
Definition set_dirty (s : t) (objs : list NewsArticle.t) : t :=
  mk (table s) (begun s) (new s) objs (sequence s) (now s) (faults s).
Definition set_sequence (s : t) (n : Z) : t :=
  mk (table s) (begun s) (new s) (dirty s) n (now s) (faults s).
Definition set_faults (s : t) (f : list bool) : t :=
  mk (table s) (begun s) (new s) (dirty s) (sequence s) (now s) f.

(** Code that runs against a session: a result and the session after. *)
Definition io (A : Type) : Type := t -> result A * t.

Definition ret {A} (a : A) : io A := fun s => (Ok a, s).
Definition throw {A} (e : exc) : io A := fun s => (Raise e, s).
Definition lift {A} (r : result A) : io A := fun s => (r, s).

Definition bind {A B} (c : io A) (k : A -> io B) : io B :=
  fun s =>
    match c s with
    | (Ok a, s') => k a s'
    | (Raise e, s') => (Raise e, s')
    end.

(** [try: body  except Exception as e: raise Exception(f"{prefix}: {e}")] *)
Definition reraise {A} (prefix : string) (body : io A) : io A :=
  fun s =>
    match body s with
    | (Ok a, s') => (Ok a, s')
    | (Raise e, s') => (Raise (Wrapped prefix e), s')
    end.

(** One statement reaching the database. *)
Definition statement : io unit :=
  fun s =>
    match faults s with
    | true :: rest => (Raise SQLAlchemyError, set_faults s rest)
    | false :: rest => (Ok tt, set_faults s rest)
    | [] => (Ok tt, s)
    end.

(** [session.execute(select(NewsArticle).where(...))]; with autoflush off
    the statement reads the table and leaves the session as it is. *)
Definition select (cond : NewsArticle.t -> bool) : io (list NewsArticle.t) :=
  bind statement (fun _ s => (Ok (filter cond (table s)), s)).

(** [result.scalar_one_or_none()] and [result.scalar_one()] *)
Definition scalar_one_or_none (rows : list NewsArticle.t)
    : result (option NewsArticle.t) :=
  match rows with
  | [] => Ok None
  | [r] => Ok (Some r)
  | _ => Raise SQLAlchemyError
  end.

Definition scalar_one (rows : list NewsArticle.t) : result NewsArticle.t :=
  match rows with
  | [r] => Ok r
  | _ => Raise SQLAlchemyError
  end.

(** [session.add(obj)] *)
Definition add (obj : NewsArticle.t) : io unit :=
  fun s => (Ok tt, set_new s (new s ++ [obj])%list).

(** Assigning attributes of a loaded object: the session holds the
    modified object until the flush. *)
Definition assign (obj : NewsArticle.t) : io unit :=
  fun s =>
    (Ok tt,
     set_dirty s
       (filter (fun o => negb (NewsArticle.id o =? NewsArticle.id obj)%Z)
               (dirty s) ++ [obj])%list).

Definition slug_taken (slug : string) (rows : list NewsArticle.t) : bool :=
  existsb (fun r => String.eqb (NewsArticle.slug r) slug) rows.

(** INSERT of one object: the sequence advances before the constraints
    are checked. *)
Definition insert_row (obj : NewsArticle.t) : io unit :=
  bind statement (fun _ s =>
    let row := NewsArticle.inserted obj (sequence s) (now s) in
    let s := set_sequence s (sequence s + 1)%Z in
    if NewsArticle.constraints_ok row
       && negb (slug_taken (NewsArticle.slug row) (table s))
    then (Ok tt, set_table s (table s ++ [row])%list)
    else (Raise SQLAlchemyError, s)).

(** UPDATE of one modified object, by primary key. *)
Definition update_row (obj : NewsArticle.t) : io unit :=
  bind statement (fun _ s =>
    let row := NewsArticle.updated obj (now s) in
    if NewsArticle.constraints_ok row
    then (Ok tt,
          set_table s
            (map (fun r => if (NewsArticle.id r =? NewsArticle.id row)%Z
                           then row else r)
                 (table s)))
    else (Raise SQLAlchemyError, s)).

Fixpoint for_each {A} (f : A -> io unit) (l : list A) : io unit :=
  match l with
  | [] => ret tt
  | x :: rest => bind (f x) (fun _ => for_each f rest)
  end.

(** [session.rollback()] *)
Definition rollback (s : t) : t :=
  mk (begun s) (begun s) [] [] (sequence s) (now s) (faults s).

(** [session.flush()]: the pending INSERTs, then the UPDATEs; a statement
    that fails rolls the transaction back and the error is raised. *)
Definition flush : io unit :=
  fun s =>
    let pending_new := new s in
    let pending_dirty := dirty s in
    let s := set_dirty (set_new s []) [] in
    match bind (for_each insert_row pending_new)
               (fun _ => for_each update_row pending_dirty) s with
    | (Ok tt, s') => (Ok tt, s')
    | (Raise e, s') => (Raise e, rollback s')
    end.

(** [session.commit()] *)
Definition commit : io unit :=
  bind flush (fun _ =>
  bind statement (fun _ s =>
    (Ok tt, mk (table s) (table s) [] [] (sequence s) (now s) (faults s)))).

(** [Database.get_session]: the session a request handler is given, and
    what happens to it when the handler returns or raises. *)
Definition opened (rows : list NewsArticle.t) (sequence now : Z)
    (faults : list bool) : t :=
  mk rows rows [] [] sequence now faults.

Definition get_session {A} (handler : io A) : io A :=
  fun s =>
    match bind handler (fun a => bind commit (fun _ => ret a)) s with
    | (Ok a, s') => (Ok a, s')
    | (Raise e, s') => (Raise e, rollback s')
    end.

End Session.

Notation "x <~ c ;; k" := (Session.bind c (fun x => k))
  (at level 61, c at next level, right associativity) : py_scope.

(** ** What the statement of [search_news] is written to evaluate *)

Module Sql.

(** [text LIKE pattern]: [%] matches any run of characters, [_] any one
    character, and a backslash takes the next character of the pattern
    literally.  (A pattern that ends in a lone backslash is rejected by the
    server; the patterns of [search_news] end in [%], so none does.) *)
Fixpoint like (pattern : string) : string -> bool :=
  match pattern with
  | EmptyString => fun text =>
      match text with EmptyString => true | _ => false end
  | String c rest =>
      if Ascii.eqb c "%" then
        fix any (text : string) : bool :=
          like rest text
          || match text with
             | EmptyString => false
             | String _ text' => any text'
             end
      else if Ascii.eqb c "_" then
        fun text =>
          match text with
          | EmptyString => false
          | String _ text' => like rest text'
          end
      else if Ascii.eqb c "\" then
        match rest with
        | EmptyString => fun _ => false
        | String lit rest' => fun text =>
            match text with
            | EmptyString => false
            | String d text' => Ascii.eqb lit d && like rest' text'
            end
        end
      else
        fun text =>
          match text with
          | EmptyString => false
          | String d text' => Ascii.eqb c d && like rest text'
          end
  end.

(** [column.ilike(pattern)] *)
Definition ilike (text pattern : string) : bool :=
  like (Py.lower pattern) (Py.lower text).

(** The order of [ORDER BY] on a float column: nan sorts above every
    number. *)
Definition float_le (a b : PyFloat.t) : bool :=
  match PyFloat.compare a b with
  | Some Lt | Some Eq => true
  | Some Gt => false
  | None => match b with PyFloat.NaN => true | _ => false end
  end.

(** [ORDER BY relevance_score DESC] *)
Fixpoint insert_desc (r : NewsArticle.t) (sorted : list NewsArticle.t)
    : list NewsArticle.t :=
  match sorted with
  | [] => [r]
  | y :: rest =>
      if float_le (NewsArticle.relevance_score r) (NewsArticle.relevance_score y)
      then y :: insert_desc r rest
      else r :: sorted
  end.

Definition order_by_relevance_desc (rows : list NewsArticle.t)
    : list NewsArticle.t :=
  fold_right insert_desc [] rows.

End Sql.

(** ** db/repository.py *)

Module NewsRepository.

Section Repository.

(** What pydantic answers for a nan score, see
    [FinalNewsOutput.validate_score]. *)
Variable nan_meets_bounds : bool.

(** [datetime.isoformat] *)
Variable isoformat : Z -> string.

Definition _to_output_model (db_article : NewsArticle.t)
    : result FinalNewsOutput.t :=
  let media :=
    EnrichedNewsMedia.mk None
      (NewsArticle.featured_image_url db_article) None
      (NewsArticle.related_video_url db_article) None
      (NewsArticle.media_justification db_article) in
  let context :=
    EnrichedNewsContext.mk
      (NewsArticle.wikipedia_snippet db_article)
      (NewsArticle.sentiment_label db_article)
      (NewsArticle.search_trend db_article) in
  let geo :=
    Geo.mk (NewsArticle.geo_lat db_article) (NewsArticle.geo_lng db_article)
           (NewsArticle.map_url db_article) in
  (score <- FinalNewsOutput.validate_score nan_meets_bounds
              (NewsArticle.relevance_score db_article) ;;
   Ok (FinalNewsOutput.mk
         (NewsArticle.slug db_article)
         (NewsArticle.title db_article)
         (NewsArticle.body db_article)
         (NewsArticle.source_url db_article)
         (NewsArticle.author db_article)
         (NewsArticle.published_date db_article)
         (NewsArticle.summary db_article)
         (NewsArticle.tags db_article)
         score media context geo
         (isoformat (NewsArticle.ingested_at db_article))))%py.

Definition has_slug (slug : string) (r : NewsArticle.t) : bool :=
  String.eqb (NewsArticle.slug r) slug.

Definition get_news_by_id (article_id : string)
    : Session.io (option FinalNewsOutput.t) :=
  (rows <~ Session.select (has_slug article_id) ;;
   db_article <~ Session.lift (Session.scalar_one_or_none rows) ;;
   match db_article with
   | None => Session.ret None
   | Some a =>
       out <~ Session.lift (_to_output_model a) ;;
       Session.ret (Some out)
   end)%py.

(** The assignments of the update branch.  A pydantic model is always
    true, so each of [if news.media:], [if news.context:], [if news.geo:]
    is taken. *)
Definition assign_fields (db_article : NewsArticle.t) (news : FinalNewsOutput.t)
    : NewsArticle.t :=
  let media := FinalNewsOutput.media news in
  let context := FinalNewsOutput.context news in
  let geo := FinalNewsOutput.geo news in
  NewsArticle.mk
    (NewsArticle.id db_article)
    (NewsArticle.slug db_article)
    (FinalNewsOutput.title news)
    (FinalNewsOutput.body news)
    (FinalNewsOutput.source_url news)
    (FinalNewsOutput.publisher news)
    (FinalNewsOutput.published_at news)
    (FinalNewsOutput.summary news)
    (FinalNewsOutput.tags news)
    (EnrichedNewsContext.social_sentiment context)
    (PyFloat.of_Z 0)
    (EnrichedNewsMedia.featured_image_url media)
    (EnrichedNewsMedia.related_video_url media)
    (EnrichedNewsMedia.media_justification media)
    (EnrichedNewsContext.wikipedia_snippet context)
    (EnrichedNewsContext.search_trend context)
    (Geo.lat geo) (Geo.lng geo) (Geo.map_url geo)
    [] []
    (FinalNewsOutput.relevance_score news)
    (NewsArticle.ingested_at db_article)
    (NewsArticle.created_at db_article)
    (NewsArticle.updated_at db_article).

(** [NewsArticle(slug=news.id, ...)]: the key and the timestamps are set
    by the server at the INSERT. *)
Definition new_article (news : FinalNewsOutput.t) : NewsArticle.t :=
  let media := FinalNewsOutput.media news in
  let context := FinalNewsOutput.context news in
  let geo := FinalNewsOutput.geo news in
  NewsArticle.mk
    0%Z
    (FinalNewsOutput.id news)
    (FinalNewsOutput.title news)
    (FinalNewsOutput.body news)
    (FinalNewsOutput.source_url news)
    (FinalNewsOutput.publisher news)
    (FinalNewsOutput.published_at news)
    (FinalNewsOutput.summary news)
    (FinalNewsOutput.tags news)
    (EnrichedNewsContext.social_sentiment context)
    (PyFloat.of_Z 0)
    (EnrichedNewsMedia.featured_image_url media)
    (EnrichedNewsMedia.related_video_url media)
    (EnrichedNewsMedia.media_justification media)
    (EnrichedNewsContext.wikipedia_snippet context)
    (EnrichedNewsContext.search_trend context)
    (Geo.lat geo) (Geo.lng geo) (Geo.map_url geo)
    [] []
    (FinalNewsOutput.relevance_score news)
    0%Z 0%Z 0%Z.

Definition save_news (news : FinalNewsOutput.t)
    : Session.io FinalNewsOutput.t :=
  Session.reraise "Failed to save news article"
    (existing <~ get_news_by_id (FinalNewsOutput.id news) ;;
     _ <~ match existing with
          | Some _ =>
              rows <~ Session.select (has_slug (FinalNewsOutput.id news)) ;;
              db_article <~ Session.lift (Session.scalar_one rows) ;;
              Session.assign (assign_fields db_article news)
          | None =>
              Session.add (new_article news)
          end ;;
     _ <~ Session.flush ;;
     Session.ret news)%py.

(** A clause of a WHERE, by what it evaluates to on a row. *)
Definition clause : Type := NewsArticle.t -> bool.

(** [column.ilike(search_term)] on a column of text. *)
Definition ilike_clause (column : NewsArticle.t -> string)
    (search_term : string) : result clause :=
  Ok (fun r => Sql.ilike (column r) search_term).

(** [NewsArticle.tags.cast(str).ilike(search_term)].  [str] is no type of
    the library: [cast] calls it and takes what it returns, the empty
    string, as the type of the cast; [ilike] asks the type of its operand
    for the comparator, which a string does not have, and the library
    raises [TypeError] (the object under [.type] is no [TypeEngine]).  No
    clause is built. *)
Definition tags_cast_str_ilike (search_term : string) : result clause :=
  Raise TypeError.

(** [or_(title.ilike(t), body.ilike(t), summary.ilike(t),
    tags.cast(str).ilike(t))]: the four arguments are evaluated in this
    order, then joined. *)
Definition search_condition (search_term : string) : result clause :=
  (title <- ilike_clause NewsArticle.title search_term ;;
   body <- ilike_clause NewsArticle.body search_term ;;
   summary <- ilike_clause NewsArticle.summary search_term ;;
   tags <- tags_cast_str_ilike search_term ;;
   Ok (fun r => title r || body r || summary r || tags r))%py.

(** [[self._to_output_model(article) for article in db_articles]] *)
Fixpoint to_output_models (rows : list NewsArticle.t)
    : result (list FinalNewsOutput.t) :=
  match rows with
  | [] => Ok []
  | r :: rest =>
      (out <- _to_output_model r ;;
       outs <- to_output_models rest ;;
       Ok (out :: outs))%py
  end.

(** [search_news] builds its statement, then executes it and makes the
    articles of the rows.  The method has no handler: an error of the
    construction leaves it before the session is used. *)
Definition search_news (query : string) (limit : Z)
    : Session.io (list FinalNewsOutput.t) :=
  let search_term := "%" ++ query ++ "%" in
  (condition <~ Session.lift (search_condition search_term) ;;
   rows <~ Session.select condition ;;
   db_articles <~
     (if (limit <? 0)%Z then Session.throw SQLAlchemyError
      else Session.ret
             (firstn (Z.to_nat limit) (Sql.order_by_relevance_desc rows))) ;;
   Session.lift (to_output_models db_articles))%py.

End Repository.

End NewsRepository.

(** ** services/ingestion_service.py *)

Module IngestionService.

Section Ingestion.

Variable json_loads : json_parser.
Variable brave_search_service : BraveSearchService.t.
Variable nan_meets_bounds : bool.
Variable isoformat : Z -> string.

(** The module-level [ai_service] the service holds. *)
Variable ai_service : AIService.t.

(** [ingest_news]; [uuid] is what [uuid4()] draws for the new record and
    [utc_now] the text of [datetime.now(timezone.utc).isoformat()]. *)
Definition ingest_news (uuid utc_now : string) (raw_input : RawNewsInput.t)
    : Session.io FinalNewsOutput.t :=
  Session.reraise "News ingestion failed"
    (enriched_data <~
       Session.lift
         (AIService.enrich_news json_loads brave_search_service ai_service
            raw_input) ;;
     final_output <~
       Session.lift
         (FinalNewsOutput.make nan_meets_bounds uuid
            (RawNewsInput.title raw_input)
            (RawNewsInput.body raw_input)
            (RawNewsInput.source_url raw_input)
            (RawNewsInput.author raw_input)
            (RawNewsInput.published_date raw_input)
            (AIService.summary enriched_data)
            (AIService.tags enriched_data)
            (AIService.relevance_score enriched_data)
            (AIService.media enriched_data)
            (AIService.context enriched_data)
            (AIService.geo enriched_data)
            utc_now) ;;
     _ <~ NewsRepository.save_news nan_meets_bounds isoformat final_output ;;
     Session.ret final_output)%py.

End Ingestion.

End IngestionService.

(** ** Python's [str] and [dict], continued *)

Module PyText.

(** [s.lower()] on every code point below 256: the letters A..Z and the
    capital letters of Latin-1 (192..222 but the sign at 215) move up by
    32; no other character changes. *)
Definition lower_char (c : ascii) : ascii :=
  let n := nat_of_ascii c in
  if (((65 <=? n) && (n <=? 90))
      || ((192 <=? n) && (n <=? 222) && negb (n =? 215)))%nat
  then ascii_of_nat (n + 32) else c.

Fixpoint lower (s : string) : string :=
  match s with
  | EmptyString => EmptyString
  | String c s' => String (lower_char c) (lower s')
  end.

(** The classes [[A-Z]] and [[a-z]] of a regular expression. *)
Definition is_upper (c : ascii) : bool :=
  let n := nat_of_ascii c in ((65 <=? n) && (n <=? 90))%nat.

Definition is_lower (c : ascii) : bool :=
  let n := nat_of_ascii c in ((97 <=? n) && (n <=? 122))%nat.

(** [\w] of the [re] module on a [str]: the characters for which
    [str.isalnum] holds, and the underscore. *)
Definition is_word_char (c : ascii) : bool :=
  let n := nat_of_ascii c in
  (((48 <=? n) && (n <=? 57)) || ((65 <=? n) && (n <=? 90)) || (n =? 95)
   || ((97 <=? n) && (n <=? 122))
   || (n =? 170) || (n =? 178) || (n =? 179) || (n =? 181) || (n =? 185)
   || (n =? 186) || ((188 <=? n) && (n <=? 190))
   || ((192 <=? n) && (n <=? 214)) || ((216 <=? n) && (n <=? 246))
   || (248 <=? n))%nat.

(** The state of a scan for [\b[A-Z][a-z]+\b]: outside a candidate, with
    whether the character before is a word character; or inside one, with
    the capital and the small letters read so far. *)
Inductive scan_state : Type :=
| Outside (after_word : bool)
| Inside (matched : string) (small : nat).

(** [re.findall(r'\b[A-Z][a-z]+\b', s)].  A match starts at a capital that
    no word character precedes, takes the whole run of small letters after
    it (at least one), and must end where no word character follows: a
    shorter run would end between two word characters.  After a match or a
    failed candidate the search goes on behind it, where no capital of the
    candidate can start another match. *)
Fixpoint findall_capitalized_go (st : scan_state) (s : string) : list string :=
  match s with
  | EmptyString =>
      match st with
      | Inside matched (S _) => [matched]
      | _ => []
      end
  | String c s' =>
      match st with
      | Inside matched small =>
          if is_lower c
          then findall_capitalized_go
                 (Inside (matched ++ String c EmptyString) (S small)) s'
          else if is_word_char c
          then findall_capitalized_go (Outside true) s'
          else match small with
               | S _ => matched :: findall_capitalized_go (Outside false) s'
               | O => findall_capitalized_go (Outside false) s'
               end
      | Outside after_word =>
          if negb after_word && is_upper c
          then findall_capitalized_go (Inside (String c EmptyString) 0) s'
          else findall_capitalized_go (Outside (is_word_char c)) s'
      end
  end.

Definition findall_capitalized (s : string) : list string :=
  findall_capitalized_go (Outside false) s.

End PyText.

Module PyDict.

(** [d[k] = v] on a dict given by its items in insertion order: a key
    that is present keeps its place and takes the new value. *)
Fixpoint set {V} (k : string) (v : V) (d : list (string * V))
    : list (string * V) :=
  match d with
  | [] => [(k, v)]
  | (k', v') :: rest =>
      if String.eqb k' k then (k', v) :: rest else (k', v') :: set k v rest
  end.

(** The items of the dict display [{k1: v1, k2: v2, ...}]: the entries
    are stored from left to right. *)
Definition literal {V} (entries : list (string * V)) : list (string * V) :=
  fold_left (fun d kv => set (fst kv) (snd kv) d) entries [].

End PyDict.

(** ** services/ai_constants.py, the tables of the helpers *)

Module AiTables.

(** A float written by the digits of its [repr] and their exponent. *)
Definition dec (z e : Z) : PyFloat.t :=
  PyFloat.Finite (z <? 0)%Z (Z.abs_N z) e.

Definition AFRICAN_CITIES_COORDINATES_display
    : list (string * (PyFloat.t * PyFloat.t)) :=
  [
    ("Nairobi", (dec (-1286389) (-6), dec (36817223) (-6)));
    ("Lagos", (dec (65244) (-4), dec (33792) (-4)));
    ("Johannesburg", (dec (-262041) (-4), dec (280473) (-4)));
    ("Cairo", (dec (300444) (-4), dec (312357) (-4)));
    ("Addis Ababa", (dec (9032) (-3), dec (387469) (-4)));
    ("Accra", (dec (56037) (-4), dec (-187) (-3)));
    ("Dar es Salaam", (dec (-67924) (-4), dec (392083) (-4)));
    ("Kigali", (dec (-19536) (-4), dec (300606) (-4)));
    ("Casablanca", (dec (335731) (-4), dec (-75898) (-4)));
    ("Tunis", (dec (368065) (-4), dec (101815) (-4)));
    ("Algiers", (dec (367538) (-4), dec (30588) (-4)));
    ("Khartoum", (dec (155007) (-4), dec (325599) (-4)));
    ("Kampala", (dec (3476) (-4), dec (325825) (-4)));
    ("Abuja", (dec (90765) (-4), dec (73986) (-4)));
    ("Dakar", (dec (146928) (-4), dec (-174467) (-4)));
    ("Bamako", (dec (126392) (-4), dec (-80029) (-4)));
    ("Ouagadougou", (dec (123714) (-4), dec (-15197) (-4)));
    ("Niamey", (dec (135137) (-4), dec (21098) (-4)));
    ("Yaounde", (dec (3848) (-3), dec (115021) (-4)));
    ("Kinshasa", (dec (-44419) (-4), dec (152663) (-4)));
    ("Brazzaville", (dec (-42634) (-4), dec (152429) (-4)));
    ("Luanda", (dec (-8839) (-3), dec (132894) (-4)));
    ("Lusaka", (dec (-153875) (-4), dec (283228) (-4)));
    ("Harare", (dec (-178292) (-4), dec (310522) (-4)));
    ("Gaborone", (dec (-246282) (-4), dec (259231) (-4)));
    ("Windhoek", (dec (-225609) (-4), dec (170658) (-4)));
    ("Cape Town", (dec (-339249) (-4), dec (184241) (-4)));
    ("Durban", (dec (-298587) (-4), dec (310218) (-4)));
    ("Port Elizabeth", (dec (-339608) (-4), dec (256022) (-4)));
    ("Bloemfontein", (dec (-290852) (-4), dec (261596) (-4)));
    ("Pretoria", (dec (-257479) (-4), dec (282293) (-4)));
    ("Maputo", (dec (-259692) (-4), dec (325732) (-4)));
    ("Antananarivo", (dec (-188792) (-4), dec (475079) (-4)));
    ("Victoria", (dec (-462) (-2), dec (5545) (-2)));
    ("Port Louis", (dec (-201619) (-4), dec (574989) (-4)));
    ("Moroni", (dec (-117172) (-4), dec (432473) (-4)));
    ("Djibouti", (dec (118251) (-4), dec (425903) (-4)));
    ("Asmara", (dec (153229) (-4), dec (389251) (-4)));
    ("Mogadishu", (dec (20469) (-4), dec (453182) (-4)));
    ("Juba", (dec (48594) (-4), dec (315713) (-4)));
    ("Bangui", (dec (43947) (-4), dec (185582) (-4)));
    ("N'Djamena", (dec (121348) (-4), dec (150557) (-4)));
    ("Libreville", (dec (4162) (-4), dec (94673) (-4)));
    ("Malabo", (dec (37504) (-4), dec (87371) (-4)));
    (("S" ++ String "227" "o Tom" ++ String "233" EmptyString), (dec (1864) (-4), dec (66131) (-4)));
    ("Banjul", (dec (134432) (-4), dec (-165819) (-4)));
    ("Bissau", (dec (118037) (-4), dec (-151804) (-4)));
    ("Conakry", (dec (96412) (-4), dec (-135784) (-4)));
    ("Freetown", (dec (8484) (-3), dec (-132299) (-4)));
    ("Monrovia", (dec (63008) (-4), dec (-10797) (-3)));
    ("Abidjan", (dec (536) (-2), dec (-40083) (-4)));
    ("Yamoussoukro", (dec (68276) (-4), dec (-52893) (-4)));
    (("Lom" ++ String "233" EmptyString), (dec (61725) (-4), dec (12314) (-4)));
    ("Cotonou", (dec (63725) (-4), dec (23544) (-4)));
    ("Porto-Novo", (dec (64969) (-4), dec (26289) (-4)));
    ("Lagos", (dec (65244) (-4), dec (33792) (-4)));
    ("Abuja", (dec (90765) (-4), dec (73986) (-4)));
    ("Douala", (dec (40483) (-4), dec (97043) (-4)));
    ("Yaounde", (dec (3848) (-3), dec (115021) (-4)));
    ("Bangui", (dec (43947) (-4), dec (185582) (-4)));
    ("N'Djamena", (dec (121348) (-4), dec (150557) (-4)));
    ("Khartoum", (dec (155007) (-4), dec (325599) (-4)));
    ("Juba", (dec (48594) (-4), dec (315713) (-4)));
    ("Addis Ababa", (dec (9032) (-3), dec (387469) (-4)));
    ("Asmara", (dec (153229) (-4), dec (389251) (-4)));
    ("Djibouti", (dec (118251) (-4), dec (425903) (-4)));
    ("Mogadishu", (dec (20469) (-4), dec (453182) (-4)));
    ("Nairobi", (dec (-1286389) (-6), dec (36817223) (-6)));
    ("Kampala", (dec (3476) (-4), dec (325825) (-4)));
    ("Kigali", (dec (-19536) (-4), dec (300606) (-4)));
    ("Bujumbura", (dec (-33614) (-4), dec (293599) (-4)));
    ("Dar es Salaam", (dec (-67924) (-4), dec (392083) (-4)));
    ("Dodoma", (dec (-6163) (-3), dec (357516) (-4)));
    ("Lusaka", (dec (-153875) (-4), dec (283228) (-4)));
    ("Harare", (dec (-178292) (-4), dec (310522) (-4)));
    ("Gaborone", (dec (-246282) (-4), dec (259231) (-4)));
    ("Windhoek", (dec (-225609) (-4), dec (170658) (-4)));
    ("Cape Town", (dec (-339249) (-4), dec (184241) (-4)));
    ("Johannesburg", (dec (-262041) (-4), dec (280473) (-4)));
    ("Durban", (dec (-298587) (-4), dec (310218) (-4)));
    ("Bloemfontein", (dec (-290852) (-4), dec (261596) (-4)));
    ("Pretoria", (dec (-257479) (-4), dec (282293) (-4)));
    ("Maseru", (dec (-293167) (-4), dec (274833) (-4)));
    ("Mbabane", (dec (-263054) (-4), dec (311367) (-4)));
    ("Maputo", (dec (-259692) (-4), dec (325732) (-4)));
    ("Antananarivo", (dec (-188792) (-4), dec (475079) (-4)));
    ("Victoria", (dec (-462) (-2), dec (5545) (-2)));
    ("Port Louis", (dec (-201619) (-4), dec (574989) (-4)));
    ("Moroni", (dec (-117172) (-4), dec (432473) (-4)));
    ("Cairo", (dec (300444) (-4), dec (312357) (-4)));
    ("Alexandria", (dec (312001) (-4), dec (299187) (-4)));
    ("Tripoli", (dec (328872) (-4), dec (131913) (-4)));
    ("Tunis", (dec (368065) (-4), dec (101815) (-4)));
    ("Algiers", (dec (367538) (-4), dec (30588) (-4)));
    ("Rabat", (dec (340209) (-4), dec (-68416) (-4)));
    ("Casablanca", (dec (335731) (-4), dec (-75898) (-4)));
    ("Fez", (dec (340181) (-4), dec (-50078) (-4)));
    ("Marrakech", (dec (316295) (-4), dec (-79811) (-4)));
    ("Nouakchott", (dec (180735) (-4), dec (-159582) (-4)));
    ("Bamako", (dec (126392) (-4), dec (-80029) (-4)));
    ("Ouagadougou", (dec (123714) (-4), dec (-15197) (-4)));
    ("Niamey", (dec (135137) (-4), dec (21098) (-4)));
    ("Abuja", (dec (90765) (-4), dec (73986) (-4)));
    ("Lagos", (dec (65244) (-4), dec (33792) (-4)));
    ("Kano", (dec (120022) (-4), dec (8592) (-3)));
    ("Ibadan", (dec (73776) (-4), dec (3947) (-3)));
    ("Benin City", (dec (6335) (-3), dec (56037) (-4)));
    ("Port Harcourt", (dec (48156) (-4), dec (70498) (-4)));
    ("Kaduna", (dec (1052) (-2), dec (74382) (-4)));
    ("Maiduguri", (dec (118333) (-4), dec (1315) (-2)));
    ("Zaria", (dec (110667) (-4), dec (77) (-1)));
    ("Aba", (dec (51167) (-4), dec (73667) (-4)));
    ("Jos", (dec (99167) (-4), dec (89) (-1)));
    ("Ilorin", (dec (85) (-1), dec (455) (-2)));
    ("Oyo", (dec (785) (-2), dec (39333) (-4)));
    ("Enugu", (dec (645) (-2), dec (75) (-1)));
    ("Abeokuta", (dec (715) (-2), dec (335) (-2)));
    ("Sokoto", (dec (130667) (-4), dec (52333) (-4)));
    ("Onitsha", (dec (61667) (-4), dec (67833) (-4)));
    ("Warri", (dec (55167) (-4), dec (575) (-2)));
    ("Kaduna", (dec (1052) (-2), dec (74382) (-4)));
    ("Maiduguri", (dec (118333) (-4), dec (1315) (-2)));
    ("Zaria", (dec (110667) (-4), dec (77) (-1)));
    ("Aba", (dec (51167) (-4), dec (73667) (-4)));
    ("Jos", (dec (99167) (-4), dec (89) (-1)));
    ("Ilorin", (dec (85) (-1), dec (455) (-2)));
    ("Oyo", (dec (785) (-2), dec (39333) (-4)));
    ("Enugu", (dec (645) (-2), dec (75) (-1)));
    ("Abeokuta", (dec (715) (-2), dec (335) (-2)));
    ("Sokoto", (dec (130667) (-4), dec (52333) (-4)));
    ("Onitsha", (dec (61667) (-4), dec (67833) (-4)));
    ("Warri", (dec (55167) (-4), dec (575) (-2)))
  ].

(** The dict: a city written more than once in the display is one key. *)
Definition AFRICAN_CITIES_COORDINATES
    : list (string * (PyFloat.t * PyFloat.t)) :=
  PyDict.literal AFRICAN_CITIES_COORDINATES_display.

Module COORDINATE_RANGES.
Definition lat_min : PyFloat.t := PyFloat.of_Z (-90).
Definition lat_max : PyFloat.t := PyFloat.of_Z 90.
Definition lng_min : PyFloat.t := PyFloat.of_Z (-180).
Definition lng_max : PyFloat.t := PyFloat.of_Z 180.
End COORDINATE_RANGES.

End AiTables.

(** ** services/ai_utils.py, the validators and helpers *)

Module AiHelpers.
Import AiTables.

Definition validate_coordinates (lat lng : option PyFloat.t) : bool :=
  match lat, lng with
  | Some lat, Some lng =>
      PyFloat.leb COORDINATE_RANGES.lat_min lat
      && PyFloat.leb lat COORDINATE_RANGES.lat_max
      && PyFloat.leb COORDINATE_RANGES.lng_min lng
      && PyFloat.leb lng COORDINATE_RANGES.lng_max
  | _, _ => false
  end.

(** The loop over [AFRICAN_CITIES_COORDINATES.items()]: the first city, in
    the order of the dict, whose name occurs in the text. *)
Fixpoint first_city (text_lower : string)
    (items : list (string * (PyFloat.t * PyFloat.t)))
    : option (string * PyFloat.t * PyFloat.t) :=
  match items with
  | [] => None
  | (city_name, (lat, lng)) :: rest =>
      if Py.contains (PyText.lower city_name) text_lower
      then Some (city_name, lat, lng)
      else first_city text_lower rest
  end.

Definition extract_location_from_text (text : string)
    : option (string * PyFloat.t * PyFloat.t) :=
  first_city (PyText.lower text) AFRICAN_CITIES_COORDINATES.

(** [f"https://www.google.com/maps?q={lat},{lng}"] of two floats. *)
Definition maps_url (lat lng : PyFloat.t) : string :=
  "https://www.google.com/maps?q=" ++ PyFloat.to_string lat ++ ","
  ++ PyFloat.to_string lng.

Definition create_geo_from_coordinates (lat lng : PyFloat.t) : Geo.t :=
  if validate_coordinates (Some lat) (Some lng)
  then Geo.mk (Some lat) (Some lng) (Some (maps_url lat lng))
  else Geo.empty.

Definition parse_json_safely (json_loads : json_parser) (content : string)
    (fallback : json) : result json :=
  try_
    (cleaned_content <- AiUtils.clean_json_response content ;;
     loads json_loads cleaned_content)%py
    [ (fun e => is_JSONDecodeError e || is_ValueError e || is_TypeError e,
       fun _ => Ok fallback) ].

(** [[f"#{word}" for word in words[:5]]] *)
Definition extract_tags_from_content (content : string) : list string :=
  let words := PyText.findall_capitalized content in
  map (fun word => "#" ++ word) (firstn 5 words).

End AiHelpers.

(** ** db/repository.py, the other operations *)

Module SessionDelete.
Import Session.

(** DELETE of one object, by primary key. *)
Definition delete_row (obj : NewsArticle.t) : io unit :=
  bind statement (fun _ s =>
    (Ok tt,
     set_table s
       (filter (fun r => negb (NewsArticle.id r =? NewsArticle.id obj)%Z)
               (table s)))).

(** [session.delete(obj)] followed at once by [session.flush()].  The
    only code that marks an object deleted flushes in its next statement,
    so the marked object is handed to the flush instead of being kept in
    the session: the flush writes the pending INSERTs, the UPDATEs of the
    objects that are not deleted, then the DELETE, and rolls back where a
    statement fails. *)
Definition delete_and_flush (obj : NewsArticle.t) : io unit :=
  fun s =>
    let pending_new := new s in
    let pending_dirty :=
      filter (fun o => negb (NewsArticle.id o =? NewsArticle.id obj)%Z)
             (dirty s) in
    let s := set_dirty (set_new s []) [] in
    match bind (for_each insert_row pending_new)
               (fun _ => bind (for_each update_row pending_dirty)
                              (fun _ => delete_row obj)) s with
    | (Ok tt, s') => (Ok tt, s')
    | (Raise e, s') => (Raise e, rollback s')
    end.

End SessionDelete.

Module SqlOrder.

(** [ORDER BY ingested_at DESC] *)
Fixpoint insert_newest (r : NewsArticle.t) (sorted : list NewsArticle.t)
    : list NewsArticle.t :=
  match sorted with
  | [] => [r]
  | y :: rest =>
      if (NewsArticle.ingested_at r <=? NewsArticle.ingested_at y)%Z
      then y :: insert_newest r rest
      else r :: sorted
  end.

Definition order_by_ingested_desc (rows : list NewsArticle.t)
    : list NewsArticle.t :=
  fold_right insert_newest [] rows.

End SqlOrder.

Module NewsQueries.

Section Queries.

Variable nan_meets_bounds : bool.
Variable isoformat : Z -> string.

Definition get_news_by_slug (slug : string)
    : Session.io (option FinalNewsOutput.t) :=
  NewsRepository.get_news_by_id nan_meets_bounds isoformat slug.

(** The statement of [get_all_news]: the server skips [offset] rows of
    the ordered table and returns at most [limit] of the rest; it refuses a
    negative LIMIT or OFFSET. *)
Definition get_all_news (limit offset : Z)
    : Session.io (list FinalNewsOutput.t) :=
  (rows <~ Session.select (fun _ => true) ;;
   db_articles <~
     (if (limit <? 0)%Z || (offset <? 0)%Z then Session.throw SQLAlchemyError
      else Session.ret
             (firstn (Z.to_nat limit)
                (skipn (Z.to_nat offset)
                   (SqlOrder.order_by_ingested_desc rows)))) ;;
   Session.lift
     (NewsRepository.to_output_models nan_meets_bounds isoformat db_articles))%py.

(** [select(func.count()).select_from(NewsArticle)] and [scalar_one()] *)
Definition get_news_count : Session.io Z :=
  (rows <~ Session.select (fun _ => true) ;;
   Session.ret (Z.of_nat (List.length rows)))%py.

Definition delete_news (slug : string) : Session.io bool :=
  (rows <~ Session.select (NewsRepository.has_slug slug) ;;
   db_article <~ Session.lift (Session.scalar_one_or_none rows) ;;
   match db_article with
   | None => Session.ret false
   | Some a =>
       _ <~ SessionDelete.delete_and_flush a ;;
       Session.ret true
   end)%py.

Definition news_exists (slug : string) : Session.io bool :=
  (rows <~ Session.select (NewsRepository.has_slug slug) ;;
   let count := Z.of_nat (List.length rows) in
   Session.ret (0 <? count)%Z)%py.

End Queries.

End NewsQueries.

(** ** api/v1/endpoints.py *)

Module IngestionResponse.
Record t : Type := mk {
  status : string;
  message : string;
  id : string;
  data : FinalNewsOutput.t
}.
End IngestionResponse.

Module NewsSummary.
Record t : Type := mk {
  id : string;
  title : string;
  summary : string;
  tags : list string;
  relevance_score : PyFloat.t;
  published_at : option string;
  ingested_at : string;
  featured_image_url : option string
}.
End NewsSummary.

Module NewsListResponse.
Record t : Type := mk {
  total : Z;
  items : list NewsSummary.t
}.
End NewsListResponse.

Module Endpoints.

(** The [detail] of an [HTTPException]: a text, or a prefix followed by the
    text of the error that was caught. *)
Inductive detail : Type :=
| Text (s : string)
| Failure (prefix : string) (cause : exc).

(** What a path operation does: it returns its value, raises
    [HTTPException(status_code, detail)], or lets another exception
    through. *)
Inductive response (A : Type) : Type :=
| Returned (a : A)
| HTTPException (status_code : Z) (d : detail)
| Unhandled (e : exc).
Arguments Returned {A} a.
Arguments HTTPException {A} status_code d.
Arguments Unhandled {A} e.

Definition handler (A : Type) : Type := Session.t -> response A * Session.t.

Section Routes.

Variable json_loads : json_parser.
Variable brave_search_service : BraveSearchService.t.
Variable nan_meets_bounds : bool.
Variable isoformat : Z -> string.
Variable ai_service : AIService.t.

(** POST /ingest *)
Definition ingest_news (uuid utc_now : string) (raw_input : RawNewsInput.t)
    : handler IngestionResponse.t :=
  fun db =>
    match IngestionService.ingest_news json_loads brave_search_service
            nan_meets_bounds isoformat ai_service uuid utc_now raw_input db
    with
    | (Ok enriched_news, db') =>
        (Returned
           (IngestionResponse.mk "success"
              "News article successfully ingested and enriched"
              (FinalNewsOutput.id enriched_news) enriched_news),
         db')
    | (Raise e, db') =>
        (HTTPException 500 (Failure "Failed to ingest news article" e), db')
    end.

(** GET /news/{id}; a pydantic model is always true, so [not news] holds
    for [None] only. *)
Definition get_news_by_id (id : string) : handler FinalNewsOutput.t :=
  fun db =>
    match NewsRepository.get_news_by_id nan_meets_bounds isoformat id db with
    | (Ok None, db') =>
        (HTTPException 404
           (Text ("News article with ID '" ++ id ++ "' not found")), db')
    | (Ok (Some news), db') => (Returned news, db')
    | (Raise e, db') => (Unhandled e, db')
    end.

Definition summary_of (news : FinalNewsOutput.t) : NewsSummary.t :=
  NewsSummary.mk
    (FinalNewsOutput.id news)
    (FinalNewsOutput.title news)
    (FinalNewsOutput.summary news)
    (FinalNewsOutput.tags news)
    (FinalNewsOutput.relevance_score news)
    (FinalNewsOutput.published_at news)
    (FinalNewsOutput.ingested_at news)
    (EnrichedNewsMedia.featured_image_url (FinalNewsOutput.media news)).

(** GET /news; [limit] and [offset] are the values that passed
    [Query(ge=1, le=100)] and [Query(ge=0)]. *)
Definition list_news (limit offset : Z) : handler NewsListResponse.t :=
  fun db =>
    match ((news_items <~
              NewsQueries.get_all_news nan_meets_bounds isoformat limit offset ;;
            total_count <~ NewsQueries.get_news_count ;;
            Session.ret
              (NewsListResponse.mk total_count (map summary_of news_items)))%py)
            db
    with
    | (Ok r, db') => (Returned r, db')
    | (Raise e, db') =>
        (HTTPException 500 (Failure "Failed to retrieve news list" e), db')
    end.

(** GET /stats: the value under ["total_articles"]. *)
Definition get_stats : handler Z :=
  fun db =>
    match NewsQueries.get_news_count db with
    | (Ok total_count, db') => (Returned total_count, db')
    | (Raise e, db') => (Unhandled e, db')
    end.

End Routes.

End Endpoints.

(** ** db/database.py and migrate_database.py: the connection manager *)

Module Database.

(** The two attributes of a [Database]: the engine, written by the URL it
    was created for, and the session maker bound to it. *)
Record t : Type := mk {
  engine : option string;
  async_session_maker : option string
}.

(** [Database()] *)
Definition fresh : t := mk None None.

Definition io (A : Type) : Type := t -> result A * t.

Section World.

(** [settings.database_url]; [create_async_engine(url, ...)], which
    returns or raises; [engine.dispose()], likewise. *)
Variable settings_database_url : option string.
Variable create_async_engine : string -> result unit.
Variable dispose : string -> result unit.

(** [database_url or settings.database_url] *)
Definition url_or_settings (database_url : option string) : option string :=
  match database_url with
  | Some u => if Py.truthy u then Some u else settings_database_url
  | None => settings_database_url
  end.

(** [not url] *)
Definition no_url (url : option string) : bool :=
  match url with
  | Some u => negb (Py.truthy u)
  | None => true
  end.

Definition init (database_url : option string) : io unit :=
  fun self =>
    let url := url_or_settings database_url in
    if no_url url then (Raise ValueError, self)
    else
      match url with
      | Some u =>
          match create_async_engine u with
          | Ok _ => (Ok tt, mk (Some u) (Some u))
          | Raise e => (Raise e, self)
          end
      | None => (Raise ValueError, self)
      end.

Definition close : io unit :=
  fun self =>
    match engine self with
    | Some e =>
        match dispose e with
        | Ok _ => (Ok tt, mk None None)
        | Raise x => (Raise x, self)
        end
    | None => (Ok tt, self)
    end.

(** [database.session].  The class defines the methods [init],
    [create_tables], [drop_tables], [close] and [get_session], and its
    instances hold [engine] and [async_session_maker]: no attribute is
    named [session], and the lookup raises. *)
Definition session : io unit :=
  fun self => (Raise AttributeError, self).

(** [run_migration]; [statements] stands for the block under
    [async with database.session() as session:], which ends in
    [return True]. *)
Definition run_migration (statements : io bool) : io bool :=
  fun database =>
    if no_url settings_database_url then (Ok false, database)
    else
      let '(outcome, database) :=
        match init settings_database_url database with
        | (Ok _, database) =>
            match session database with
            | (Ok _, database) => statements database
            | (Raise e, database) => (Raise e, database)
            end
        | (Raise e, database) => (Raise e, database)
        end in
      (* except Exception: return False *)
      let outcome :=
        match outcome with
        | Ok done => Ok done
        | Raise e => if is_Exception e then Ok false else Raise e
        end in
      (* finally: await database.close() *)
      match close database with
      | (Ok _, database) => (outcome, database)
      | (Raise e, database) => (Raise e, database)
      end.

End World.

End Database.

(* ================================================================== *)
(** * Part II.  Properties and runs                                   *)
(* ================================================================== *)

(** The vocabulary of the statements proved in Part III, and the concrete
    services, sessions and rows they are run on. *)

(** ** Strings *)

Module PyProps.
Import Py.

(** A string that is empty or starts with a character that stays. *)
Definition starts_kept (p : ascii -> bool) (s : string) : Prop :=
  match s with
  | EmptyString => True
  | String c _ => p c = false
  end.

End PyProps.

(** ** Fences *)

Module AiUtilsProps.
Import Py PyProps AiUtils.

(** The first two characters of the fence: an occurrence of the fence that
    starts inside [pre] lies within [pre ++ fence_head]. *)
Definition fence_head : string := "``".

End AiUtilsProps.

(** ** Ranges of floats *)

Module PyFloatProps.
Import PyFloat.

(** [lo <= x <= hi] for int bounds, as Python evaluates it. *)
Definition between (lo hi : Z) (x : t) : Prop :=
  leb (of_Z lo) x = true /\ leb x (of_Z hi) = true.

(** A score the record's validator accepts: in the range, or nan where the
    validator lets nan through. *)
Definition accepted_score (nan_meets_bounds : bool) (x : t) : Prop :=
  between 0 1 x \/ (nan_meets_bounds = true /\ x = NaN).

Definition opp (c : option comparison) : option comparison :=
  match c with Some r => Some (CompOpp r) | None => None end.

End PyFloatProps.

(** ** The facets *)

Module AIServiceProps.
Import AiConstants AIService PyFloatProps.

(** The service whose answer to every prompt is the text [nan]. *)
Definition nan_service : t := mk false (fun _ => Ok (Some "nan")).

Definition africa : json := JStr "#Africa".

(** The list made of a parsed, non-empty list: padded to three, cut at
    five. *)
Definition clamp_tags (parsed : list json) : list json :=
  firstn 5 (parsed ++ repeat africa (3 - List.length parsed))%list.

(** A point is whole and valid, or it is empty.  [lat] and [lng] are the
    values of the answer, [a] and [b] the floats stored for them; the map
    URL is the one formatted from the two values. *)
Definition geo_ok (g : Geo.t) : Prop :=
  g = Geo.empty
  \/ exists (lat lng : json) (a b : PyFloat.t),
       Json.as_number lat = Some a /\ Json.as_number lng = Some b
       /\ between (-90) 90 a /\ between (-180) 180 b
       /\ g = Geo.mk (Some a) (Some b) (Some (maps_url lat lng)).

(** The classes the handler of [extract_geo] names. *)
Definition geo_catches (e : exc) : bool :=
  is_JSONDecodeError e || is_KeyError e || is_AttributeError e
  || is_ValueError e.

(** A live service that answers every prompt with [answer], and a parser
    that reads every text as [v]. *)
Definition geo_service (answer : string) : t := mk false (fun _ => Ok (Some answer)).

Definition one_answer (v : json) : json_parser := fun _ => Ok v.

End AIServiceProps.

(** ** The media lookup client *)

Module BraveProps.
Import BraveSearchService.

(** The response holds at least one result: [data["results"]] is a list
    that is not empty. *)
Definition holds_a_result (data : json) : Prop :=
  exists entries first others,
    data = JDict entries
    /\ Json.lookup "results" entries = Some (JList (first :: others)).

(** The response holds no result: no ["results"] key, or [null], or an
    empty list under it. *)
Definition holds_no_result (data : json) : Prop :=
  exists entries,
    data = JDict entries
    /\ (Json.lookup "results" entries = None
        \/ Json.lookup "results" entries = Some JNull
        \/ Json.lookup "results" entries = Some (JList [])).

(** What is promised of one search operation, [url] being the endpoint it
    requests. *)
Definition absent_on_every_miss
    (search : t -> string -> Z -> result (option json))
    (url : t -> string) : Prop :=
  forall (self : t) (query : string) (count : Z),
  exists r,
    search self query count = Ok r
    /\ (no_api_key self = true -> r = None)
    /\ (forall e, http self (url self) query count = Raise e -> r = None)
    /\ (forall data,
          http self (url self) query count = Ok data ->
          holds_no_result data -> r = None)
    /\ (forall found,
          r = Some found ->
          no_api_key self = false
          /\ exists data,
               http self (url self) query count = Ok data
               /\ holds_a_result data).

(** A client whose requests all answer [data]. *)
Definition answering (key : option string) (data : result json) : t :=
  mk key "https://api.search.brave.com/res/v1/images/search"
     "https://api.search.brave.com/res/v1/videos/search"
     (fun _ _ _ => data).

Definition one_image : json :=
  JDict [("results",
          JList [JDict [("title", JStr "Solar farm");
                        ("url", JStr "https://example.com/page");
                        ("properties",
                         JDict [("url", JStr "https://example.com/a.jpg")])]])].

End BraveProps.

(** ** Words *)

Module WordProps.
Import Py.

(** A word: not empty, and free of white space. *)
Fixpoint no_space (w : string) : bool :=
  match w with
  | EmptyString => true
  | String c w' => negb (is_space c) && no_space w'
  end.

Definition is_word (w : string) : Prop :=
  w <> EmptyString /\ no_space w = true.

End WordProps.

(** ** The media search query *)

Module MediaQueryProps.
Import Py WordProps AIService AIServiceProps.

(** The number of words of a text. *)
Definition word_count (s : string) : nat := List.length (split_ws s).

(** A service in mock mode; its client is never called. *)
Definition mock_service : t := mk true (fun _ => Raise (ServiceError "mock")).

Definition nine_words : string := "one two three four five six seven eight nine".

End MediaQueryProps.

(** ** The session and the repository *)

Module RepositoryProps.
Import Session NewsRepository.

(** What a statement that only reads leaves as it is: everything but the
    fault schedule. *)
Definition frame (s s' : Session.t) : Prop :=
  table s' = table s /\ begun s' = begun s /\ new s' = new s
  /\ dirty s' = dirty s /\ sequence s' = sequence s /\ now s' = now s.

(** A session with nothing pending and nothing flushed since the
    transaction began: what [get_session] hands to a request handler. *)
Definition clean (s : Session.t) : Prop :=
  table s = begun s /\ new s = [] /\ dirty s = [].

(** The row an UPDATE of [obj] leaves in the place of the row with its
    primary key. *)
Definition replaced (obj : NewsArticle.t) (now : Z) (rows : list NewsArticle.t)
    : list NewsArticle.t :=
  map (fun r => if (NewsArticle.id r =? NewsArticle.id obj)%Z
                then NewsArticle.updated obj now else r) rows.

Definition save_prefix : string := "Failed to save news article".

(** The content columns of a row hold the content of an article. *)
Definition stores (row : NewsArticle.t) (news : FinalNewsOutput.t) : Prop :=
  NewsArticle.title row = FinalNewsOutput.title news
  /\ NewsArticle.body row = FinalNewsOutput.body news
  /\ NewsArticle.source_url row = FinalNewsOutput.source_url news
  /\ NewsArticle.author row = FinalNewsOutput.publisher news
  /\ NewsArticle.published_date row = FinalNewsOutput.published_at news
  /\ NewsArticle.summary row = FinalNewsOutput.summary news
  /\ NewsArticle.tags row = FinalNewsOutput.tags news
  /\ NewsArticle.sentiment_label row
     = EnrichedNewsContext.social_sentiment (FinalNewsOutput.context news)
  /\ NewsArticle.sentiment_score row = PyFloat.of_Z 0
  /\ NewsArticle.featured_image_url row
     = EnrichedNewsMedia.featured_image_url (FinalNewsOutput.media news)
  /\ NewsArticle.related_video_url row
     = EnrichedNewsMedia.related_video_url (FinalNewsOutput.media news)
  /\ NewsArticle.media_justification row
     = EnrichedNewsMedia.media_justification (FinalNewsOutput.media news)
  /\ NewsArticle.wikipedia_snippet row
     = EnrichedNewsContext.wikipedia_snippet (FinalNewsOutput.context news)
  /\ NewsArticle.search_trend row
     = EnrichedNewsContext.search_trend (FinalNewsOutput.context news)
  /\ NewsArticle.geo_lat row = Geo.lat (FinalNewsOutput.geo news)
  /\ NewsArticle.geo_lng row = Geo.lng (FinalNewsOutput.geo news)
  /\ NewsArticle.map_url row = Geo.map_url (FinalNewsOutput.geo news)
  /\ NewsArticle.images row = []
  /\ NewsArticle.videos row = []
  /\ NewsArticle.relevance_score row = FinalNewsOutput.relevance_score news.

End RepositoryProps.

(** ** The orchestrator *)

Module IngestionProps.
Import Session NewsRepository RepositoryProps PyFloatProps AIServiceProps.

Definition ingest_prefix : string := "News ingestion failed".

(** An article carries what the six facets produced, within their
    ranges; its score is one the record's validator accepted. *)
Definition fully_enriched (nan_meets_bounds : bool) (out : FinalNewsOutput.t)
    : Prop :=
  3 <= List.length (FinalNewsOutput.tags out) <= 5
  /\ accepted_score nan_meets_bounds (FinalNewsOutput.relevance_score out)
  /\ geo_ok (FinalNewsOutput.geo out).

(** The article is made of the raw article and of what the six facets
    return on its title and body (the media facet on the tags of the tag
    facet), under the identifier and the time drawn for it. *)
Definition enriched_by (json_loads : json_parser)
    (brave_search_service : BraveSearchService.t) (ai_service : AIService.t)
    (uuid utc_now : string) (raw_input : RawNewsInput.t)
    (out : FinalNewsOutput.t) : Prop :=
  let title := RawNewsInput.title raw_input in
  let body := RawNewsInput.body raw_input in
  let tags := map JStr (FinalNewsOutput.tags out) in
  FinalNewsOutput.id out = uuid
  /\ FinalNewsOutput.title out = title
  /\ FinalNewsOutput.body out = body
  /\ FinalNewsOutput.source_url out = RawNewsInput.source_url raw_input
  /\ FinalNewsOutput.publisher out = RawNewsInput.author raw_input
  /\ FinalNewsOutput.published_at out = RawNewsInput.published_date raw_input
  /\ FinalNewsOutput.ingested_at out = utc_now
  /\ AIService.generate_summary ai_service title body
     = Ok (FinalNewsOutput.summary out)
  /\ AIService.generate_tags json_loads ai_service title body = Ok tags
  /\ AIService.calculate_relevance_score ai_service title body
     = Ok (FinalNewsOutput.relevance_score out)
  /\ AIService.discover_media brave_search_service ai_service title body tags
     = Ok (FinalNewsOutput.media out)
  /\ AIService.extract_context json_loads ai_service title body
     = Ok (FinalNewsOutput.context out)
  /\ AIService.extract_geo json_loads ai_service title body
     = Ok (FinalNewsOutput.geo out).

(** The table holds a row for the article. *)
Definition persisted (out : FinalNewsOutput.t) (rows : list NewsArticle.t)
    : Prop :=
  exists row,
    In row rows
    /\ NewsArticle.slug row = FinalNewsOutput.id out
    /\ stores row out.

(** The record [ingest_news] builds of an enrichment. *)
Definition assemble (nan_meets_bounds : bool) (uuid utc_now : string)
    (raw_input : RawNewsInput.t) (e : AIService.enrichment)
    : result FinalNewsOutput.t :=
  FinalNewsOutput.make nan_meets_bounds uuid
    (RawNewsInput.title raw_input) (RawNewsInput.body raw_input)
    (RawNewsInput.source_url raw_input) (RawNewsInput.author raw_input)
    (RawNewsInput.published_date raw_input)
    (AIService.summary e) (AIService.tags e) (AIService.relevance_score e)
    (AIService.media e) (AIService.context e) (AIService.geo e) utc_now.

(** The summary of the mock mode. *)
Definition mock_summary (body : string) : string :=
  Py.join " " (firstn 30 (Py.split_ws body)) ++ "...".

(** The article [ingest_news] builds in mock mode. *)
Definition mock_article (uuid utc_now : string) (raw_input : RawNewsInput.t)
    : FinalNewsOutput.t :=
  FinalNewsOutput.mk uuid (RawNewsInput.title raw_input)
    (RawNewsInput.body raw_input) (RawNewsInput.source_url raw_input)
    (RawNewsInput.author raw_input) (RawNewsInput.published_date raw_input)
    (mock_summary (RawNewsInput.body raw_input))
    ["#Africa"; "#News"; "#Technology"]
    AiConstants.float_0_7 AIService.mock_media AIService.mock_context
    AIService.mock_geo utc_now.

End IngestionProps.

(** ** The scenario of the specification *)

Module Runs.
Import Session NewsRepository RepositoryProps IngestionProps.

(** A rendering of timestamps for the runs below. *)
Definition epoch_text (t : Z) : string := PyFloat.Z_to_string t.

Definition no_json : json_parser := fun _ => Raise JSONDecodeError.

Definition offline_brave : BraveSearchService.t :=
  BraveProps.answering None (Raise HTTPError).

Definition solar_body : string :=
  "Kenya has opened a new solar plant near Garissa that will feed fifty megawatts into the national grid and bring reliable power to thousands of homes and small businesses across the northern counties of the country this year".

Definition solar : RawNewsInput.t :=
  RawNewsInput.mk "Solar plant opens in Kenya" solar_body
    "https://example.com/a" None None.

Definition uuid : string := "3f2b8c1e-0d4a-4c8e-9b1a-7e5d2c6f1a90".

Definition utc_now : string := "2024-05-01T09:30:00+00:00".

Definition empty_db : Session.t := opened [] 1 1714555800 [].

(** The SELECT of [save_news] answers, its INSERT fails. *)
Definition failing_insert : Session.t := opened [] 1 1714555800 [false; true].

Definition mock_ingest (s : Session.t) :=
  IngestionService.ingest_news no_json offline_brave true epoch_text
    MediaQueryProps.mock_service uuid utc_now solar s.

(** A stored article and a second version of it. *)
Definition stored_row : NewsArticle.t :=
  NewsArticle.mk 7 uuid "Solar plant planned in Kenya" "Plans were announced."
    "https://example.com/a" None None "A plant is planned." ["#Kenya"]
    (Some "neutral") (PyFloat.of_Z 0) None None None None (Some "stable")
    None None None [] [] (PyFloat.Finite false 5 (-1))
    1700000000 1700000000 1700000000.

Definition second_version : FinalNewsOutput.t :=
  FinalNewsOutput.mk uuid "Solar plant opens in Kenya" solar_body
    "https://example.com/a" (Some "Newsdesk") None "The plant has opened."
    ["#Kenya"; "#Solar"; "#Energy"] (PyFloat.Finite false 9 (-1))
    AIService.mock_media AIService.mock_context AIService.mock_geo utc_now.

Definition one_article : Session.t := opened [stored_row] 8 1714555800 [].

(** The live pipeline with a service that answers every prompt with the
    same text. *)
Definition parrot (answer : string) : AIService.t :=
  AIService.mk false (fun _ => Ok (Some answer)).

End Runs.

(** ** From rows to articles *)

Module SearchProps.
Import Py PyProps Session NewsRepository RepositoryProps PyFloatProps.

(** [a] is the article [_to_output_model] makes of the row [r]. *)
Definition shows (r : NewsArticle.t) (a : FinalNewsOutput.t) : Prop :=
  FinalNewsOutput.title a = NewsArticle.title r
  /\ FinalNewsOutput.body a = NewsArticle.body r
  /\ FinalNewsOutput.summary a = NewsArticle.summary r
  /\ FinalNewsOutput.tags a = NewsArticle.tags r
  /\ FinalNewsOutput.relevance_score a = NewsArticle.relevance_score r.

End SearchProps.

(** ** An archive to search *)

Module SearchRuns.
Import Session NewsRepository SearchProps.

Definition article (id : Z) (slug title body summary : string)
    (tags : list string) (score : PyFloat.t) : NewsArticle.t :=
  NewsArticle.mk id slug title body "https://example.com/a" None None summary
    tags (Some "neutral") (PyFloat.of_Z 0) None None None None (Some "stable")
    None None None [] [] score 1700000000 1700000000 1700000000.

Definition copper : NewsArticle.t :=
  article 1 "a1" "Copper MINING expands in Zambia" "New pits open this year."
    "Output is set to double." ["#Zambia"; "#Copper"] (PyFloat.Finite false 6 (-1)).

Definition election : NewsArticle.t :=
  article 2 "a2" "Election results" "Votes were counted in every district."
    "Counting ended on Sunday." ["#Vote"] (PyFloat.Finite false 8 (-1)).

Definition cobalt : NewsArticle.t :=
  article 3 "a3" "Cobalt prices rise" "Traders expect a shortage."
    "Prices rose again." ["#Cobalt"; "#Mining"] (PyFloat.Finite false 9 (-1)).

Definition archive : Session.t :=
  opened [copper; election; cobalt] 4 1714555800 [].

End SearchRuns.

(** ** The media and context facets *)

Module FacetProps.
Import AiConstants AIService MediaQueryProps.

(** What every media record of the facet carries: the query, an image URL
    that is not empty, a video URL that may be empty and then comes without
    a caption, a justification, and captions of at most 15 words. *)
Definition media_ok (m : EnrichedNewsMedia.t) : Prop :=
  (exists q, EnrichedNewsMedia.search_query m = Some q)
  /\ (exists u, EnrichedNewsMedia.featured_image_url m = Some u
                /\ u <> EmptyString)
  /\ (exists v, EnrichedNewsMedia.related_video_url m = Some v
                /\ (v = EmptyString -> EnrichedNewsMedia.video_caption m = None))
  /\ (exists j, EnrichedNewsMedia.media_justification m = Some j)
  /\ (forall c, EnrichedNewsMedia.image_caption m = Some c -> word_count c <= 15)
  /\ (forall c, EnrichedNewsMedia.video_caption m = Some c -> word_count c <= 15).

(** The context carries a snippet of at least 20 characters. *)
Definition context_ok (c : EnrichedNewsContext.t) : Prop :=
  exists s, EnrichedNewsContext.wikipedia_snippet c = Some s
            /\ 20 <= String.length s.

(** The classes the handler of [extract_context] names. *)
Definition context_catches (e : exc) : bool :=
  is_JSONDecodeError e || is_KeyError e || is_AttributeError e.

(** A caption is absent or a text of at most 15 words. *)
Definition caption_ok (c : json) : Prop :=
  c = JNull \/ exists s, c = JStr s /\ word_count s <= 15.

End FacetProps.

(** ** The media lookup, both searches *)

Module BraveMediaProps.
Import BraveSearchService.

(** The URL [discover_media] reports beside a search result: the one under
    ["url"] of the result, and [None] where the search found nothing. *)
Definition url_from (metadata : option json) (url : json) : Prop :=
  match metadata with
  | None => url = JNull
  | Some found =>
      exists u rest, found = JDict (("url", u) :: rest) /\ url = u
  end.

End BraveMediaProps.

(** ** The validators and helpers *)

Module AiHelpersProps.
Import AiTables AiHelpers.

(** The name of the city occurs in the text, letter case apart. *)
Definition mentions_city (text city : string) : bool :=
  Py.contains (PyText.lower city) (PyText.lower text).

Definition unmentioned (text : string)
    (items : list (string * (PyFloat.t * PyFloat.t))) : Prop :=
  Forall (fun kv => mentions_city text (fst kv) = false) items.

(** The point made of two coordinates and their map URL. *)
Definition whole_geo (lat lng : PyFloat.t) : Geo.t :=
  Geo.mk (Some lat) (Some lng) (Some (maps_url lat lng)).

(** A tag made of a capitalised word: [#], one capital, small letters. *)
Fixpoint all_lower (s : string) : bool :=
  match s with
  | EmptyString => true
  | String c s' => PyText.is_lower c && all_lower s'
  end.

Definition capitalized_tag (tag : string) : Prop :=
  exists c rest,
    tag = String "#" (String c rest)
    /\ PyText.is_upper c = true /\ rest <> EmptyString
    /\ all_lower rest = true.

(** A capitalised word, and what a scan holds of one while it reads it. *)
Definition capitalized (w : string) : Prop :=
  exists c rest,
    w = String c rest /\ PyText.is_upper c = true /\ rest <> EmptyString
    /\ all_lower rest = true.

Definition scanning (st : PyText.scan_state) : Prop :=
  match st with
  | PyText.Outside _ => True
  | PyText.Inside matched small =>
      exists c rest,
        matched = String c rest /\ PyText.is_upper c = true
        /\ all_lower rest = true /\ String.length rest = small
  end.

End AiHelpersProps.

(** ** The other operations of the repository *)

Module QueryProps.
Import Session NewsRepository NewsQueries RepositoryProps.

(** What [_to_output_model] keeps of the media of an article that was
    stored: the query and the two captions have no column. *)
Definition stored_media (m : EnrichedNewsMedia.t) : EnrichedNewsMedia.t :=
  EnrichedNewsMedia.mk None
    (EnrichedNewsMedia.featured_image_url m) None
    (EnrichedNewsMedia.related_video_url m) None
    (EnrichedNewsMedia.media_justification m).

(** The article read back after [news] was stored at the time [stamp]. *)
Definition read_back (news : FinalNewsOutput.t) (stamp : string)
    : FinalNewsOutput.t :=
  FinalNewsOutput.mk
    (FinalNewsOutput.id news) (FinalNewsOutput.title news)
    (FinalNewsOutput.body news) (FinalNewsOutput.source_url news)
    (FinalNewsOutput.publisher news) (FinalNewsOutput.published_at news)
    (FinalNewsOutput.summary news) (FinalNewsOutput.tags news)
    (FinalNewsOutput.relevance_score news)
    (stored_media (FinalNewsOutput.media news))
    (FinalNewsOutput.context news) (FinalNewsOutput.geo news) stamp.

(** Newest first, by the time of ingestion. *)
Definition newest_first (r1 r2 : NewsArticle.t) : Prop :=
  (NewsArticle.ingested_at r2 <= NewsArticle.ingested_at r1)%Z.

(** The rows of one page: [limit] rows after the first [offset] of the
    ordered table. *)
Definition page (limit offset : Z) (ordered : list NewsArticle.t)
    : list NewsArticle.t :=
  firstn (Z.to_nat limit) (skipn (Z.to_nat offset) ordered).

(** The table without the rows of a primary key. *)
Definition without (key : Z) (rows : list NewsArticle.t)
    : list NewsArticle.t :=
  filter (fun r => negb (NewsArticle.id r =? key)%Z) rows.

End QueryProps.

(** ** Runs of the other operations *)

Module QueryRuns.
Import Session NewsRepository Runs.

(** The second version of the stored article, its context without a
    sentiment. *)
Definition unlabelled : FinalNewsOutput.t :=
  FinalNewsOutput.mk uuid "Solar plant opens in Kenya" solar_body
    "https://example.com/a" (Some "Newsdesk") None "The plant has opened."
    ["#Kenya"; "#Solar"; "#Energy"] (PyFloat.Finite false 9 (-1))
    AIService.mock_media
    (EnrichedNewsContext.mk (Some AiConstants.DEFAULT_FALLBACKS.wikipedia_snippet)
       None (Some "stable"))
    AIService.mock_geo utc_now.

(** The session after [second_version] was saved into the empty table. *)
Definition after_save : Session.t :=
  snd (save_news true epoch_text second_version empty_db).

(** The session after the stored article was deleted. *)
Definition after_delete : Session.t :=
  snd (NewsQueries.delete_news uuid one_article).

(** A row ingested at the time [t]. *)
Definition row_at (id : Z) (slug : string) (t : Z) : NewsArticle.t :=
  NewsArticle.mk id slug "Title" "Body" "https://example.com/a" None None
    "Summary" ["#Tag"] (Some "neutral") (PyFloat.of_Z 0) None None None None
    (Some "stable") None None None [] [] (PyFloat.Finite false 5 (-1))
    t t t.

Definition three_days : Session.t :=
  opened [row_at 1 "mon" 10; row_at 2 "wed" 30; row_at 3 "tue" 20] 4 40 [].

(** A live service whose answers all parse to one object: a long snippet
    and a null sentiment. *)
Definition null_sentiment : json :=
  JDict [("wikipedia_snippet",
          JStr "Kenya has expanded its grid with solar plants since 2018.");
         ("social_sentiment", JNull)].

End QueryRuns.

(* ================================================================== *)
(** * Part III.  Proofs                                               *)
(* ================================================================== *)

Example split_example :
  Py.split "```" "a```json{}```b" = ["a"; "json{}"; "b"].
Proof. reflexivity. Qed.

(** ** Facts about the string operations *)

Module PyFacts.
Import Py PyProps.

Lemma append_nil_r (s : string) : s ++ EmptyString = s.
Proof. induction s as [|c s IH]; simpl; [reflexivity | now rewrite IH]. Qed.

Lemma append_assoc (a b c : string) : (a ++ b) ++ c = a ++ (b ++ c).
Proof. induction a as [|x a IH]; simpl; [reflexivity | now rewrite IH]. Qed.

Lemma length_append (a b : string) :
  String.length (a ++ b) = String.length a + String.length b.
Proof. induction a as [|x a IH]; simpl; [reflexivity | now rewrite IH]. Qed.

(** *** [startswith] and [in] *)

Lemma startswith_app (s p t : string) :
  startswith s p = true -> startswith (s ++ t) p = true.
Proof.
  revert s; induction p as [|a p IH]; intros s H; simpl in *; [reflexivity|].
  destruct s as [|b s]; simpl in *; [discriminate|].
  apply andb_true_iff in H as [-> H]. simpl. now apply IH.
Qed.

Lemma startswith_self_app (p t : string) : startswith (p ++ t) p = true.
Proof.
  induction p as [|a p IH]; simpl; [reflexivity|].
  now rewrite Ascii.eqb_refl.
Qed.

(** Only the first [length p] characters of [s] matter. *)
Lemma startswith_long (s t u p : string) :
  String.length p <= String.length s ->
  startswith (s ++ t) p = startswith (s ++ u) p.
Proof.
  revert s; induction p as [|a p IH]; intros s H; simpl in *; [reflexivity|].
  destruct s as [|b s]; simpl in *; [lia|].
  f_equal. apply IH. lia.
Qed.

Lemma contains_cons (sub : string) (c : ascii) (s : string) :
  contains sub s = true -> contains sub (String c s) = true.
Proof. intros H. simpl. rewrite H. apply orb_true_r. Qed.

Lemma contains_app_r (sub a b : string) :
  contains sub a = true -> contains sub (a ++ b) = true.
Proof.
  induction a as [|c a IH]; intros H.
  - simpl in H. rewrite orb_false_r in H.
    destruct sub; simpl in H; [|discriminate].
    destruct b; reflexivity.
  - simpl in H. apply orb_true_iff in H as [H|H].
    + change (String c a ++ b) with (String c (a ++ b)).
      cbn [contains]. apply orb_true_iff. left.
      now apply (startswith_app (String c a) sub b).
    + change (String c a ++ b) with (String c (a ++ b)).
      apply contains_cons. now apply IH.
Qed.

Lemma contains_app_l (sub a b : string) :
  contains sub b = true -> contains sub (a ++ b) = true.
Proof.
  induction a as [|c a IH]; intros H; simpl append; [exact H|].
  apply contains_cons. now apply IH.
Qed.

Lemma contains_startswith (sub s : string) :
  startswith s sub = true -> contains sub s = true.
Proof. intros H. destruct s; simpl; now rewrite H. Qed.

Lemma contains_occurrence (sub a b : string) :
  contains sub (a ++ sub ++ b) = true.
Proof. apply contains_app_l, contains_startswith, startswith_self_app. Qed.

(** *** Stripping *)

Section Strip.
Variable p : ascii -> bool.

Lemma lstrip_by_app_keep (a : string) (c : ascii) (b : string) :
  p c = false ->
  lstrip_by p (a ++ String c b) = lstrip_by p a ++ String c b.
Proof.
  intros Hc. induction a as [|x a IH]; simpl.
  - now rewrite Hc.
  - destruct (p x); [exact IH | reflexivity].
Qed.

Lemma rstrip_by_cons_keep (c : ascii) (s : string) :
  p c = false -> rstrip_by p (String c s) = String c (rstrip_by p s).
Proof. intros Hc. simpl. rewrite Hc. now destruct (rstrip_by p s). Qed.

Lemma rstrip_by_app_keep (a : string) (c : ascii) (b : string) :
  p c = false ->
  rstrip_by p (a ++ String c b) = a ++ String c (rstrip_by p b).
Proof.
  intros Hc. induction a as [|x a IH].
  - simpl append. now apply rstrip_by_cons_keep.
  - change (String x a ++ String c b) with (String x (a ++ String c b)).
    cbn [rstrip_by]. rewrite IH.
    destruct a; reflexivity.
Qed.

Lemma rstrip_by_idem (s : string) :
  rstrip_by p (rstrip_by p s) = rstrip_by p s.
Proof.
  induction s as [|c s IH]; [reflexivity|].
  cbn [rstrip_by]. destruct (rstrip_by p s) as [|d r] eqn:E.
  - destruct (p c) eqn:Hc; [reflexivity|].
    simpl. now rewrite Hc.
  - cbn [rstrip_by]. cbn [rstrip_by] in IH. rewrite IH. reflexivity.
Qed.

Lemma lstrip_by_starts_kept (s : string) : starts_kept p (lstrip_by p s).
Proof.
  induction s as [|c s IH]; simpl; [exact I|].
  destruct (p c) eqn:Hc; [exact IH | exact Hc].
Qed.

Lemma lstrip_by_fixed (s : string) : starts_kept p s -> lstrip_by p s = s.
Proof. destruct s as [|c s]; simpl; [reflexivity | now intros ->]. Qed.

Lemma rstrip_by_starts_kept (s : string) :
  starts_kept p s -> starts_kept p (rstrip_by p s).
Proof.
  destruct s as [|c s]; [exact (fun H => H)|]. intros Hc. simpl in Hc.
  rewrite (rstrip_by_cons_keep c s Hc). exact Hc.
Qed.

Lemma strip_by_idem (s : string) :
  strip_by p (strip_by p s) = strip_by p s.
Proof.
  unfold strip_by.
  rewrite (lstrip_by_fixed (rstrip_by p (lstrip_by p s))).
  - apply rstrip_by_idem.
  - apply rstrip_by_starts_kept, lstrip_by_starts_kept.
Qed.

Lemma contains_lstrip_by (sub s t : string) :
  contains sub (lstrip_by p s ++ t) = true -> contains sub (s ++ t) = true.
Proof.
  induction s as [|c s IH]; simpl; [exact (fun H => H)|].
  destruct (p c).
  - intros H. rewrite (IH H). apply orb_true_r.
  - exact (fun H => H).
Qed.

(** [rstrip] only removes a tail. *)
Lemma rstrip_by_tail (s : string) : exists t, s = rstrip_by p s ++ t.
Proof.
  induction s as [|c s [t IH]]; [now exists EmptyString|].
  cbn [rstrip_by]. destruct (rstrip_by p s) as [|d r] eqn:E.
  - destruct (p c).
    + now exists (String c s).
    + exists s. reflexivity.
  - exists t. simpl in IH |- *. now rewrite <- IH.
Qed.

Lemma contains_strip_by (sub s : string) :
  contains sub (strip_by p s) = true -> contains sub s = true.
Proof.
  unfold strip_by. intros H.
  destruct (rstrip_by_tail (lstrip_by p s)) as [t Ht].
  apply (contains_app_r sub _ t) in H. rewrite <- Ht in H.
  rewrite <- (append_nil_r s). apply contains_lstrip_by.
  now rewrite append_nil_r.
Qed.

End Strip.

End PyFacts.

(** ** [clean_json_response] *)

Module AiUtilsFacts.
Import Py PyFacts PyProps AiUtils AiUtilsProps.

Lemma backtick_kept : is_space "`"%char = false.
Proof. reflexivity. Qed.

Lemma split_at_fence (rest : string) :
  split_go fence 0 (fence ++ rest) = EmptyString :: split_go fence 0 rest.
Proof. reflexivity. Qed.

Lemma contains_false_inv (sub : string) (c : ascii) (s : string) :
  contains sub (String c s) = false ->
  startswith (String c s) sub = false /\ contains sub s = false.
Proof. cbn [contains]. intros H. now apply orb_false_iff in H. Qed.

Lemma split_first (pre rest : string) :
  contains fence (pre ++ fence_head) = false ->
  split fence (pre ++ fence ++ rest) = pre :: split fence rest.
Proof.
  unfold split. induction pre as [|c pre IH]; intros H.
  - apply split_at_fence.
  - change (String c pre ++ fence_head) with (String c (pre ++ fence_head)) in H.
    apply contains_false_inv in H as [Hhere Hlater].
    change (String c pre ++ fence ++ rest)
      with (String c (pre ++ fence ++ rest)).
    assert (Hsw : startswith (String c (pre ++ fence ++ rest)) fence = false).
    { replace (String c (pre ++ fence ++ rest))
        with (String c (pre ++ fence_head) ++ ("`" ++ rest))
        by (simpl; rewrite append_assoc; reflexivity).
      rewrite (startswith_long _ ("`" ++ rest) EmptyString fence)
        by (simpl; rewrite length_append; simpl; lia).
      now rewrite append_nil_r. }
    cbn [split_go]. rewrite Hsw. now rewrite (IH Hlater).
Qed.

Lemma split_no_fence (s : string) :
  contains fence s = false -> split fence s = [s].
Proof.
  unfold split. induction s as [|c s IH]; intros H; [reflexivity|].
  apply contains_false_inv in H as [Hhere Hlater].
  cbn [split_go]. rewrite Hhere. now rewrite (IH Hlater).
Qed.

(** What [strip] does to a text that holds a fence. *)
Lemma strip_around_fences (pre inner post : string) :
  strip (pre ++ fence ++ inner ++ fence ++ post)
  = lstrip_by is_space pre ++ fence ++ inner ++ fence
      ++ rstrip_by is_space post.
Proof.
  unfold strip, strip_by, fence.
  change (pre ++ "```" ++ inner ++ "```" ++ post)
    with (pre ++ String "`" ("``" ++ inner ++ "```" ++ post)).
  rewrite (lstrip_by_app_keep _ _ _ _ backtick_kept).
  replace (lstrip_by is_space pre ++ String "`" ("``" ++ inner ++ "```" ++ post))
    with ((lstrip_by is_space pre ++ "```" ++ inner ++ "``")
            ++ String "`" post)
    by (rewrite !append_assoc; reflexivity).
  rewrite (rstrip_by_app_keep _ _ _ _ backtick_kept).
  rewrite !append_assoc. reflexivity.
Qed.

Lemma strip_before_fence (pre rest : string) :
  lstrip_by is_space (pre ++ fence ++ rest)
  = lstrip_by is_space pre ++ fence ++ rest.
Proof. apply (lstrip_by_app_keep _ _ _ _ backtick_kept). Qed.

Lemma lstrip_keeps_no_fence (pre : string) :
  contains fence (pre ++ fence_head) = false ->
  contains fence (lstrip_by is_space pre ++ fence_head) = false.
Proof.
  intros H. destruct (contains fence (lstrip_by is_space pre ++ fence_head)) eqn:E;
    [|reflexivity].
  apply contains_lstrip_by in E. congruence.
Qed.

(** The fenced case, with the tag rule as the code writes it. *)
Lemma clean_json_response_fenced (pre mid post : string) :
  contains fence (pre ++ fence_head) = false ->
  contains fence (mid ++ fence_head) = false ->
  clean_json_response (pre ++ fence ++ mid ++ fence ++ post)
  = Ok (strip (drop_json_tag mid)).
Proof.
  intros Hpre Hmid. unfold clean_json_response, unfence.
  rewrite strip_around_fences.
  rewrite contains_occurrence.
  unfold second_piece.
  rewrite (split_first _ _ (lstrip_keeps_no_fence _ Hpre)).
  rewrite (split_first _ _ Hmid).
  reflexivity.
Qed.

(** A fence that is never closed: everything after it is taken. *)
Lemma clean_json_response_unclosed (pre rest : string) :
  contains fence (pre ++ fence_head) = false ->
  contains fence rest = false ->
  clean_json_response (pre ++ fence ++ rest)
  = Ok (strip (drop_json_tag (rstrip_by is_space rest))).
Proof.
  intros Hpre Hrest. unfold clean_json_response, unfence.
  assert (Hs : strip (pre ++ fence ++ rest)
               = lstrip_by is_space pre ++ fence ++ rstrip_by is_space rest).
  { unfold strip, strip_by. rewrite strip_before_fence.
    replace (lstrip_by is_space pre ++ fence ++ rest)
      with ((lstrip_by is_space pre ++ "``") ++ String "`" rest)
      by (rewrite append_assoc; reflexivity).
    rewrite (rstrip_by_app_keep _ _ _ _ backtick_kept).
    rewrite append_assoc. reflexivity. }
  rewrite Hs, contains_occurrence. unfold second_piece.
  rewrite (split_first _ _ (lstrip_keeps_no_fence _ Hpre)).
  rewrite split_no_fence; [reflexivity|].
  destruct (contains fence (rstrip_by is_space rest)) eqn:E; [|reflexivity].
  destruct (rstrip_by_tail is_space rest) as [t Ht].
  apply (contains_app_r _ _ t) in E. rewrite <- Ht in E. congruence.
Qed.

(** C8.  [clean_json_response] on every text: without a fence marker it
    only trims the text; with a pair of fence markers it returns what stands
    between the first two of them, without a leading "json" tag, trimmed.
    [pre] and [mid] are cut at the leftmost markers. *)
Theorem clean_json_response_spec (text : string) :
  (contains fence text = false ->
   clean_json_response text = Ok (strip text))
  /\ (forall pre mid post,
        text = pre ++ fence ++ mid ++ fence ++ post ->
        contains fence (pre ++ fence_head) = false ->
        contains fence (mid ++ fence_head) = false ->
        (forall body, mid = "json" ++ body ->
           clean_json_response text = Ok (strip body))
        /\ (startswith mid "json" = false ->
           clean_json_response text = Ok (strip mid))).
Proof.
  split.
  - intros Hno. unfold clean_json_response, unfence.
    destruct (contains fence (strip text)) eqn:E.
    + apply contains_strip_by in E. congruence.
    + cbn [bind]. unfold strip. now rewrite strip_by_idem.
  - intros pre mid post -> Hpre Hmid.
    rewrite (clean_json_response_fenced _ _ _ Hpre Hmid).
    split.
    + intros body ->. reflexivity.
    + intros Hno. unfold drop_json_tag. now rewrite Hno.
Qed.

Lemma clean_json_response_spec_witness :
  clean_json_response " [1, 2] " = Ok "[1, 2]"
  /\ clean_json_response "Here: ```json [1] ``` done" = Ok "[1]"
  /\ clean_json_response "``` {} ```" = Ok "{}".
Proof.
  split; [|split].
  - apply (proj1 (clean_json_response_spec " [1, 2] ")). reflexivity.
  - apply (proj1 (proj2 (clean_json_response_spec "Here: ```json [1] ``` done")
                   "Here: " "json [1] " " done"
                   eq_refl eq_refl eq_refl) " [1] ").
    reflexivity.
  - apply (proj2 (proj2 (clean_json_response_spec "``` {} ```")
                   EmptyString " {} " EmptyString
                   eq_refl eq_refl eq_refl)).
    reflexivity.
Defined.

End AiUtilsFacts.

(** ** [clean_json_response], on every text *)

Module CleanFacts.
Import Py PyFacts PyProps AiUtils AiUtilsProps AiUtilsFacts.

Lemma split_go_skip (sep : string) (k : nat) (s : string) :
  split_go sep k s = split_go sep 0 (drop k s).
Proof.
  revert k. induction s as [|c s IH]; intros k.
  - now destruct k.
  - destruct k as [|k]; [reflexivity|]. cbn [split_go drop]. apply IH.
Qed.

Lemma length_drop (k : nat) (s : string) :
  String.length (drop k s) <= String.length s.
Proof.
  revert k. induction s as [|c s IH]; intros [|k]; simpl; try lia.
  specialize (IH k). lia.
Qed.

Lemma contains_drop (sub : string) (k : nat) (s : string) :
  contains sub (drop k s) = true -> contains sub s = true.
Proof.
  revert k. induction s as [|c s IH]; intros [|k]; simpl drop; try tauto.
  intros H. apply contains_cons. now apply (IH k).
Qed.

(** The pieces of a split: the first is a prefix of the text, none holds
    the separator, and there is a second one when the separator occurs. *)
Lemma split_pieces (sep : string) (n : nat) (s : string) :
  sep <> EmptyString -> String.length s <= n ->
  exists p ps,
    split sep s = p :: ps
    /\ (exists t, s = p ++ t)
    /\ contains sep p = false
    /\ Forall (fun x => contains sep x = false) ps
    /\ (contains sep s = true -> ps <> []).
Proof.
  intros Hsep. unfold split. revert s.
  induction n as [|n IH]; intros s Hlen.
  - destruct s; [|simpl in Hlen; lia].
    exists EmptyString, []. repeat split; auto.
    + now exists EmptyString.
    + destruct sep; [now elim Hsep | reflexivity].
    + destruct sep; [now elim Hsep | discriminate].
  - destruct s as [|c s].
    { exists EmptyString, []. repeat split; auto.
      + now exists EmptyString.
      + destruct sep; [now elim Hsep | reflexivity].
      + destruct sep; [now elim Hsep | discriminate]. }
    simpl in Hlen. cbn [split_go].
    destruct (startswith (String c s) sep) eqn:Hsw.
    + rewrite split_go_skip.
      destruct (IH (drop (String.length sep - 1) s)) as (p & ps & E & _ & Hp & Hps & _).
      { pose proof (length_drop (String.length sep - 1) s). lia. }
      rewrite E. exists EmptyString, (p :: ps). repeat split.
      * now exists (String c s).
      * destruct sep; [now elim Hsep | reflexivity].
      * now constructor.
      * discriminate.
    + destruct (IH s) as (p & ps & E & (t & Ht) & Hp & Hps & Hmore); [lia|].
      rewrite E. exists (String c p), ps. repeat split.
      * exists t. simpl. now rewrite <- Ht.
      * cbn [contains]. rewrite Hp, orb_false_r.
        destruct (startswith (String c p) sep) eqn:Hsw'; [|reflexivity].
        apply (startswith_app _ _ t) in Hsw'. simpl in Hsw'.
        rewrite <- Ht in Hsw'. congruence.
      * exact Hps.
      * intros Hc. apply Hmore. cbn [contains] in Hc.
        now rewrite Hsw in Hc.
Qed.

Lemma second_piece_fence_free (content : string) :
  contains fence content = true ->
  exists piece, second_piece content = Ok piece /\ contains fence piece = false.
Proof.
  intros Hc. unfold second_piece.
  destruct (split_pieces fence (String.length content) content)
    as (p & ps & E & _ & _ & Hps & Hmore); [discriminate | lia|].
  rewrite E. destruct ps as [|q ps]; [now elim (Hmore Hc)|].
  exists q. split; [reflexivity|]. now inversion Hps.
Qed.

Lemma drop_json_tag_fence_free (piece : string) :
  contains fence piece = false -> contains fence (drop_json_tag piece) = false.
Proof.
  intros H. unfold drop_json_tag. destruct (startswith piece "json"); [|exact H].
  destruct (contains fence (drop 4 piece)) eqn:E; [|reflexivity].
  apply contains_drop in E. congruence.
Qed.

Lemma strip_fence_free (s : string) :
  contains fence s = false -> contains fence (strip s) = false.
Proof.
  intros H. destruct (contains fence (strip s)) eqn:E; [|reflexivity].
  apply contains_strip_by in E. congruence.
Qed.

Lemma unfence_clean (content : string) :
  exists out,
    unfence content = Ok out
    /\ contains fence out = false /\ strip out = out.
Proof.
  unfold unfence. destruct (contains fence content) eqn:Hc.
  - destruct (second_piece_fence_free content Hc) as (piece & -> & Hp).
    cbn [bind]. eexists. split; [reflexivity|]. split.
    + now apply strip_fence_free, drop_json_tag_fence_free.
    + apply strip_by_idem.
  - cbn [bind]. eexists. split; [reflexivity|]. split.
    + now apply strip_fence_free.
    + apply strip_by_idem.
Qed.

Lemma clean_json_response_returns (text : string) :
  exists out, clean_json_response text = Ok out.
Proof.
  destruct (unfence_clean (strip text)) as (out & Hout & _).
  exists out. exact Hout.
Qed.

(** X7.  [clean_json_response] returns on every text (the piece it indexes
    always exists).  What it returns holds no fence marker and no white
    space at either end, and cleaning it again changes nothing. *)
Theorem clean_json_response_clean (text : string) :
  exists out,
    clean_json_response text = Ok out
    /\ contains fence out = false
    /\ strip out = out
    /\ clean_json_response out = Ok out.
Proof.
  unfold clean_json_response.
  destruct (unfence_clean (strip text)) as (out & Hout & Hfree & Hstrip).
  exists out. repeat split; try assumption.
  rewrite Hstrip. unfold unfence. rewrite Hfree. cbn [bind].
  now rewrite Hstrip.
Qed.

End CleanFacts.

(** ** Comparisons of floats *)

Module PyFloatFacts.
Import PyFloat PyFloatProps.

Lemma compare_antisym (a b : t) : compare b a = opp (compare a b).
Proof.
  destruct a as [s1 m1 e1|s1|], b as [s2 m2 e2|s2|]; simpl; try reflexivity.
  - now rewrite <- Qcompare_antisym.
  - now destruct s2.
  - now destruct s1.
  - now destruct s1, s2.
Qed.

Lemma compare_defined (a b : t) :
  a <> NaN -> b <> NaN -> exists c, compare a b = Some c.
Proof.
  destruct a, b; intros Ha Hb; try congruence; simpl; eauto.
Qed.

Lemma not_gtb_leb (a b : t) :
  a <> NaN -> b <> NaN -> gtb a b = false -> leb a b = true.
Proof.
  intros Ha Hb. unfold gtb, leb.
  destruct (compare_defined a b Ha Hb) as [c ->]. now destruct c.
Qed.

Lemma not_ltb_leb (a b : t) :
  a <> NaN -> b <> NaN -> ltb a b = false -> leb b a = true.
Proof.
  intros Ha Hb. unfold ltb, leb. rewrite (compare_antisym a b).
  destruct (compare_defined a b Ha Hb) as [c ->]. now destruct c.
Qed.

Lemma of_Z_not_nan (z : Z) : of_Z z <> NaN.
Proof. discriminate. Qed.

(** [min(max(x, 0.0), 1.0)] lies in [0, 1] unless [x] is nan, and is nan
    when [x] is. *)
Lemma clamp_between (x : t) :
  x <> NaN -> between 0 1 (min (max x (of_Z 0)) (of_Z 1)).
Proof.
  intros Hx. unfold max.
  destruct (gtb (of_Z 0) x) eqn:Hlow.
  - split; reflexivity.
  - unfold min. destruct (ltb (of_Z 1) x) eqn:Hhigh.
    + split; reflexivity.
    + split.
      * apply not_gtb_leb; [apply of_Z_not_nan | exact Hx | exact Hlow].
      * apply not_ltb_leb; [apply of_Z_not_nan | exact Hx | exact Hhigh].
Qed.

Lemma clamp_nan : min (max NaN (of_Z 0)) (of_Z 1) = NaN.
Proof. reflexivity. Qed.

Lemma nan_not_between (lo hi : Z) : ~ between lo hi NaN.
Proof. intros [H _]. discriminate H. Qed.

End PyFloatFacts.

(** ** Results *)

Lemma bind_ok {A B} (r : result A) (k : A -> result B) (b : B) :
  bind r k = Ok b -> exists a, r = Ok a /\ k a = Ok b.
Proof. destruct r as [a|e]; simpl; [eauto | discriminate]. Qed.

(** ** The facets of [AIService] *)

Module AIServiceFacts.
Import AiConstants AIService PyFloatFacts PyFloatProps AIServiceProps.

(** A clause that names [Exception] catches whatever is raised. *)
Ltac caught :=
  cbn [try_ handle bind text_strip]; unfold is_Exception;
  rewrite ?orb_true_r; cbn [try_ handle bind text_strip].

(** *** [calculate_relevance_score] *)

Lemma float_0_7_between : between 0 1 DEFAULT_FALLBACKS.relevance_score.
Proof. split; reflexivity. Qed.

(** The facet returns on every input: no exception leaves it. *)
Lemma calculate_relevance_score_returns (self : t) (title body : string) :
  exists x, calculate_relevance_score self title body = Ok x.
Proof.
  unfold calculate_relevance_score.
  destruct (use_mock self); [eauto|].
  destruct (client self _) as [[text|]|e]; caught; eauto.
  destruct (PyFloat.of_string (Py.strip text)); caught; eauto.
Qed.

(** Whatever the service answers, the score is in [0, 1] or it is nan; it
    is nan exactly when the answer parses as nan. *)
Lemma calculate_relevance_score_range (self : t) (title body : string)
    (x : PyFloat.t) :
  calculate_relevance_score self title body = Ok x ->
  between 0 1 x
  \/ (x = PyFloat.NaN /\ use_mock self = false
      /\ exists text,
           client self (RelevanceScorePrompt title (Py.take 800 body))
           = Ok (Some text)
           /\ PyFloat.of_string (Py.strip text) = Some PyFloat.NaN).
Proof.
  unfold calculate_relevance_score.
  destruct (use_mock self) eqn:Hmock.
  - intros [= <-]. left. apply float_0_7_between.
  - destruct (client self _) as [[text|]|e] eqn:Hc; caught;
      try (intros [= <-]; left; apply float_0_7_between).
      destruct (PyFloat.of_string (Py.strip text)) as [score|] eqn:Hp; caught;
      try (intros [= <-]; left; apply float_0_7_between).
    intros [= <-].
    destruct score as [neg m e|neg|].
    + left. now apply clamp_between.
    + left. now apply clamp_between.
    + right. repeat split; eauto.
Qed.

(** C2, at the answer "nan".  [float("nan")] parses, both comparisons of
    the clamp are false on nan, and the facet returns nan, which is not in
    [0, 1]: neither clamped nor replaced by the fallback 0.7. *)
Theorem calculate_relevance_score_nan :
  calculate_relevance_score nan_service "Title" "Body" = Ok PyFloat.NaN
  /\ ~ between 0 1 PyFloat.NaN
  /\ PyFloat.NaN <> DEFAULT_FALLBACKS.relevance_score.
Proof.
  split; [reflexivity|]. split; [apply nan_not_between | discriminate].
Qed.

(** *** [generate_tags] *)

Lemma pad_tags_spec (fuel : nat) (tags : list json) :
  3 - List.length tags <= fuel ->
  pad_tags fuel tags = (tags ++ repeat africa (3 - List.length tags))%list.
Proof.
  revert tags. induction fuel as [|k IH]; intros tags Hfuel; cbn [pad_tags].
  - replace (3 - List.length tags) with 0 by lia.
    cbn [repeat]. now rewrite app_nil_r.
  - change CONTENT_LIMITS.min_tags with 3.
    destruct (Nat.ltb_spec (List.length tags) 3) as [Hlt|Hge].
    + rewrite IH by (rewrite length_app; cbn [List.length]; lia).
      rewrite length_app. cbn [List.length].
      replace (3 - List.length tags)
        with (S (3 - (List.length tags + 1))) by lia.
      cbn [repeat]. rewrite <- app_assoc. reflexivity.
    + replace (3 - List.length tags) with 0 by lia.
      cbn [repeat]. now rewrite app_nil_r.
Qed.

Lemma clamp_tags_length (parsed : list json) :
  3 <= List.length (clamp_tags parsed) <= 5.
Proof.
  unfold clamp_tags. rewrite length_firstn, length_app, repeat_length. lia.
Qed.

(** Every way [generate_tags] can end. *)
Lemma generate_tags_outcome (json_loads : json_parser) (self : t)
    (title body : string) :
  exists tags,
    generate_tags json_loads self title body = Ok tags
    /\ 3 <= List.length tags <= 5
    /\ (if use_mock self then tags = mock_tags
        else
          match client self (TagsPrompt title (Py.take 800 body)) with
          | Ok (Some text) =>
              exists cleaned,
                AiUtils.clean_json_response (Py.strip text) = Ok cleaned
                /\ match json_loads cleaned with
                   | Ok (JList (first :: others)) =>
                       tags = clamp_tags (first :: others)
                   | _ => tags = DEFAULT_FALLBACKS.tags
                   end
          | _ => tags = DEFAULT_FALLBACKS.tags
          end).
Proof.
  unfold generate_tags.
  destruct (use_mock self).
  { exists mock_tags. repeat split; simpl; auto. }
  destruct (client self _) as [[text|]|e]; caught;
    try (exists DEFAULT_FALLBACKS.tags; repeat split; simpl; auto; fail).
  destruct (CleanFacts.clean_json_response_returns (Py.strip text))
    as (cleaned & Hcleaned).
  rewrite Hcleaned. caught. unfold loads.
  destruct (json_loads cleaned) as [v|e] eqn:Hv; caught;
    [|exists DEFAULT_FALLBACKS.tags; split; [reflexivity|];
      split; [simpl; auto|]; exists cleaned; now rewrite Hv].
  assert (Hfallback :
    (forall first others, v <> JList (first :: others)) ->
    exists tags : list json,
      Ok DEFAULT_FALLBACKS.tags = Ok tags
      /\ 3 <= List.length tags <= 5
      /\ exists cleaned0,
           Ok cleaned = Ok cleaned0
           /\ match json_loads cleaned0 with
              | Ok (JList (first :: others)) =>
                  tags = clamp_tags (first :: others)
              | _ => tags = DEFAULT_FALLBACKS.tags
              end).
  { intros Hno. exists DEFAULT_FALLBACKS.tags. split; [reflexivity|].
    split; [simpl; auto|]. exists cleaned. split; [reflexivity|].
    rewrite Hv. destruct v as [ | | | | |[|first others]| ]; try reflexivity.
    now destruct (Hno first others). }
  destruct v as [ | | | | |items| ]; caught;
    try (apply Hfallback; discriminate).
  destruct items as [|first others]; caught;
    [apply Hfallback; discriminate|].
  exists (clamp_tags (first :: others)).
  split; [|split; [apply clamp_tags_length|]].
  - f_equal. unfold clamp_tags.
    change CONTENT_LIMITS.max_tags with 5.
    destruct (Nat.ltb_spec (List.length (first :: others)) CONTENT_LIMITS.min_tags)
      as [Hlt|Hge].
    + rewrite pad_tags_spec by (change CONTENT_LIMITS.min_tags with 3; lia).
      reflexivity.
    + change CONTENT_LIMITS.min_tags with 3 in Hge.
      replace (3 - List.length (first :: others)) with 0 by lia.
      simpl repeat. now rewrite app_nil_r.
  - exists cleaned. split; [reflexivity|]. now rewrite Hv.
Qed.

(** C3.  On every title and body and whatever the generative service does,
    [generate_tags] returns a list of three to five tags.  In mock mode it
    is the mock list.  Otherwise, where the service answers a text and
    [json.loads] makes a non-empty list of the cleaned answer, it is that
    list, padded with "#Africa" up to three items and cut at five; on
    every other path (the call raises, the answer has no text, the text
    does not parse or [json.loads] raises anything else, the value is an
    empty list or no list) it is the fixed three-item fallback. *)
Theorem generate_tags_three_to_five (json_loads : json_parser) (self : t)
    (title body : string) :
  exists tags,
    generate_tags json_loads self title body = Ok tags
    /\ 3 <= List.length tags <= 5
    /\ (if use_mock self then tags = mock_tags
        else
          match client self (TagsPrompt title (Py.take 800 body)) with
          | Ok (Some text) =>
              exists cleaned,
                AiUtils.clean_json_response (Py.strip text) = Ok cleaned
                /\ match json_loads cleaned with
                   | Ok (JList (first :: others)) =>
                       tags = clamp_tags (first :: others)
                   | _ => tags = DEFAULT_FALLBACKS.tags
                   end
          | _ => tags = DEFAULT_FALLBACKS.tags
          end).
Proof. apply generate_tags_outcome. Qed.

(** One parsed tag is padded, seven are cut, and an answer that
    [json.loads] gives up on is replaced. *)
Example generate_tags_pads :
  generate_tags (one_answer (JList [JStr "#Kenya"])) (geo_service "[]")
    "Title" "Body"
  = Ok [JStr "#Kenya"; JStr "#Africa"; JStr "#Africa"].
Proof. reflexivity. Qed.

Example generate_tags_cuts :
  generate_tags
    (one_answer (JList [JStr "#1"; JStr "#2"; JStr "#3"; JStr "#4";
                        JStr "#5"; JStr "#6"; JStr "#7"]))
    (geo_service "[]") "Title" "Body"
  = Ok [JStr "#1"; JStr "#2"; JStr "#3"; JStr "#4"; JStr "#5"].
Proof. reflexivity. Qed.

Example generate_tags_too_deep :
  generate_tags (fun _ => Raise RecursionError) (geo_service "[[[[")
    "Title" "Body"
  = Ok DEFAULT_FALLBACKS.tags.
Proof. reflexivity. Qed.

(** *** [extract_geo] *)

Lemma mock_geo_ok : geo_ok mock_geo.
Proof.
  right.
  exists (JFloat (PyFloat.Finite true 1286389 (-6))),
         (JFloat (PyFloat.Finite false 36817223 (-6))).
  do 2 eexists. repeat split; reflexivity.
Qed.

Lemma coordinates_in_range_true (lat lng : json) :
  coordinates_in_range lat lng = Ok true ->
  exists a b,
    Json.as_number lat = Some a /\ Json.as_number lng = Some b
    /\ between (-90) 90 a /\ between (-180) 180 b.
Proof.
  unfold coordinates_in_range, Json.ge_int, Json.le_int, between.
  destruct (Json.as_number lat) as [a|]; [|discriminate].
  cbn [bind].
  destruct (PyFloat.leb (PyFloat.of_Z (-90)) a) eqn:H1; [|discriminate].
  destruct (PyFloat.leb a (PyFloat.of_Z 90)) eqn:H2; [|discriminate].
  cbn [negb].
  destruct (Json.as_number lng) as [b|]; [|discriminate].
  cbn [bind].
  destruct (PyFloat.leb (PyFloat.of_Z (-180)) b) eqn:H3; [|discriminate].
  cbn [negb]. intros [= H4]. exists a, b. auto.
Qed.

Lemma as_optional_float_number (v : json) (a : PyFloat.t) :
  Json.as_number v = Some a -> Json.as_optional_float v = Ok (Some a).
Proof. destruct v; simpl; congruence. Qed.

Lemma guarded_geo (body : result Geo.t) :
  (forall g, body = Ok g -> geo_ok g) ->
  match try_ body [(geo_catches, fun _ => Ok Geo.empty)] with
  | Ok g => geo_ok g
  | Raise e => geo_catches e = false
  end.
Proof.
  intros H. destruct body as [g|e]; simpl; [now apply H|].
  destruct (geo_catches e) eqn:E; [now left | exact E].
Qed.

(** Every way [extract_geo] can end. *)
Lemma extract_geo_outcome (json_loads : json_parser) (self : t)
    (title body : string) :
  match extract_geo json_loads self title body with
  | Ok g => geo_ok g
  | Raise e => use_mock self = false /\ geo_catches e = false
  end.
Proof.
  unfold extract_geo. destruct (use_mock self); [apply mock_geo_ok|].
  match goal with
  | |- match try_ ?b _ with _ => _ end =>
      pose proof (guarded_geo b) as G
  end.
  unfold geo_catches in G at 1.
  match type of G with
  | ?P -> _ => assert (HP : P); [|specialize (G HP)]
  end.
  - intros g Hg.
    apply bind_ok in Hg as (text & _ & Hg).
    apply bind_ok in Hg as (stripped & _ & Hg).
    apply bind_ok in Hg as (content & _ & Hg).
    apply bind_ok in Hg as (data & _ & Hg).
    apply bind_ok in Hg as (lat & _ & Hg).
    apply bind_ok in Hg as (lng & _ & Hg).
    match goal with
    | H : (if ?c then _ else _) = Ok g |- _ => destruct c
    end; [|injection Hg as <-; now left].
    apply bind_ok in Hg as (ok & Hrange & Hg).
    destruct ok; [|injection Hg as <-; now left].
    apply coordinates_in_range_true in Hrange as (a & b & Ha & Hb & Hlat & Hlng).
    unfold Geo.make in Hg.
    rewrite (as_optional_float_number _ _ Ha),
            (as_optional_float_number _ _ Hb) in Hg.
    cbn in Hg. injection Hg as <-.
    right. exists lat, lng, a, b. auto.
  - destruct (try_ _ _); [exact G | split; [reflexivity | exact G]].
Qed.

(** C4.  Every [Geo] that [extract_geo] returns, in mock mode and on each
    path of the live mode, is empty, or holds a latitude in [-90, 90], a
    longitude in [-180, 180] and the map URL formatted from the two.  An
    exception leaves the live facet only when it is of none of the classes
    its handler names; no [Geo] is produced then. *)
Theorem extract_geo_whole_or_empty (json_loads : json_parser) (self : t)
    (title body : string) :
  match extract_geo json_loads self title body with
  | Ok g => geo_ok g
  | Raise e => use_mock self = false /\ geo_catches e = false
  end.
Proof. apply extract_geo_outcome. Qed.

Example extract_geo_valid :
  extract_geo
    (one_answer (JDict [("lat", JFloat (PyFloat.Finite false 65244 (-4)));
                        ("lng", JFloat (PyFloat.Finite false 33792 (-4)))]))
    (geo_service "{...}") "Lagos" "..."
  = Ok (Geo.mk (Some (PyFloat.Finite false 65244 (-4)))
               (Some (PyFloat.Finite false 33792 (-4)))
               (Some "https://www.google.com/maps?q=6.5244,3.3792")).
Proof. reflexivity. Qed.

Example extract_geo_out_of_range :
  extract_geo
    (one_answer (JDict [("lat", JInt 91); ("lng", JInt 0)]))
    (geo_service "{...}") "North" "..."
  = Ok Geo.empty.
Proof. reflexivity. Qed.

Example extract_geo_not_json :
  extract_geo (fun _ => Raise JSONDecodeError) (geo_service "no idea") "T" "B" = Ok Geo.empty.
Proof. reflexivity. Qed.

Example extract_geo_text_latitude :
  extract_geo
    (one_answer (JDict [("lat", JStr "6.5"); ("lng", JInt 3)]))
    (geo_service "{...}") "T" "B"
  = Raise TypeError.
Proof. reflexivity. Qed.

End AIServiceFacts.

(** ** The media lookup client *)

Module BraveFacts.
Import BraveSearchService BraveProps.

Lemma has_results_none (data : json) :
  holds_no_result data -> has_results data = Ok false.
Proof.
  intros (entries & -> & [H | [H | H]]); unfold has_results; simpl;
    now rewrite H.
Qed.

Lemma item_of_dict (data : json) (key : string) (v : json) :
  Json.item data key = Ok v ->
  exists entries, data = JDict entries /\ Json.lookup key entries = Some v.
Proof.
  destruct data as [ | | | | | |entries]; simpl; try discriminate.
  destruct (Json.lookup key entries) as [w|] eqn:E; [|discriminate].
  intros [= <-]. eauto.
Qed.

(** Only a dict answers [.get]; so a first element that did is the head
    of a list. *)
Lemma first_with_get (rs x : json) (key : string) (default v : json) :
  Json.first rs = Ok x -> Json.get x key default = Ok v ->
  exists others, rs = JList (x :: others).
Proof.
  intros Hfirst Hget.
  destruct x as [ | | | | | |d]; simpl in Hget; try discriminate.
  destruct rs as [ | | | |s|items|d']; simpl in Hfirst; try discriminate.
  - destruct s; discriminate.
  - destruct items as [|y others]; [discriminate|].
    injection Hfirst as ->. eauto.
Qed.

(** The two [except] clauses turn every exception into [None]. *)
Lemma always_answers (body : result (option json)) :
  exists r,
    try_ body [ (is_HTTPError, fun _ => Ok None);
                (is_Exception, fun _ : exc => Ok None) ] = Ok r
    /\ (body = Ok r \/ (r = None /\ exists e, body = Raise e)).
Proof.
  destruct body as [r|e]; simpl; [eauto|].
  exists None. destruct (is_HTTPError e); simpl; eauto.
Qed.

Ltac miss_cases Hbody :=
  split; [ discriminate | split; [ | split ] ];
  [ let e := fresh "e" in let He := fresh "He" in
    intros e He; rewrite He in Hbody; cbn [bind] in Hbody;
    destruct Hbody as [Hbody | [Hbody _]]; [discriminate | exact Hbody]
  | let data := fresh "data" in let Hd := fresh "Hd" in
    let Hno := fresh "Hno" in
    intros data Hd Hno; rewrite Hd in Hbody; cbn [bind] in Hbody;
    rewrite (has_results_none _ Hno) in Hbody; cbn [bind] in Hbody;
    destruct Hbody as [Hbody | [Hbody _]]; [congruence | exact Hbody]
  | ].

Lemma search_images_absent_on_miss :
  absent_on_every_miss search_images image_search_url.
Proof.
  intros self query count. unfold search_images.
  destruct (no_api_key self) eqn:Hkey.
  { exists None. repeat split; try reflexivity; discriminate. }
  match goal with
  | |- exists r, try_ ?b _ = Ok r /\ _ =>
      destruct (always_answers b) as (r & Hr & Hbody)
  end.
  exists r. split; [exact Hr|]. miss_cases Hbody.
  intros found ->. split; [reflexivity|].
  destruct Hbody as [Hbody | [Hbody _]]; [|discriminate].
  apply bind_ok in Hbody as (data & Hdata & Hbody).
  apply bind_ok in Hbody as (yes & _ & Hbody).
  destruct yes; [|discriminate].
  apply bind_ok in Hbody as (rs & Hrs & Hbody).
  apply bind_ok in Hbody as (first_result & Hfirst & Hbody).
  apply bind_ok in Hbody as (props & Hprops & _).
  destruct (first_with_get _ _ _ _ _ Hfirst Hprops) as (others & ->).
  destruct (item_of_dict _ _ _ Hrs) as (entries & -> & Hlookup).
  exists (JDict entries). split; [exact Hdata|].
  exists entries, first_result, others. auto.
Qed.

Lemma search_videos_absent_on_miss :
  absent_on_every_miss search_videos video_search_url.
Proof.
  intros self query count. unfold search_videos.
  destruct (no_api_key self) eqn:Hkey.
  { exists None. repeat split; try reflexivity; discriminate. }
  match goal with
  | |- exists r, try_ ?b _ = Ok r /\ _ =>
      destruct (always_answers b) as (r & Hr & Hbody)
  end.
  exists r. split; [exact Hr|]. miss_cases Hbody.
  intros found ->. split; [reflexivity|].
  destruct Hbody as [Hbody | [Hbody _]]; [|discriminate].
  apply bind_ok in Hbody as (data & Hdata & Hbody).
  apply bind_ok in Hbody as (yes & _ & Hbody).
  destruct yes; [|discriminate].
  apply bind_ok in Hbody as (rs & Hrs & Hbody).
  apply bind_ok in Hbody as (first_result & Hfirst & Hbody).
  apply bind_ok in Hbody as (url & Hurl & _).
  destruct (first_with_get _ _ _ _ _ Hfirst Hurl) as (others & ->).
  destruct (item_of_dict _ _ _ Hrs) as (entries & -> & Hlookup).
  exists (JDict entries). split; [exact Hdata|].
  exists entries, first_result, others. auto.
Qed.

(** C9.  [search_images] and [search_videos] return on every query, no
    exception leaves them: the result is [None] without an API key, when
    the request raises (transport error, HTTP status, undecodable body),
    and when the response holds no result; a result is present only when
    the response held at least one. *)
Theorem brave_search_never_raises :
  absent_on_every_miss search_images image_search_url
  /\ absent_on_every_miss search_videos video_search_url.
Proof.
  split; [apply search_images_absent_on_miss | apply search_videos_absent_on_miss].
Qed.

Example search_images_found :
  search_images (answering (Some "key") (Ok one_image)) "solar" 1
  = Ok (Some (JDict [("url", JStr "https://example.com/a.jpg");
                     ("page_url", JStr "https://example.com/page");
                     ("title", JStr "Solar farm");
                     ("source", JNull); ("thumbnail", JNull);
                     ("width", JNull); ("height", JNull)])).
Proof. reflexivity. Qed.

Example search_images_no_key :
  search_images (answering None (Ok one_image)) "solar" 1 = Ok None.
Proof. reflexivity. Qed.

Example search_videos_http_error :
  search_videos (answering (Some "key") (Raise HTTPError)) "solar" 1 = Ok None.
Proof. reflexivity. Qed.

Example search_videos_text_results :
  search_videos
    (answering (Some "key") (Ok (JDict [("results", JStr "none")]))) "solar" 1
  = Ok None.
Proof. reflexivity. Qed.

End BraveFacts.

(** ** Words *)

Module WordFacts.
Import Py WordProps.

Lemma is_word_cons (c : ascii) (w : string) :
  is_space c = false -> no_space w = true -> is_word (String c w).
Proof. intros Hc Hw. split; [discriminate|]. simpl. now rewrite Hc, Hw. Qed.

(** [s.split()] yields words. *)
Lemma split_ws_words (s : string) : Forall is_word (split_ws s).
Proof.
  induction s as [|c s IH]; [constructor|].
  cbn [split_ws]. destruct (is_space c) eqn:Hc; [exact IH|].
  destruct s as [|c' s'].
  - constructor; [|constructor]. now apply is_word_cons.
  - destruct (is_space c') eqn:Hc'.
    + constructor; [now apply is_word_cons | exact IH].
    + destruct (split_ws (String c' s')) as [|w ws].
      * constructor; [|constructor]. now apply is_word_cons.
      * inversion IH as [|? ? [_ Hw] Hws]; subst.
        constructor; [now apply is_word_cons | exact Hws].
Qed.

(** A word followed by nothing, or by white space, is split off whole. *)
Lemma split_ws_word_first (w rest : string) :
  is_word w ->
  match rest with
  | EmptyString => True
  | String c _ => is_space c = true
  end ->
  split_ws (w ++ rest) = w :: split_ws rest.
Proof.
  intros [Hne Hw] Hrest.
  induction w as [|c w IH]; [congruence|].
  simpl in Hw. apply andb_true_iff in Hw as [Hc Hw].
  apply negb_true_iff in Hc.
  change (String c w ++ rest) with (String c (w ++ rest)).
  cbn [split_ws]. rewrite Hc.
  destruct w as [|d w'].
  - simpl append. destruct rest as [|sp rest']; [reflexivity|].
    now rewrite Hrest.
  - change (String d w' ++ rest) with (String d (w' ++ rest)).
    pose proof Hw as Hw'. simpl in Hw'.
    apply andb_true_iff in Hw' as [Hd _]. apply negb_true_iff in Hd.
    rewrite Hd.
    change (String d (w' ++ rest)) with (String d w' ++ rest).
    rewrite IH by (discriminate || exact Hw). reflexivity.
Qed.

(** Joining words with single spaces and splitting again gives the words
    back. *)
Lemma split_ws_join (ws : list string) :
  Forall is_word ws -> split_ws (join " " ws) = ws.
Proof.
  induction 1 as [|w ws Hw Hws IH]; [reflexivity|].
  unfold join in *. cbn [String.concat].
  destruct ws as [|w' ws'].
  - rewrite <- (PyFacts.append_nil_r w) at 1.
    now rewrite (split_ws_word_first w EmptyString Hw I).
  - rewrite (split_ws_word_first w _ Hw) by reflexivity.
    f_equal. exact IH.
Qed.

Lemma Forall_firstn {A} (P : A -> Prop) (n : nat) (l : list A) :
  Forall P l -> Forall P (firstn n l).
Proof.
  revert l. induction n as [|n IH]; intros l H; [constructor|].
  destruct H; simpl; constructor; auto.
Qed.

Lemma length_take (n : nat) (s : string) : String.length (take n s) <= n.
Proof.
  revert s. induction n as [|n IH]; intros [|c s]; simpl; try lia.
  specialize (IH s). lia.
Qed.

End WordFacts.

(** ** The media search query *)

Module MediaQueryFacts.
Import Py WordFacts WordProps AIService AIServiceFacts AIServiceProps MediaQueryProps.

(** What the live path makes of the stripped answer. *)
Lemma limited_to_seven (query : string) :
  word_count (if (7 <? List.length (split_ws query))%nat
              then join " " (firstn 7 (split_ws query))
              else query) <= 7.
Proof.
  unfold word_count.
  destruct (Nat.ltb_spec 7 (List.length (split_ws query))) as [Hlong|Hshort].
  - rewrite split_ws_join by apply Forall_firstn, split_ws_words.
    rewrite length_firstn. lia.
  - exact Hshort.
Qed.

(** C6 as stated fails in mock mode: the query is the first 50 characters
    of the title, here nine words. *)
Lemma media_query_mock_nine_words :
  generate_media_search_query mock_service nine_words "Body" = Ok nine_words
  /\ word_count nine_words = 9.
Proof. split; reflexivity. Qed.

(** The same on the fallback path of the live mode. *)
Example media_query_fallback_nine_words :
  generate_media_search_query
    (mk false (fun _ => Raise (ServiceError "unavailable"))) nine_words "Body"
  = Ok nine_words.
Proof. reflexivity. Qed.

(** C6, amended.  The facet returns on every input.  In mock mode the
    query is the first 50 characters of the title; on the live path, when
    the service answers with a text, it has at most 7 words; when the call
    raises or answers without text it is the first 100 characters of the
    title. *)
Theorem media_query_by_path (self : t) (title body : string) :
  exists query,
    generate_media_search_query self title body = Ok query
    /\ (use_mock self = true ->
        query = take 50 title /\ String.length query <= 50)
    /\ (use_mock self = false ->
        (forall text,
           client self (MediaQueryPrompt title (take 800 body)) = Ok (Some text) ->
           word_count query <= 7)
        /\ (client self (MediaQueryPrompt title (take 800 body)) = Ok None
            \/ (exists e,
                  client self (MediaQueryPrompt title (take 800 body)) = Raise e) ->
            query = take 100 title /\ String.length query <= 100)).
Proof.
  unfold generate_media_search_query.
  destruct (use_mock self).
  { eexists. split; [reflexivity|]. split; [|discriminate].
    intros _. split; [reflexivity | apply length_take]. }
  destruct (client self _) as [[text|]|e]; caught.
  - eexists. split; [reflexivity|]. split; [discriminate|]. intros _. split.
    + intros text' _. apply limited_to_seven.
    + intros [H | [e H]]; discriminate.
  - eexists. split; [reflexivity|]. split; [discriminate|]. intros _. split.
    + intros text' H. discriminate.
    + intros _. split; [reflexivity | apply length_take].
  - eexists. split; [reflexivity|]. split; [discriminate|]. intros _. split.
    + intros text' H. discriminate.
    + intros _. split; [reflexivity | apply length_take].
Qed.

Lemma media_query_by_path_witness :
  word_count "solar power plant Kenya opening ceremony 2024" <= 7
  /\ String.length (take 50 nine_words) <= 50.
Proof.
  pose (live := mk false (fun _ =>
          Ok (Some "solar power plant Kenya opening ceremony 2024 and more"))).
  split.
  - destruct (media_query_by_path live "Solar plant opens in Kenya" "Body")
      as (query & Hq & _ & Hlive).
    injection Hq as <-.
    exact (proj1 (Hlive eq_refl) _ eq_refl).
  - destruct (media_query_by_path mock_service nine_words "Body")
      as (query & Hq & Hmock & _).
    injection Hq as <-.
    exact (proj2 (Hmock eq_refl)).
Defined.

End MediaQueryFacts.

(** ** The session and the repository *)

Module RepositoryFacts.
Import Session NewsRepository RepositoryProps.

Lemma frame_refl (s : Session.t) : frame s s.
Proof. repeat split. Qed.

Lemma frame_trans (s1 s2 s3 : Session.t) :
  frame s1 s2 -> frame s2 s3 -> frame s1 s3.
Proof.
  intros (A1 & A2 & A3 & A4 & A5 & A6) (B1 & B2 & B3 & B4 & B5 & B6).
  repeat split; congruence.
Qed.

Lemma statement_frame (s s' : Session.t) (r : result unit) :
  statement s = (r, s') -> frame s s'.
Proof.
  unfold statement. destruct (faults s) as [|[|] rest]; intros [= <- <-];
    repeat split.
Qed.

Lemma select_inv (cond : NewsArticle.t -> bool) (s s' : Session.t)
    (r : result (list NewsArticle.t)) :
  select cond s = (r, s') ->
  frame s s'
  /\ forall rows, r = Ok rows -> rows = filter cond (table s).
Proof.
  unfold select, Session.bind.
  destruct (statement s) as [[[]|e] s1] eqn:Hst; intros [= <- <-];
    pose proof (statement_frame _ _ _ Hst) as F.
  - split; [exact F|]. intros rows [= <-]. destruct F as (-> & _). reflexivity.
  - split; [exact F | discriminate].
Qed.

Lemma get_news_by_id_inv (nan_meets_bounds : bool)
    (isoformat : Z -> string) (article_id : string)
    (s s' : Session.t) (r : result (option FinalNewsOutput.t)) :
  get_news_by_id nan_meets_bounds isoformat article_id s = (r, s') ->
  frame s s'
  /\ match r with
     | Ok (Some out) =>
         exists row,
           filter (has_slug article_id) (table s) = [row]
           /\ _to_output_model nan_meets_bounds isoformat row = Ok out
     | Ok None => filter (has_slug article_id) (table s) = []
     | Raise _ => True
     end.
Proof.
  unfold get_news_by_id, Session.bind.
  destruct (select _ s) as [[rows|e] s1] eqn:Hsel.
  2:{ intros [= <- <-]. split; [apply (select_inv _ _ _ _ Hsel) | exact I]. }
  destruct (select_inv _ _ _ _ Hsel) as (F & Hrows).
  specialize (Hrows rows eq_refl). rewrite <- Hrows.
  unfold lift. destruct rows as [|row [|row' rows]]; cbn.
  - intros [= <- <-]. split; [exact F | reflexivity].
  - destruct (_to_output_model nan_meets_bounds isoformat row)
      as [out|e] eqn:Hout; cbn;
      intros [= <- <-]; (split; [exact F|]); [eauto | exact I].
  - intros [= <- <-]. split; [exact F | exact I].
Qed.

Lemma opened_clean rows sequence now faults :
  clean (opened rows sequence now faults).
Proof. repeat split. Qed.

(** The outcomes of a flush with one pending INSERT. *)
Lemma flush_one_insert (s s' : Session.t) (obj : NewsArticle.t)
    (r : result unit) :
  new s = [obj] -> dirty s = [] -> flush s = (r, s') ->
  new s' = [] /\ dirty s' = [] /\ begun s' = begun s
  /\ match r with
     | Ok _ =>
         table s' = (table s ++ [NewsArticle.inserted obj (sequence s) (now s)])%list
         /\ NewsArticle.constraints_ok
              (NewsArticle.inserted obj (sequence s) (now s)) = true
     | Raise _ => table s' = begun s
     end.
Proof.
  destruct s as [tbl bg nw dt sq clock fl]. cbn. intros -> ->.
  unfold flush, Session.bind, for_each, insert_row, Session.bind, statement.
  cbn.
  destruct fl as [|[|] fl]; cbn.
  - destruct (NewsArticle.constraints_ok _) eqn:Hc; cbn.
    + match goal with |- context [negb ?t] => destruct t end;
        cbn; intros [= <- <-]; cbn; auto.
    + intros [= <- <-]; cbn; auto.
  - intros [= <- <-]; cbn; auto.
  - destruct (NewsArticle.constraints_ok _) eqn:Hc; cbn.
    + match goal with |- context [negb ?t] => destruct t end;
        cbn; intros [= <- <-]; cbn; auto.
    + intros [= <- <-]; cbn; auto.
Qed.

(** The outcomes of a flush with one pending UPDATE. *)
Lemma flush_one_update (s s' : Session.t) (obj : NewsArticle.t)
    (r : result unit) :
  new s = [] -> dirty s = [obj] -> flush s = (r, s') ->
  new s' = [] /\ dirty s' = [] /\ begun s' = begun s
  /\ match r with
     | Ok _ =>
         table s' = replaced obj (now s) (table s)
         /\ NewsArticle.constraints_ok (NewsArticle.updated obj (now s)) = true
     | Raise _ => table s' = begun s
     end.
Proof.
  destruct s as [tbl bg nw dt sq clock fl]. cbn. intros -> ->.
  unfold flush, Session.bind, for_each, update_row, Session.bind, statement.
  cbn.
  destruct fl as [|[|] fl]; cbn.
  - destruct (NewsArticle.constraints_ok _) eqn:Hc; cbn;
      intros [= <- <-]; cbn; auto.
  - intros [= <- <-]; cbn; auto.
  - destruct (NewsArticle.constraints_ok _) eqn:Hc; cbn;
      intros [= <- <-]; cbn; auto.
Qed.

(** *** [save_news] *)

(** Every way [save_news] can end on a clean session: it raises and the
    table is as before; or it inserted one row; or it updated the one row
    that had the identifier. *)
Lemma save_news_cases (nan_meets_bounds : bool)
    (isoformat : Z -> string) (news : FinalNewsOutput.t)
    (s s' : Session.t) (r : result FinalNewsOutput.t) :
  clean s ->
  save_news nan_meets_bounds isoformat news s = (r, s') ->
  new s' = [] /\ dirty s' = [] /\ begun s' = begun s
  /\ match r with
     | Raise e =>
         table s' = table s /\ exists cause, e = Wrapped save_prefix cause
     | Ok out =>
         out = news
         /\ ((filter (has_slug (FinalNewsOutput.id news)) (table s) = []
              /\ table s'
                 = (table s
                    ++ [NewsArticle.inserted (new_article news)
                          (sequence s) (now s)])%list
              /\ NewsArticle.constraints_ok
                   (NewsArticle.inserted (new_article news)
                      (sequence s) (now s)) = true)
             \/ (exists old,
                   filter (has_slug (FinalNewsOutput.id news)) (table s) = [old]
                   /\ table s'
                      = replaced (assign_fields old news) (now s) (table s)
                   /\ NewsArticle.constraints_ok
                        (NewsArticle.updated (assign_fields old news) (now s))
                      = true))
     end.
Proof.
  intros (Htb & Hnew & Hdirty).
  unfold save_news, reraise, Session.bind.
  destruct (get_news_by_id nan_meets_bounds isoformat _ s)
    as [[existing|e0] s0] eqn:Hget;
    destruct (get_news_by_id_inv _ _ _ _ _ _ Hget)
      as ((F1 & F2 & F3 & F4 & F5 & F6) & Hexisting).
  2:{ intros [= <- <-]. repeat split; try congruence. eauto. }
  destruct existing as [found|].
  - (* an article with the identifier exists: the update branch *)
    destruct Hexisting as (old & Hold & _).
    destruct (select _ s0) as [[rows|e1] s2] eqn:Hsel;
      destruct (select_inv _ _ _ _ Hsel)
        as ((G1 & G2 & G3 & G4 & G5 & G6) & Hrows).
    2:{ intros [= <- <-]. repeat split; try congruence. eauto. }
    specialize (Hrows rows eq_refl). rewrite F1, Hold in Hrows. subst rows.
    cbn [lift scalar_one assign].
    match goal with
    | |- (match (match flush ?st with _ => _ end) with _ => _ end) = _ -> _ =>
        destruct (flush st) as [[[]|e2] s3] eqn:Hflush
    end; intros [= <- <-];
      apply flush_one_update with (obj := assign_fields old news) in Hflush;
      try (cbn; congruence);
      try (cbn; rewrite G4, F4, Hdirty; reflexivity);
      cbn in Hflush; destruct Hflush as (N & D & B & T).
    + destruct T as (T & C).
      repeat split; try congruence.
      right. exists old. rewrite G1, G6, F1, F6 in *. auto.
    + repeat split; try congruence. eauto.
  - (* none exists: the insert branch *)
    cbn [add].
    match goal with
    | |- (match (match flush ?st with _ => _ end) with _ => _ end) = _ -> _ =>
        destruct (flush st) as [[[]|e2] s3] eqn:Hflush
    end; intros [= <- <-];
      apply flush_one_insert with (obj := new_article news) in Hflush;
      try (cbn; rewrite F3, Hnew; reflexivity);
      try (cbn; congruence);
      cbn in Hflush; destruct Hflush as (N & D & B & T).
    + destruct T as (T & C).
      repeat split; try congruence.
      left. rewrite F1, F5, F6 in *. auto.
    + repeat split; try congruence. eauto.
Qed.

Lemma slug_free (slug : string) (rows : list NewsArticle.t) :
  filter (has_slug slug) rows = [] -> slug_taken slug rows = false.
Proof.
  unfold slug_taken, has_slug.
  induction rows as [|r rows IH]; simpl; [reflexivity|].
  destruct (String.eqb (NewsArticle.slug r) slug); [discriminate|].
  exact IH.
Qed.

(** With a database that answers, an identifier that no row has and
    values that fit their columns, [save_news] inserts the row and
    returns. *)
Lemma save_news_inserts (nan_meets_bounds : bool)
    (isoformat : Z -> string) (news : FinalNewsOutput.t)
    (s : Session.t) :
  clean s -> faults s = [] ->
  filter (has_slug (FinalNewsOutput.id news)) (table s) = [] ->
  NewsArticle.constraints_ok
    (NewsArticle.inserted (new_article news) (sequence s) (now s)) = true ->
  save_news nan_meets_bounds isoformat news s
  = (Ok news,
     Session.mk
       (table s ++ [NewsArticle.inserted (new_article news) (sequence s) (now s)])
       (begun s) [] [] (sequence s + 1)%Z (now s) []).
Proof.
  destruct s as [tbl bg nw dt sq clock fl].
  intros (Htb & Hnew & Hdirty) Hfaults Hfree Hfits. cbn in *. subst.
  unfold save_news, reraise, Session.bind, get_news_by_id, Session.bind,
    select, Session.bind, statement.
  cbn. rewrite Hfree. cbn.
  unfold flush, Session.bind, for_each, insert_row, Session.bind, statement.
  pose proof (slug_free _ _ Hfree) as Hs. unfold slug_taken in Hs.
  cbn in Hs |- *. rewrite Hfits, Hs. reflexivity.
Qed.

Lemma assign_fields_stores (old : NewsArticle.t) (news : FinalNewsOutput.t)
    (now : Z) :
  stores (NewsArticle.updated (assign_fields old news) now) news.
Proof. repeat split. Qed.

Lemma new_article_stores (news : FinalNewsOutput.t) (new_id now : Z) :
  stores (NewsArticle.inserted (new_article news) new_id now) news.
Proof. repeat split. Qed.

(** C10.  [save_news] with an identifier that a row [old] already has, on
    a clean session: when it returns, the row with the primary key of [old]
    is replaced by a row that keeps [id], [slug], [ingested_at] and
    [created_at] of [old] and holds the content of the article in its
    content columns ([updated_at] is refreshed by the column's [onupdate]);
    every other row is as before.  When it raises, the table is as
    before. *)
Theorem save_news_keeps_identity (nan_meets_bounds : bool)
    (isoformat : Z -> string)
    (news : FinalNewsOutput.t) (s : Session.t) (old : NewsArticle.t) :
  clean s ->
  filter (has_slug (FinalNewsOutput.id news)) (table s) = [old] ->
  match save_news nan_meets_bounds isoformat news s with
  | (Ok _, s') =>
      exists row,
        table s'
        = map (fun r => if (NewsArticle.id r =? NewsArticle.id old)%Z
                        then row else r) (table s)
        /\ NewsArticle.id row = NewsArticle.id old
        /\ NewsArticle.slug row = NewsArticle.slug old
        /\ NewsArticle.ingested_at row = NewsArticle.ingested_at old
        /\ NewsArticle.created_at row = NewsArticle.created_at old
        /\ stores row news
  | (Raise _, s') => table s' = table s
  end.
Proof.
  intros Hclean Hold.
  destruct (save_news nan_meets_bounds isoformat news s)
    as [[out|e] s'] eqn:Hsave;
    apply (save_news_cases _ _ _ _ _ _ Hclean) in Hsave
      as (_ & _ & _ & Hcase).
  - destruct Hcase as (_ & [(Hnone & _) | (old' & Hold' & Htable & _)]).
    + congruence.
    + rewrite Hold in Hold'. injection Hold' as <-.
      exists (NewsArticle.updated (assign_fields old news) (now s)).
      split; [exact Htable|]. repeat split.
  - exact (proj1 Hcase).
Qed.

End RepositoryFacts.

(** ** The orchestrator *)

Module IngestionFacts.
Import Session NewsRepository RepositoryFacts RepositoryProps PyFloatFacts PyFloatProps AIServiceFacts AIServiceProps IngestionProps.

Lemma validate_tags_length (tags : list json) (strs : list string) :
  FinalNewsOutput.validate_tags tags = Ok strs ->
  List.length strs = List.length tags.
Proof.
  revert strs. induction tags as [|x tags IH]; intros strs; simpl.
  - now intros [= <-].
  - destruct (Json.as_str x) as [str|]; [|discriminate]. simpl.
    destruct (FinalNewsOutput.validate_tags tags) as [others|]; [|discriminate].
    simpl. intros [= <-]. simpl. now rewrite (IH others eq_refl).
Qed.

Lemma validate_tags_strings (tags : list json) (strs : list string) :
  FinalNewsOutput.validate_tags tags = Ok strs -> tags = map JStr strs.
Proof.
  revert strs. induction tags as [|x tags IH]; intros strs; simpl.
  - now intros [= <-].
  - destruct x as [ | | | |str| | ]; try discriminate. simpl.
    destruct (FinalNewsOutput.validate_tags tags) as [others|]; [|discriminate].
    simpl. intros [= <-]. simpl. now rewrite (IH others eq_refl).
Qed.

Lemma validate_score_accepted (nan_meets_bounds : bool) (x y : PyFloat.t) :
  FinalNewsOutput.validate_score nan_meets_bounds x = Ok y ->
  y = x /\ accepted_score nan_meets_bounds x.
Proof.
  assert (Hrange :
    (if PyFloat.geb x (PyFloat.of_Z 0) && PyFloat.leb x (PyFloat.of_Z 1)
     then Ok x else Raise ValidationError) = Ok y ->
    y = x /\ between 0 1 x).
  { unfold between.
    destruct (PyFloat.geb x (PyFloat.of_Z 0)) eqn:Hge; [|discriminate].
    destruct (PyFloat.leb x (PyFloat.of_Z 1)) eqn:Hle; [|discriminate].
    intros [= <-]. repeat split.
    unfold PyFloat.geb in Hge. unfold PyFloat.leb.
    rewrite (compare_antisym x (PyFloat.of_Z 0)).
    destruct (PyFloat.compare x (PyFloat.of_Z 0)) as [[| |]|];
      simpl; congruence. }
  unfold FinalNewsOutput.validate_score, accepted_score.
  destruct x as [neg digits exp10|neg|].
  - intros H. apply Hrange in H as (-> & H). auto.
  - intros H. apply Hrange in H as (-> & H). auto.
  - destruct nan_meets_bounds; [|discriminate].
    intros [= <-]. auto.
Qed.

Lemma validate_score_accepts (nan_meets_bounds : bool) (x : PyFloat.t) :
  accepted_score nan_meets_bounds x ->
  FinalNewsOutput.validate_score nan_meets_bounds x = Ok x.
Proof.
  intros [(H0 & H1) | (-> & ->)]; [|reflexivity].
  assert (Hge : PyFloat.geb x (PyFloat.of_Z 0) = true).
  { unfold PyFloat.geb. unfold PyFloat.leb in H0.
    rewrite (compare_antisym x (PyFloat.of_Z 0)) in H0.
    destruct (PyFloat.compare x (PyFloat.of_Z 0)) as [[| |]|];
      simpl in *; congruence. }
  unfold FinalNewsOutput.validate_score.
  destruct x; [| |discriminate H0]; now rewrite Hge, H1.
Qed.

(** A validator that refuses nan accepts the scores of the range only. *)
Lemma validate_score_between (x y : PyFloat.t) :
  FinalNewsOutput.validate_score false x = Ok y -> y = x /\ between 0 1 x.
Proof.
  intros H. apply validate_score_accepted in H as (-> & [H | (H & _)]).
  - now split.
  - discriminate.
Qed.

Section Ingest.

Variable json_loads : json_parser.
Variable brave_search_service : BraveSearchService.t.
Variable nan_meets_bounds : bool.
Variable isoformat : Z -> string.
Variable ai_service : AIService.t.

Let enrich := AIService.enrich_news json_loads brave_search_service ai_service.
Let ingest :=
  IngestionService.ingest_news json_loads brave_search_service
    nan_meets_bounds isoformat
    ai_service.

Lemma enrich_news_ranges (raw_input : RawNewsInput.t)
    (e : AIService.enrichment) :
  enrich raw_input = Ok e ->
  3 <= List.length (AIService.tags e) <= 5 /\ geo_ok (AIService.geo e).
Proof.
  unfold enrich, AIService.enrich_news. intros H.
  apply bind_ok in H as (summary & _ & H).
  apply bind_ok in H as (tags & Htags & H).
  apply bind_ok in H as (score & _ & H).
  apply bind_ok in H as (media & _ & H).
  apply bind_ok in H as (context & _ & H).
  apply bind_ok in H as (geo & Hgeo & H).
  injection H as <-. cbn. split.
  - destruct (generate_tags_outcome json_loads ai_service
                (RawNewsInput.title raw_input) (RawNewsInput.body raw_input))
      as (tags' & Htags' & Hlen & _).
    rewrite Htags in Htags'. injection Htags' as <-. exact Hlen.
  - pose proof (extract_geo_outcome json_loads ai_service
                  (RawNewsInput.title raw_input) (RawNewsInput.body raw_input))
      as G.
    now rewrite Hgeo in G.
Qed.

Lemma assemble_enriched (uuid utc_now : string) (raw_input : RawNewsInput.t)
    (e : AIService.enrichment) (out : FinalNewsOutput.t) :
  enrich raw_input = Ok e ->
  assemble nan_meets_bounds uuid utc_now raw_input e = Ok out ->
  fully_enriched nan_meets_bounds out.
Proof.
  intros He. destruct (enrich_news_ranges _ _ He) as (Hlen & Hgeo).
  unfold assemble, FinalNewsOutput.make. intros H.
  apply bind_ok in H as (strs & Hstrs & H).
  apply bind_ok in H as (score & Hscore & H).
  injection H as <-.
  apply validate_tags_length in Hstrs.
  apply validate_score_accepted in Hscore as (-> & Hscore).
  unfold fully_enriched. cbn.
  split; [lia|]. split; [exact Hscore | exact Hgeo].
Qed.

Lemma assemble_enriched_by (uuid utc_now : string)
    (raw_input : RawNewsInput.t) (e : AIService.enrichment)
    (out : FinalNewsOutput.t) :
  enrich raw_input = Ok e ->
  assemble nan_meets_bounds uuid utc_now raw_input e = Ok out ->
  enriched_by json_loads brave_search_service ai_service uuid utc_now
    raw_input out.
Proof.
  unfold enrich, AIService.enrich_news. intros H.
  apply bind_ok in H as (summary & Hsummary & H).
  apply bind_ok in H as (tags & Htags & H).
  apply bind_ok in H as (score & Hscore & H).
  apply bind_ok in H as (media & Hmedia & H).
  apply bind_ok in H as (context & Hcontext & H).
  apply bind_ok in H as (geo & Hgeo & H).
  injection H as <-.
  unfold assemble, FinalNewsOutput.make. cbn. intros H.
  apply bind_ok in H as (strs & Hstrs & H).
  apply bind_ok in H as (score' & Hscore' & H).
  injection H as <-.
  apply validate_tags_strings in Hstrs. subst tags.
  apply validate_score_accepted in Hscore' as (-> & _).
  unfold enriched_by. cbn. repeat split; assumption.
Qed.

Lemma saved_persisted (news : FinalNewsOutput.t) (s s' : Session.t)
    (out : FinalNewsOutput.t) :
  clean s ->
  save_news nan_meets_bounds isoformat news s = (Ok out, s') ->
  persisted news (table s').
Proof.
  intros Hclean Hsave.
  apply (save_news_cases _ _ _ _ _ _ Hclean) in Hsave as (_ & _ & _ & _ & Hcase).
  destruct Hcase as [(_ & -> & _) | (old & Hold & -> & _)].
  - exists (NewsArticle.inserted (new_article news) (sequence s) (now s)).
    split; [apply in_or_app; right; now left|].
    split; [reflexivity | apply new_article_stores].
  - assert (Hin : In old (filter (has_slug (FinalNewsOutput.id news)) (table s)))
      by (rewrite Hold; now left).
    apply filter_In in Hin as (Hin & Hslug).
    exists (NewsArticle.updated (assign_fields old news) (now s)).
    split; [|split; [|apply assign_fields_stores]].
    + unfold replaced. apply in_map_iff. exists old. split; [|exact Hin].
      cbn. now rewrite Z.eqb_refl.
    + cbn. unfold has_slug in Hslug. now apply String.eqb_eq.
Qed.

(** Every way [ingest_news] can end on a clean session. *)
Lemma ingest_news_cases (uuid utc_now : string) (raw_input : RawNewsInput.t)
    (s : Session.t) :
  clean s ->
  match ingest uuid utc_now raw_input s with
  | (Ok out, s') =>
      (exists e,
         enrich raw_input = Ok e
         /\ assemble nan_meets_bounds uuid utc_now raw_input e = Ok out
         /\ save_news nan_meets_bounds isoformat out s = (Ok out, s'))
      /\ fully_enriched nan_meets_bounds out /\ persisted out (table s')
  | (Raise err, s') =>
      table s' = table s /\ new s' = [] /\ dirty s' = []
      /\ exists cause,
           err = Wrapped ingest_prefix cause
           /\ (enrich raw_input = Raise cause
               \/ (exists e, enrich raw_input = Ok e
                   /\ (assemble nan_meets_bounds uuid utc_now raw_input e
                       = Raise cause
                       \/ exists out,
                            assemble nan_meets_bounds uuid utc_now raw_input e
                            = Ok out
                            /\ save_news nan_meets_bounds isoformat out s
                               = (Raise cause, s'))))
  end.
Proof.
  intros Hclean. pose proof Hclean as (Htb & Hnew & Hdirty).
  unfold ingest, IngestionService.ingest_news, reraise, Session.bind, lift.
  fold (enrich raw_input).
  destruct (enrich raw_input) as [e|err] eqn:He.
  2:{ repeat split; auto. exists err. auto. }
  fold (assemble nan_meets_bounds uuid utc_now raw_input e).
  destruct (assemble nan_meets_bounds uuid utc_now raw_input e)
    as [out|err] eqn:Hout.
  2:{ repeat split; auto. exists err. split; [reflexivity|].
      right. exists e. auto. }
  destruct (save_news nan_meets_bounds isoformat out s)
    as [[saved|err] s'] eqn:Hsave.
  - cbn. pose proof Hsave as Hsave'.
    apply (save_news_cases _ _ _ _ _ _ Hclean) in Hsave' as (_ & _ & _ & -> & _).
    split; [exists e; auto|].
    split; [eapply assemble_enriched; eassumption|].
    eapply saved_persisted; eassumption.
  - pose proof Hsave as Hsave'.
    apply (save_news_cases _ _ _ _ _ _ Hclean) in Hsave'
      as (N & D & _ & T & _).
    repeat split; auto. exists err. split; [reflexivity|].
    right. exists e. split; [reflexivity|]. right. exists out. auto.
Qed.

(** C1.  [ingest_news] on every raw article, for a session as a request is
    given it (nothing pending, nothing flushed).  Either it returns an
    article that is made of the raw article and of what each of the six
    facets returned for it (with 3 to 5 tags, a score the record accepted,
    a whole or empty geo point) and for which the table holds a row; or it
    raises, wrapped as an ingestion failure, and then the table is what it
    was and the session holds nothing pending.  When the enrichment raises,
    or the record is refused, or [save_news] raises, the call raises. *)
Theorem ingest_news_all_or_nothing (uuid utc_now : string)
    (raw_input : RawNewsInput.t) (s : Session.t) :
  clean s ->
  match ingest uuid utc_now raw_input s with
  | (Ok out, s') =>
      enriched_by json_loads brave_search_service ai_service uuid utc_now
        raw_input out
      /\ fully_enriched nan_meets_bounds out /\ persisted out (table s')
  | (Raise err, s') =>
      table s' = table s /\ new s' = [] /\ dirty s' = []
      /\ exists cause, err = Wrapped ingest_prefix cause
  end
  /\ (forall cause,
        enrich raw_input = Raise cause ->
        ingest uuid utc_now raw_input s = (Raise (Wrapped ingest_prefix cause), s))
  /\ (forall e out cause s',
        enrich raw_input = Ok e ->
        assemble nan_meets_bounds uuid utc_now raw_input e = Ok out ->
        save_news nan_meets_bounds isoformat out s = (Raise cause, s') ->
        ingest uuid utc_now raw_input s
        = (Raise (Wrapped ingest_prefix cause), s')
        /\ table s' = table s).
Proof.
  intros Hclean. split; [|split].
  - pose proof (ingest_news_cases uuid utc_now raw_input s Hclean) as H.
    destruct (ingest uuid utc_now raw_input s) as [[out|err] s'].
    + destruct H as ((e & He & Hout & _) & Hfull & Hrow).
      split; [|split; assumption].
      exact (assemble_enriched_by uuid utc_now raw_input e out He Hout).
    + destruct H as (T & N & D & cause & -> & _). eauto 6.
  - intros cause He.
    unfold ingest, IngestionService.ingest_news, reraise, Session.bind, lift.
    fold (enrich raw_input). now rewrite He.
  - intros e out cause s' He Hout Hsave.
    unfold ingest, IngestionService.ingest_news, reraise, Session.bind, lift.
    fold (enrich raw_input). rewrite He.
    fold (assemble nan_meets_bounds uuid utc_now raw_input e).
    rewrite Hout, Hsave.
    split; [reflexivity|].
    apply (save_news_cases _ _ _ _ _ _ Hclean) in Hsave as (_ & _ & _ & T & _).
    exact T.
Qed.

Lemma save_news_raise_wrapped (news : FinalNewsOutput.t) (s s' : Session.t)
    (err : exc) :
  save_news nan_meets_bounds isoformat news s = (Raise err, s') ->
  exists cause, err = Wrapped save_prefix cause.
Proof.
  unfold save_news, reraise.
  match goal with
  | |- (match ?b with _ => _ end) = _ -> _ => destruct b as [[out|e] s1]
  end; [discriminate|]. intros [= <- _]. eauto.
Qed.

Lemma enrich_news_mock (raw_input : RawNewsInput.t) :
  AIService.use_mock ai_service = true ->
  enrich raw_input
  = Ok (AIService.mk_enrichment
          (mock_summary (RawNewsInput.body raw_input))
          AIService.mock_tags AiConstants.float_0_7
          AIService.mock_media AIService.mock_context AIService.mock_geo).
Proof.
  intros Hmock.
  unfold enrich, AIService.enrich_news, AIService.generate_summary,
    AIService.generate_tags, AIService.calculate_relevance_score,
    AIService.discover_media, AIService.extract_context,
    AIService.extract_geo.
  rewrite Hmock. reflexivity.
Qed.

(** C5.  In mock mode, whatever the body (the bound of 500 words plays no
    part), an article that [ingest_news] returns has as summary the first
    30 words of the body joined by single spaces and followed by "...", the
    tags "#Africa", "#News", "#Technology", the relevance score 0.7, and the
    point of Nairobi with its map URL; and the call can only fail in
    [save_news]. *)
Theorem ingest_news_mock (uuid utc_now : string) (raw_input : RawNewsInput.t)
    (s : Session.t) :
  AIService.use_mock ai_service = true ->
  match ingest uuid utc_now raw_input s with
  | (Ok out, _) =>
      FinalNewsOutput.summary out
      = Py.join " " (firstn 30 (Py.split_ws (RawNewsInput.body raw_input)))
        ++ "..."
      /\ FinalNewsOutput.tags out = ["#Africa"; "#News"; "#Technology"]
      /\ FinalNewsOutput.relevance_score out = PyFloat.Finite false 7 (-1)
      /\ FinalNewsOutput.geo out
         = Geo.mk (Some (PyFloat.Finite true 1286389 (-6)))
                  (Some (PyFloat.Finite false 36817223 (-6)))
                  (Some "https://www.google.com/maps?q=-1.286389,36.817223")
  | (Raise err, _) =>
      exists cause, err = Wrapped ingest_prefix (Wrapped save_prefix cause)
  end.
Proof.
  intros Hmock.
  unfold ingest, IngestionService.ingest_news, reraise, Session.bind, lift.
  fold (enrich raw_input). rewrite (enrich_news_mock raw_input Hmock).
  cbn [AIService.summary AIService.tags AIService.relevance_score
       AIService.media AIService.context AIService.geo].
  change (FinalNewsOutput.make nan_meets_bounds uuid
            (RawNewsInput.title raw_input)
            (RawNewsInput.body raw_input) (RawNewsInput.source_url raw_input)
            (RawNewsInput.author raw_input)
            (RawNewsInput.published_date raw_input)
            (mock_summary (RawNewsInput.body raw_input))
            AIService.mock_tags AiConstants.float_0_7 AIService.mock_media
            AIService.mock_context AIService.mock_geo utc_now)
    with (Ok (FinalNewsOutput.mk uuid (RawNewsInput.title raw_input)
                (RawNewsInput.body raw_input)
                (RawNewsInput.source_url raw_input)
                (RawNewsInput.author raw_input)
                (RawNewsInput.published_date raw_input)
                (mock_summary (RawNewsInput.body raw_input))
                ["#Africa"; "#News"; "#Technology"]
                AiConstants.float_0_7 AIService.mock_media
                AIService.mock_context AIService.mock_geo utc_now)).
  cbn beta iota.
  match goal with
  | |- context [save_news ?i ?n ?st] =>
      destruct (save_news i n st) as [[saved|err] s'] eqn:Hsave
  end.
  - cbn. repeat split.
  - destruct (save_news_raise_wrapped _ _ _ _ Hsave) as (cause & ->). eauto.
Qed.

(** In mock mode the ingestion returns whenever the database answers, no
    row has the identifier yet, and the identifier and the raw fields fit
    their columns. *)
Lemma ingest_news_mock_returns (uuid utc_now : string)
    (raw_input : RawNewsInput.t) (s : Session.t) :
  AIService.use_mock ai_service = true ->
  clean s -> faults s = [] ->
  filter (has_slug uuid) (table s) = [] ->
  NewsArticle.fits 255 uuid = true ->
  NewsArticle.fits 500 (RawNewsInput.title raw_input) = true ->
  NewsArticle.fits 1000 (RawNewsInput.source_url raw_input) = true ->
  NewsArticle.fits_opt 255 (RawNewsInput.author raw_input) = true ->
  NewsArticle.fits_opt 50 (RawNewsInput.published_date raw_input) = true ->
  exists s',
    ingest uuid utc_now raw_input s
    = (Ok (mock_article uuid utc_now raw_input), s')
    /\ persisted (mock_article uuid utc_now raw_input) (table s').
Proof.
  intros Hmock Hclean Hfaults Hfree Hid Htitle Hurl Hauthor Hdate.
  assert (Hsave := save_news_inserts nan_meets_bounds isoformat
                     (mock_article uuid utc_now raw_input) s Hclean Hfaults
                     Hfree).
  assert (Hfits : NewsArticle.constraints_ok
                    (NewsArticle.inserted
                       (new_article (mock_article uuid utc_now raw_input))
                       (sequence s) (now s)) = true).
  { unfold NewsArticle.constraints_ok.
    cbn -[NewsArticle.fits NewsArticle.fits_opt].
    rewrite Hid, Htitle, Hurl, Hauthor, Hdate. reflexivity. }
  specialize (Hsave Hfits).
  eexists. split.
  - unfold ingest, IngestionService.ingest_news, reraise, Session.bind, lift.
    fold (enrich raw_input). rewrite (enrich_news_mock raw_input Hmock).
    match goal with
    | |- context [FinalNewsOutput.make ?v ?a ?b ?c ?d ?e ?f ?g ?h ?i ?j ?k ?l ?m] =>
        assert (Hmake : FinalNewsOutput.make v a b c d e f g h i j k l m
                        = Ok (mock_article uuid utc_now raw_input))
          by reflexivity;
        rewrite Hmake
    end.
    cbn beta iota. rewrite Hsave. reflexivity.
  - eapply saved_persisted; eassumption.
Qed.

End Ingest.

End IngestionFacts.

(** ** The scenario of the specification, run *)

Module Scenario.
Import Session NewsRepository RepositoryFacts RepositoryProps IngestionFacts IngestionProps Runs.

Example solar_body_words : List.length (Py.split_ws solar_body) = 38.
Proof. reflexivity. Qed.

Lemma ingest_news_mock_witness :
  match fst (mock_ingest empty_db) with
  | Ok out =>
      FinalNewsOutput.summary out
      = "Kenya has opened a new solar plant near Garissa that will feed fifty megawatts into the national grid and bring reliable power to thousands of homes and small businesses across..."
      /\ FinalNewsOutput.tags out = ["#Africa"; "#News"; "#Technology"]
      /\ FinalNewsOutput.relevance_score out = PyFloat.Finite false 7 (-1)
      /\ FinalNewsOutput.geo out
         = Geo.mk (Some (PyFloat.Finite true 1286389 (-6)))
                  (Some (PyFloat.Finite false 36817223 (-6)))
                  (Some "https://www.google.com/maps?q=-1.286389,36.817223")
  | Raise _ => False
  end.
Proof.
  exact (ingest_news_mock no_json offline_brave true epoch_text
           MediaQueryProps.mock_service uuid utc_now solar empty_db eq_refl).
Defined.

Lemma ingest_news_all_or_nothing_witness :
  match mock_ingest empty_db with
  | (Ok out, s') =>
      enriched_by no_json offline_brave MediaQueryProps.mock_service uuid
        utc_now solar out
      /\ fully_enriched true out /\ persisted out (table s')
  | (Raise _, _) => False
  end
  /\ match mock_ingest failing_insert with
     | (Ok _, _) => False
     | (Raise _, s') => table s' = []
     end.
Proof.
  split.
  - exact (proj1 (ingest_news_all_or_nothing no_json offline_brave
                    true epoch_text MediaQueryProps.mock_service uuid utc_now
                    solar empty_db (opened_clean _ _ _ _))).
  - exact (proj1 (proj1 (ingest_news_all_or_nothing no_json offline_brave
                           true epoch_text MediaQueryProps.mock_service uuid
                           utc_now solar failing_insert
                           (opened_clean _ _ _ _)))).
Defined.

Lemma save_news_keeps_identity_witness :
  match save_news true epoch_text second_version one_article with
  | (Ok _, s') =>
      exists row,
        table s' = [row]
        /\ NewsArticle.id row = 7%Z
        /\ NewsArticle.slug row = uuid
        /\ NewsArticle.ingested_at row = 1700000000%Z
        /\ NewsArticle.created_at row = 1700000000%Z
        /\ NewsArticle.title row = "Solar plant opens in Kenya"
        /\ NewsArticle.relevance_score row = PyFloat.Finite false 9 (-1)
  | (Raise _, _) => False
  end.
Proof.
  destruct (save_news_keeps_identity true epoch_text second_version one_article
              stored_row (opened_clean _ _ _ _) eq_refl)
    as (row & Htable & Hid & Hslug & Hing & Hcr & Hstores).
  vm_compute in Htable. vm_compute.
  exists row. split; [exact Htable|].
  destruct Hstores as (Htitle & Hrest).
  repeat split; try assumption. apply Hrest.
Defined.

(** The score nan leaves the scoring facet.  Where the record's validator
    refuses nan, the whole ingestion fails and nothing is stored. *)
Example ingest_news_nan_score_refused :
  IngestionService.ingest_news no_json offline_brave false epoch_text
    (parrot "nan") uuid utc_now solar empty_db
  = (Raise (Wrapped ingest_prefix ValidationError), empty_db).
Proof. reflexivity. Qed.

(** Where the validator lets nan through, the article is stored and
    returned with the score nan. *)
Example ingest_news_nan_score_stored :
  exists out s',
    IngestionService.ingest_news no_json offline_brave true epoch_text
      (parrot "nan") uuid utc_now solar empty_db = (Ok out, s')
    /\ FinalNewsOutput.relevance_score out = PyFloat.NaN
    /\ map NewsArticle.relevance_score (table s') = [PyFloat.NaN].
Proof. do 2 eexists. split; [vm_compute; reflexivity|]. split; reflexivity. Qed.

(** A service that is down: the summary facet lets the error through. *)
Example ingest_news_service_down :
  IngestionService.ingest_news no_json offline_brave true epoch_text
    (AIService.mk false (fun _ => Raise (ServiceError "503"))) uuid utc_now
    solar empty_db
  = (Raise (Wrapped ingest_prefix (ServiceError "503")), empty_db).
Proof. reflexivity. Qed.

(** The same live pipeline with a score that parses: every other facet
    falls back, and the article is stored. *)
Example ingest_news_live_fallbacks :
  exists out s',
    IngestionService.ingest_news no_json offline_brave true epoch_text
      (parrot "0.85") uuid utc_now solar empty_db = (Ok out, s')
    /\ FinalNewsOutput.summary out = "0.85"
    /\ FinalNewsOutput.tags out = ["#Africa"; "#News"; "#Development"]
    /\ FinalNewsOutput.relevance_score out = PyFloat.Finite false 85 (-2)
    /\ FinalNewsOutput.geo out = Geo.empty
    /\ List.length (table s') = 1.
Proof. do 2 eexists. split; [vm_compute; reflexivity|]. repeat split. Qed.

End Scenario.

(** ** From rows to articles, and [search_news] *)

Module SearchFacts.
Import Py PyFacts PyProps Session NewsRepository RepositoryFacts RepositoryProps PyFloatFacts PyFloatProps SearchProps.

Lemma to_output_model_shows (nan_meets_bounds : bool)
    (isoformat : Z -> string) (r : NewsArticle.t)
    (a : FinalNewsOutput.t) :
  _to_output_model nan_meets_bounds isoformat r = Ok a -> shows r a.
Proof.
  unfold _to_output_model.
  destruct (FinalNewsOutput.validate_score _ _) as [score|] eqn:Hscore;
    [|discriminate].
  apply IngestionFacts.validate_score_accepted in Hscore as (-> & _).
  cbn. intros [= <-]. repeat split.
Qed.

Lemma to_output_models_shows (nan_meets_bounds : bool)
    (isoformat : Z -> string)
    (rows : list NewsArticle.t) (outs : list FinalNewsOutput.t) :
  to_output_models nan_meets_bounds isoformat rows = Ok outs ->
  Forall2 shows rows outs.
Proof.
  revert outs. induction rows as [|r rows IH]; intros outs; simpl.
  - intros [= <-]. constructor.
  - destruct (_to_output_model nan_meets_bounds isoformat r) as [a|] eqn:Ha;
      [|discriminate].
    simpl.
    destruct (to_output_models nan_meets_bounds isoformat rows) as [others|];
      [|discriminate].
    simpl. intros [= <-]. constructor; [|now apply IH].
    now apply (to_output_model_shows nan_meets_bounds isoformat).
Qed.

Lemma Forall2_length {A B} (P : A -> B -> Prop) (l : list A) (l' : list B) :
  Forall2 P l l' -> List.length l' = List.length l.
Proof. induction 1; simpl; congruence. Qed.

(** *** [search_news] *)

(** C7.  [search_news] returns no list of articles: on every query and
    limit, and whatever the table holds, it raises [TypeError] while it
    builds its statement, at the clause on the tags, and the session is as
    it was (no statement reaches the database).  So no search returns the
    articles that hold the query text. *)
Theorem search_news_raises_type_error (nan_meets_bounds : bool)
    (isoformat : Z -> string) (query : string) (limit : Z) (s : Session.t) :
  search_condition ("%" ++ query ++ "%") = Raise TypeError
  /\ search_news nan_meets_bounds isoformat query limit s
     = (Raise TypeError, s).
Proof. split; reflexivity. Qed.

End SearchFacts.

(** ** A search, run *)

Module SearchScenario.
Import Session NewsRepository SearchFacts SearchProps SearchRuns.

(** The scenario of the specification, [search("mining", limit=10)], on
    an archive two of whose articles hold the word: the title of one
    matches the pattern, and the search raises. *)
Example search_mining :
  Sql.ilike (NewsArticle.title copper) "%mining%" = true
  /\ search_news true Runs.epoch_text "mining" 10 archive
     = (Raise TypeError, archive).
Proof. split; reflexivity. Qed.

End SearchScenario.

(** ** The media and context facets *)

Module FacetFacts.
Import AiConstants AIService AIServiceFacts MediaQueryProps FacetProps WordFacts.

Lemma Ok_inj {A} (a b : A) : Ok a = Ok b -> a = b.
Proof. now intros [= ->]. Qed.

Lemma caption_of_ok (title c : json) : caption_of title = Ok c -> caption_ok c.
Proof.
  unfold caption_of, caption_ok.
  destruct (Json.truthy title); [|intros [= <-]; now left].
  destruct title as [ | | | |s| | ]; try discriminate.
  cbn [Json.split_ws bind]. intros H. apply Ok_inj in H. subst c.
  destruct (Nat.ltb_spec 15 (List.length (Py.split_ws s))) as [Hlong|Hshort];
    right; eexists; (split; [reflexivity|]); unfold word_count.
  - rewrite split_ws_join by apply Forall_firstn, split_ws_words.
    rewrite length_firstn. lia.
  - exact Hshort.
Qed.

Lemma caption_for_ok (url : json) (metadata : option json) (c : json) :
  caption_for url metadata = Ok c -> caption_ok c.
Proof.
  unfold caption_for.
  destruct metadata as [md|]; [|intros [= <-]; now left].
  destruct (Json.truthy url && Json.truthy md); [|intros [= <-]; now left].
  intros H. apply bind_ok in H as (title & _ & H).
  exact (caption_of_ok _ _ H).
Qed.

Lemma truthy_str (v : json) (o : option string) :
  Json.truthy v = true -> Json.as_optional_str v = Ok o ->
  exists s, o = Some s /\ s <> EmptyString.
Proof.
  destruct v as [ | | | |s| | ]; try discriminate.
  cbn. intros Ht [= <-]. exists s. split; [reflexivity|].
  intros ->. discriminate Ht.
Qed.

Lemma caption_str (c : json) (o : option string) :
  caption_ok c -> Json.as_optional_str c = Ok o ->
  forall s, o = Some s -> word_count s <= 15.
Proof.
  intros [-> | (t & -> & Ht)]; cbn; intros [= <-] s; [discriminate|].
  now intros [= <-].
Qed.

Lemma mock_media_ok : media_ok mock_media.
Proof.
  unfold media_ok, mock_media. cbn.
  repeat split; eauto.
  - eexists. split; [reflexivity | discriminate].
  - eexists. split; [reflexivity | discriminate].
  - intros c [= <-]. vm_compute. lia.
  - intros c [= <-]. vm_compute. lia.
Qed.

Lemma fallback_media_ok (title : string) : media_ok (fallback_media title).
Proof.
  unfold media_ok, fallback_media. cbn.
  repeat split; eauto.
  - eexists. split; [reflexivity | discriminate].
  - intros c [= <-]. vm_compute. lia.
  - discriminate.
Qed.

(** The record the live path builds of the lookup's results. *)
Lemma made_media_ok (search_query : string) (image_url video_url : json)
    (image_caption video_caption : json) (justification : string)
    (m : EnrichedNewsMedia.t) :
  caption_ok image_caption -> caption_ok video_caption ->
  (let '(image_url, image_caption) :=
     if negb (Json.truthy image_url)
     then (JStr DEFAULT_FALLBACKS.featured_image_url,
           JStr "High-quality image relevant to African development")
     else (image_url, image_caption) in
   let '(video_url, video_caption) :=
     if negb (Json.truthy video_url)
     then (JStr EmptyString, JNull)
     else (video_url, video_caption) in
   EnrichedNewsMedia.make
     (JStr search_query) image_url image_caption
     (if Json.truthy video_url then video_url else JStr EmptyString)
     video_caption (JStr justification)) = Ok m ->
  media_ok m.
Proof.
  intros Hic Hvc.
  assert (Hfixed : caption_ok
            (JStr "High-quality image relevant to African development")).
  { right. eexists. split; [reflexivity|]. vm_compute. lia. }
  destruct (Json.truthy image_url) eqn:Hi; cbn [negb];
    destruct (Json.truthy video_url) eqn:Hv; cbn [negb];
    rewrite ?Hv; cbn [Json.truthy Py.truthy];
    unfold EnrichedNewsMedia.make; cbn [Json.as_optional_str bind];
    intros H;
    repeat match type of H with
           | bind _ _ = Ok _ =>
               let x := fresh "x" in
               let E := fresh "E" in
               apply bind_ok in H as (x & E & H)
           end;
    injection H as <-; unfold media_ok; cbn.
  - destruct (truthy_str _ _ Hi E) as (u & -> & Hu).
    destruct (truthy_str _ _ Hv E1) as (v & -> & Hv').
    repeat split; eauto.
    + exists v. split; [reflexivity|]. intros ->. now elim Hv'.
    + exact (caption_str _ _ Hic E0).
    + exact (caption_str _ _ Hvc E2).
  - destruct (truthy_str _ _ Hi E) as (u & -> & Hu).
    repeat split; eauto.
    + exact (caption_str _ _ Hic E0).
    + discriminate.
  - destruct (truthy_str _ _ Hv E) as (v & -> & Hv').
    repeat split; eauto.
    + eexists. split; [reflexivity | discriminate].
    + exists v. split; [reflexivity|]. intros ->. now elim Hv'.
    + intros c [= <-]. vm_compute. lia.
    + exact (caption_str _ _ Hvc E0).
  - repeat split; eauto.
    + eexists. split; [reflexivity | discriminate].
    + intros c [= <-]. vm_compute. lia.
    + discriminate.
Qed.

(** Every way the media facet can end. *)
Lemma discover_media_outcome
    (brave_search_service : BraveSearchService.t) (self : t)
    (title body : string) (tags : list json) :
  exists m,
    discover_media brave_search_service self title body tags = Ok m
    /\ media_ok m.
Proof.
  unfold discover_media.
  destruct (use_mock self);
    [exists mock_media; split; [reflexivity | apply mock_media_ok]|].
  match goal with
  | |- exists m, try_ ?b _ = Ok m /\ _ => destruct b as [m|e] eqn:Hbody
  end.
  2:{ exists (fallback_media title).
      split; [reflexivity | apply fallback_media_ok]. }
  exists m. split; [reflexivity|].
  apply bind_ok in Hbody as (search_query & _ & Hbody).
  apply bind_ok in Hbody as (media_results & _ & Hbody).
  apply bind_ok in Hbody as (image_caption & Hic & Hbody).
  apply bind_ok in Hbody as (video_caption & Hvc & Hbody).
  apply caption_for_ok in Hic. apply caption_for_ok in Hvc.
  exact (made_media_ok _ _ _ _ _ _ _ Hic Hvc Hbody).
Qed.

(** X1.  The media facet never fails, and whatever the lookup answers its
    record carries the query, an image URL that is not empty, a video URL
    that is empty only without a caption, a justification, and captions of
    at most 15 words. *)
Theorem discover_media_always_illustrated
    (brave_search_service : BraveSearchService.t) (self : t)
    (title body : string) (tags : list json) :
  exists m,
    discover_media brave_search_service self title body tags = Ok m
    /\ media_ok m.
Proof. apply discover_media_outcome. Qed.

(** *** [extract_context] *)

Lemma quality_snippet_text (data snippet : json) (w : option string) :
  quality_snippet data = Ok snippet ->
  Json.as_optional_str snippet = Ok w ->
  exists s, w = Some s /\ 20 <= String.length s.
Proof.
  unfold quality_snippet. intros H Hw.
  apply bind_ok in H as (found & _ & H).
  assert (Hdefault : Json.as_optional_str (JStr short_snippet_default) = Ok w ->
                     exists s, w = Some s /\ 20 <= String.length s).
  { cbn. intros [= <-]. eexists. split; [reflexivity|]. vm_compute. lia. }
  destruct (Json.truthy found) eqn:Ht; cbn [negb] in H.
  2:{ apply Ok_inj in H. subst snippet. now apply Hdefault. }
  apply bind_ok in H as (n & Hn & H).
  destruct (Nat.ltb_spec n 20) as [Hshort|Hlong]; apply Ok_inj in H;
    subst snippet; [now apply Hdefault|].
  destruct found as [ | | | |s| | ]; try discriminate.
  cbn in Hn, Hw. injection Hn as <-. injection Hw as <-.
  exists s. now split.
Qed.

Lemma mock_context_ok : context_ok mock_context.
Proof. eexists. split; [reflexivity|]. vm_compute. lia. Qed.

Lemma fallback_context_ok : context_ok fallback_context.
Proof. eexists. split; [reflexivity|]. vm_compute. lia. Qed.

(** X2.  Every context the facet returns carries a snippet of at least 20
    characters: the one of the answer, or a fixed text in its place.  The
    facet fails only on the live path, and only with an error that is of
    none of the three classes its handler names, [JSONDecodeError],
    [KeyError] and [AttributeError]; a [ValueError] is not among them. *)
Theorem extract_context_snippet (json_loads : json_parser) (self : t)
    (title body : string) :
  match extract_context json_loads self title body with
  | Ok c => context_ok c
  | Raise e => use_mock self = false /\ context_catches e = false
  end.
Proof.
  unfold extract_context.
  destruct (use_mock self); [apply mock_context_ok|].
  match goal with
  | |- match try_ ?b _ with _ => _ end => destruct b as [c|e] eqn:Hbody
  end.
  - cbn [try_].
    apply bind_ok in Hbody as (text & _ & Hbody).
    apply bind_ok in Hbody as (content & _ & Hbody).
    apply bind_ok in Hbody as (content' & _ & Hbody).
    apply bind_ok in Hbody as (data & _ & Hbody).
    apply bind_ok in Hbody as (snippet & Hsnippet & Hbody).
    apply bind_ok in Hbody as (sentiment & _ & Hbody).
    apply bind_ok in Hbody as (trend & _ & Hbody).
    unfold EnrichedNewsContext.make in Hbody.
    apply bind_ok in Hbody as (w & Hw & Hbody).
    apply bind_ok in Hbody as (s & _ & Hbody).
    apply bind_ok in Hbody as (t' & _ & Hbody).
    apply Ok_inj in Hbody. subst c.
    exact (quality_snippet_text _ _ _ Hsnippet Hw).
  - cbn [try_ handle]. fold (context_catches e).
    destruct (context_catches e) eqn:Hc; [apply fallback_context_ok|].
    now split.
Qed.

(** A snippet that is a number passes the test of truth and fails at
    [len]: the [TypeError] is none of the handled classes. *)
Example extract_context_number_snippet :
  extract_context
    (AIServiceProps.one_answer (JDict [("wikipedia_snippet", JInt 5)]))
    (AIServiceProps.geo_service "{}") "Title" "Body"
  = Raise TypeError.
Proof. reflexivity. Qed.

(** So is the [ValidationError] of a sentiment that is no text, and the
    [ValueError] or [RecursionError] that [json.loads] raises for an
    integer of too many digits or a text nested too deep. *)
Example extract_context_number_sentiment :
  extract_context
    (AIServiceProps.one_answer
       (JDict [("wikipedia_snippet", JStr "Twenty characters, and more.");
               ("social_sentiment", JInt 5)]))
    (AIServiceProps.geo_service "{}") "Title" "Body"
  = Raise ValidationError.
Proof. reflexivity. Qed.

Example extract_context_long_integer :
  extract_context (fun _ => Raise ValueError)
    (AIServiceProps.geo_service "1111") "Title" "Body"
  = Raise ValueError.
Proof. reflexivity. Qed.

Example extract_context_too_deep :
  extract_context (fun _ => Raise RecursionError)
    (AIServiceProps.geo_service "[[[[") "Title" "Body"
  = Raise RecursionError.
Proof. reflexivity. Qed.

(** The sentiment and the trend are whatever the answer holds. *)
Example extract_context_any_sentiment :
  extract_context
    (AIServiceProps.one_answer
       (JDict [("wikipedia_snippet", JStr "Short."); ("social_sentiment", JNull);
               ("search_trend", JStr "exploding")]))
    (AIServiceProps.geo_service "{}") "Title" "Body"
  = Ok (EnrichedNewsContext.mk (Some short_snippet_default) None
          (Some "exploding")).
Proof. reflexivity. Qed.

(** *** [enrich_news] *)

(** X3.  The enrichment fails exactly where its summary, context or geo
    facet fails, with the error of that facet: the tag, score and media
    facets never fail. *)
Theorem enrich_news_fails_in_three_facets (json_loads : json_parser)
    (brave_search_service : BraveSearchService.t) (self : t)
    (raw_input : RawNewsInput.t) (e : exc) :
  enrich_news json_loads brave_search_service self raw_input = Raise e
  <-> generate_summary self (RawNewsInput.title raw_input)
        (RawNewsInput.body raw_input) = Raise e
      \/ ((exists s, generate_summary self (RawNewsInput.title raw_input)
                       (RawNewsInput.body raw_input) = Ok s)
          /\ extract_context json_loads self (RawNewsInput.title raw_input)
               (RawNewsInput.body raw_input) = Raise e)
      \/ ((exists s, generate_summary self (RawNewsInput.title raw_input)
                       (RawNewsInput.body raw_input) = Ok s)
          /\ (exists c, extract_context json_loads self
                          (RawNewsInput.title raw_input)
                          (RawNewsInput.body raw_input) = Ok c)
          /\ extract_geo json_loads self (RawNewsInput.title raw_input)
               (RawNewsInput.body raw_input) = Raise e).
Proof.
  unfold enrich_news. cbn zeta.
  destruct (generate_summary self _ _) as [summary|e1]; cbn [bind].
  2:{ split.
      - intros [= ->]. now left.
      - intros [[= ->] | [((s & [=]) & _) | ((s & [=]) & _)]]. reflexivity. }
  destruct (generate_tags_outcome json_loads self (RawNewsInput.title raw_input)
              (RawNewsInput.body raw_input)) as (tags & -> & _).
  cbn [bind].
  destruct (calculate_relevance_score_returns self
              (RawNewsInput.title raw_input) (RawNewsInput.body raw_input))
    as (score & ->).
  cbn [bind].
  destruct (discover_media_outcome brave_search_service self
              (RawNewsInput.title raw_input) (RawNewsInput.body raw_input) tags)
    as (media & -> & _).
  cbn [bind].
  destruct (extract_context json_loads self _ _) as [context|e2]; cbn [bind].
  2:{ split.
      - intros [= ->]. right. left. split; [eauto | reflexivity].
      - intros [[=] | [(_ & [= ->]) | (_ & (c & [=]) & _)]]. reflexivity. }
  destruct (extract_geo json_loads self _ _) as [geo|e3]; cbn [bind].
  - split; [discriminate|].
    intros [[=] | [(_ & [=]) | (_ & _ & [=])]].
  - split.
    + intros [= ->]. right. right. repeat split; eauto.
    + intros [[=] | [(_ & [=]) | (_ & _ & [= ->])]]. reflexivity.
Qed.

End FacetFacts.

(** ** The media lookup, both searches *)

Module BraveMediaFacts.
Import BraveSearchService BraveProps BraveFacts BraveMediaProps.

Ltac binds H :=
  repeat match type of H with
         | bind _ _ = Ok _ =>
             let x := fresh "x" in
             let E := fresh "E" in
             apply bind_ok in H as (x & E & H)
         end.

Lemma search_images_shape (self : t) (query : string) (count : Z) :
  exists r,
    search_images self query count = Ok r
    /\ (no_api_key self = true -> r = None)
    /\ match r with
       | None => True
       | Some found => exists u rest, found = JDict (("url", u) :: rest)
       end.
Proof.
  unfold search_images.
  destruct (no_api_key self); [exists None; auto|].
  match goal with
  | |- exists r, try_ ?b _ = Ok r /\ _ =>
      destruct (always_answers b) as (r & Hr & Hbody)
  end.
  exists r. split; [exact Hr|]. split; [discriminate|].
  destruct Hbody as [Hbody | [-> _]]; [|exact I].
  apply bind_ok in Hbody as (data & _ & Hbody).
  apply bind_ok in Hbody as (yes & _ & Hbody).
  destruct yes; [|now injection Hbody as <-].
  binds Hbody. injection Hbody as <-. eauto.
Qed.

Lemma search_videos_shape (self : t) (query : string) (count : Z) :
  exists r,
    search_videos self query count = Ok r
    /\ (no_api_key self = true -> r = None)
    /\ match r with
       | None => True
       | Some found => exists u rest, found = JDict (("url", u) :: rest)
       end.
Proof.
  unfold search_videos.
  destruct (no_api_key self); [exists None; auto|].
  match goal with
  | |- exists r, try_ ?b _ = Ok r /\ _ =>
      destruct (always_answers b) as (r & Hr & Hbody)
  end.
  exists r. split; [exact Hr|]. split; [discriminate|].
  destruct Hbody as [Hbody | [-> _]]; [|exact I].
  apply bind_ok in Hbody as (data & _ & Hbody).
  apply bind_ok in Hbody as (yes & _ & Hbody).
  destruct yes; [|now injection Hbody as <-].
  binds Hbody. injection Hbody as <-. eauto.
Qed.

Lemma url_of_shape (found : option json) :
  match found with
  | None => True
  | Some d => exists u rest, d = JDict (("url", u) :: rest)
  end ->
  exists url, url_of found = Ok url /\ url_from found url.
Proof.
  destruct found as [d|]; [|exists JNull; now split].
  intros (u & rest & ->). exists u. split; [reflexivity|].
  exists u, rest. now split.
Qed.

(** X4.  [discover_media] of the lookup client returns on every query.  Its
    result repeats the query and holds what the two searches returned; the
    URL beside each is the one of that result, and [None] where the search
    found nothing.  Without an API key everything but the query is [None],
    whatever a request would answer. *)
Theorem brave_discover_media_returns (self : t) (q : string) :
  exists r,
    discover_media self q = Ok r
    /\ query r = q
    /\ search_images self q 1 = Ok (image_metadata r)
    /\ search_videos self q 1 = Ok (video_metadata r)
    /\ url_from (image_metadata r) (image_url r)
    /\ url_from (video_metadata r) (video_url r)
    /\ (no_api_key self = true -> r = mk_results q JNull None JNull None).
Proof.
  unfold discover_media.
  destruct (search_images_shape self q 1) as (ir & Hi & Hikey & Hishape).
  destruct (search_videos_shape self q 1) as (vr & Hv & Hvkey & Hvshape).
  destruct (url_of_shape ir Hishape) as (iu & Hiu & Hifrom).
  destruct (url_of_shape vr Hvshape) as (vu & Hvu & Hvfrom).
  rewrite Hi, Hv. cbn [bind]. rewrite Hiu, Hvu. cbn [bind].
  eexists. split; [reflexivity|]. cbn.
  repeat split; try assumption.
  intros Hkey. rewrite (Hikey Hkey) in *. rewrite (Hvkey Hkey) in *.
  cbn in Hifrom, Hvfrom. now subst.
Qed.

Example discover_media_one_answer :
  discover_media (answering (Some "key") (Ok one_image)) "solar"
  = Ok (mk_results "solar"
          (JStr "https://example.com/a.jpg")
          (Some (JDict [("url", JStr "https://example.com/a.jpg");
                        ("page_url", JStr "https://example.com/page");
                        ("title", JStr "Solar farm");
                        ("source", JNull); ("thumbnail", JNull);
                        ("width", JNull); ("height", JNull)]))
          (JStr "https://example.com/page")
          (Some (JDict [("url", JStr "https://example.com/page");
                        ("title", JStr "Solar farm");
                        ("description", JNull); ("thumbnail", JNull);
                        ("duration", JNull)]))).
Proof. reflexivity. Qed.

End BraveMediaFacts.

(** ** The validators and helpers of [ai_utils.py] *)

Module AiHelpersFacts.
Import Py PyFloatProps PyFloatFacts AiTables AiHelpers AiHelpersProps.
Import AIServiceProps.

(** *** [parse_json_safely] *)

(** X8.  [parse_json_safely] returns what [json.loads] makes of the
    cleaned text, whatever its type, and the fallback where [json.loads]
    raises a [ValueError] (a [JSONDecodeError] is one) or a [TypeError].
    Any other error of [json.loads] is not caught and leaves the function:
    so does the [RecursionError] of a text that is nested too deep. *)
Theorem parse_json_safely_outcome (json_loads : json_parser)
    (content : string) (fallback : json) :
  exists cleaned,
    AiUtils.clean_json_response content = Ok cleaned
    /\ parse_json_safely json_loads content fallback
       = match json_loads cleaned with
         | Ok v => Ok v
         | Raise e =>
             if is_ValueError e || is_TypeError e then Ok fallback
             else Raise e
         end.
Proof.
  destruct (CleanFacts.unfence_clean (Py.strip content)) as (out & Hout & _).
  exists out. split; [exact Hout|].
  unfold parse_json_safely, AiUtils.clean_json_response. rewrite Hout.
  cbn [bind]. unfold loads.
  destruct (json_loads out) as [v|e]; [reflexivity|].
  cbn [try_ handle]. now destruct e.
Qed.

(** A text nested too deep: the error of [json.loads] leaves the
    function.  An integer with too many digits: the fallback. *)
Example parse_json_safely_too_deep :
  parse_json_safely (fun _ => Raise RecursionError) "[[[[" JNull
  = Raise RecursionError.
Proof. reflexivity. Qed.

Example parse_json_safely_long_integer :
  parse_json_safely (fun _ => Raise ValueError) "1111" (JDict [])
  = Ok (JDict []).
Proof. reflexivity. Qed.

(** *** [create_geo_from_coordinates] *)

Lemma validate_coordinates_between (lat lng : PyFloat.t) :
  validate_coordinates (Some lat) (Some lng) = true
  <-> between (-90) 90 lat /\ between (-180) 180 lng.
Proof.
  unfold validate_coordinates, between,
    COORDINATE_RANGES.lat_min, COORDINATE_RANGES.lat_max,
    COORDINATE_RANGES.lng_min, COORDINATE_RANGES.lng_max.
  rewrite !andb_true_iff. tauto.
Qed.

(** X9.  The point made of two coordinates is whole, with the map URL
    formatted from them, exactly when the latitude is in [-90, 90] and the
    longitude in [-180, 180]; otherwise (nan and the infinities included) it
    is the empty point.  It is never partial. *)
Theorem create_geo_from_coordinates_whole_or_empty (lat lng : PyFloat.t) :
  geo_ok (create_geo_from_coordinates lat lng)
  /\ (between (-90) 90 lat /\ between (-180) 180 lng ->
      create_geo_from_coordinates lat lng = whole_geo lat lng)
  /\ (~ (between (-90) 90 lat /\ between (-180) 180 lng) ->
      create_geo_from_coordinates lat lng = Geo.empty).
Proof.
  unfold create_geo_from_coordinates.
  destruct (validate_coordinates (Some lat) (Some lng)) eqn:E.
  - apply validate_coordinates_between in E as Hin. destruct Hin as (Hlat & Hlng).
    repeat split.
    + right. exists (JFloat lat), (JFloat lng), lat, lng. repeat split; auto.
      all: try apply Hlat; try apply Hlng.
    + now intros H; elim H.
  - repeat split.
    + now left.
    + intros H. apply validate_coordinates_between in H. congruence.
Qed.

Example create_geo_nairobi :
  create_geo_from_coordinates (dec (-1286389) (-6)) (dec 36817223 (-6))
  = Geo.mk (Some (dec (-1286389) (-6))) (Some (dec 36817223 (-6)))
      (Some "https://www.google.com/maps?q=-1.286389,36.817223").
Proof. reflexivity. Qed.

Example create_geo_nan :
  create_geo_from_coordinates PyFloat.NaN (dec 36817223 (-6)) = Geo.empty.
Proof. reflexivity. Qed.

(** *** [extract_location_from_text] *)

Lemma first_city_spec (text : string)
    (items : list (string * (PyFloat.t * PyFloat.t))) :
  match first_city (PyText.lower text) items with
  | Some (city, lat, lng) =>
      mentions_city text city = true
      /\ exists earlier later,
           items = (earlier ++ (city, (lat, lng)) :: later)%list
           /\ unmentioned text earlier
  | None => unmentioned text items
  end.
Proof.
  induction items as [|[city [lat lng]] items IH]; cbn [first_city].
  - constructor.
  - fold (mentions_city text city).
    destruct (mentions_city text city) eqn:E.
    + split; [exact E|]. exists [], items. split; [reflexivity | constructor].
    + destruct (first_city (PyText.lower text) items) as [[[c a] b]|].
      * destruct IH as (Hc & earlier & later & -> & Hearlier).
        split; [exact Hc|].
        exists ((city, (lat, lng)) :: earlier), later.
        split; [reflexivity|]. now constructor.
      * now constructor.
Qed.

(** X10.  The location found in a text is the first city of the table, in
    the order of the table, whose name occurs in the text with letter case
    ignored (inside a longer word too); no location is found exactly when no
    name of the table occurs. *)
Theorem extract_location_first_mentioned (text : string) :
  match extract_location_from_text text with
  | Some (city, lat, lng) =>
      mentions_city text city = true
      /\ exists earlier later,
           AFRICAN_CITIES_COORDINATES
           = (earlier ++ (city, (lat, lng)) :: later)%list
           /\ unmentioned text earlier
  | None => unmentioned text AFRICAN_CITIES_COORDINATES
  end.
Proof. apply first_city_spec. Qed.

Example extract_location_inside_a_word :
  extract_location_from_text "A new Toyota plant opens"
  = Some ("Oyo", dec 785 (-2), dec 39333 (-4)).
Proof. vm_compute. reflexivity. Qed.

Example extract_location_table_order :
  extract_location_from_text "From Lagos to NAIROBI"
  = Some ("Nairobi", dec (-1286389) (-6), dec 36817223 (-6)).
Proof. vm_compute. reflexivity. Qed.

Lemma table_valid :
  forallb (fun kv => validate_coordinates (Some (fst (snd kv)))
                       (Some (snd (snd kv))))
    AFRICAN_CITIES_COORDINATES = true.
Proof. vm_compute. reflexivity. Qed.

(** X11.  Every location found in a text makes a whole point: the
    coordinates of the table are all valid. *)
Theorem located_geo_is_whole (text city : string) (lat lng : PyFloat.t) :
  extract_location_from_text text = Some (city, lat, lng) ->
  create_geo_from_coordinates lat lng = whole_geo lat lng.
Proof.
  intros H. unfold extract_location_from_text in H.
  pose proof (first_city_spec text AFRICAN_CITIES_COORDINATES) as Hspec.
  rewrite H in Hspec. destruct Hspec as (_ & earlier & later & Htable & _).
  pose proof table_valid as Hv. rewrite Htable, forallb_app in Hv.
  apply andb_true_iff in Hv as (_ & Hv). cbn [forallb fst snd] in Hv.
  apply andb_true_iff in Hv as (Hv & _).
  unfold create_geo_from_coordinates. now rewrite Hv.
Qed.

Lemma located_geo_is_whole_witness :
  extract_location_from_text "Floods hit Lagos overnight"
  = Some ("Lagos", dec 65244 (-4), dec 33792 (-4))
  /\ create_geo_from_coordinates (dec 65244 (-4)) (dec 33792 (-4))
     = Geo.mk (Some (dec 65244 (-4))) (Some (dec 33792 (-4)))
         (Some "https://www.google.com/maps?q=6.5244,3.3792").
Proof.
  split; [vm_compute; reflexivity|].
  apply (located_geo_is_whole "Floods hit Lagos overnight" "Lagos").
  vm_compute. reflexivity.
Defined.

(** *** [extract_tags_from_content] *)

Lemma all_lower_app (a b : string) :
  all_lower a = true -> all_lower b = true -> all_lower (a ++ b) = true.
Proof.
  induction a as [|c a IH]; simpl; [auto|].
  intros H Hb. apply andb_true_iff in H as (Hc & Ha).
  now rewrite Hc, IH.
Qed.

Lemma scanned_capitalized (matched : string) (n : nat) :
  scanning (PyText.Inside matched (S n)) -> capitalized matched.
Proof.
  intros (c & rest & -> & Hc & Hrest & Hlen).
  exists c, rest. repeat split; auto. intros ->. discriminate.
Qed.

Lemma findall_capitalized_go_words (s : string) (st : PyText.scan_state) :
  scanning st -> Forall capitalized (PyText.findall_capitalized_go st s).
Proof.
  revert st. induction s as [|c s IH]; intros st Hst.
  - cbn [PyText.findall_capitalized_go].
    destruct st as [|matched [|n]]; try constructor; [|constructor].
    exact (scanned_capitalized _ _ Hst).
  - cbn [PyText.findall_capitalized_go]. destruct st as [after|matched small].
    + destruct (negb after && PyText.is_upper c) eqn:E; apply IH; [|exact I].
      apply andb_true_iff in E as (_ & Hc).
      exists c, EmptyString. repeat split; auto.
    + destruct (PyText.is_lower c) eqn:Hl.
      * apply IH. destruct Hst as (c0 & rest & -> & Hc0 & Hrest & Hlen).
        exists c0, (rest ++ String c EmptyString). repeat split; auto.
        -- apply all_lower_app; [exact Hrest|]. simpl. now rewrite Hl.
        -- rewrite PyFacts.length_append. simpl. lia.
      * destruct (PyText.is_word_char c); [apply IH; exact I|].
        destruct small as [|n]; [apply IH; exact I|].
        constructor; [exact (scanned_capitalized _ _ Hst) | apply IH; exact I].
Qed.

(** X12.  The tags read off a text are at most five, and each is a [#]
    followed by a capitalised word: one capital and at least one small
    letter, all of the 26 letters. *)
Theorem extract_tags_from_content_capitalized (content : string) :
  List.length (extract_tags_from_content content) <= 5
  /\ Forall capitalized_tag (extract_tags_from_content content).
Proof.
  unfold extract_tags_from_content. split.
  - rewrite length_map, length_firstn. lia.
  - apply Forall_map, WordFacts.Forall_firstn.
    eapply Forall_impl;
      [|apply (findall_capitalized_go_words content (PyText.Outside false) I)].
    intros w (c & rest & -> & Hc & Hrest & Hlow).
    exists c, rest. repeat split; auto.
Qed.

Example extract_tags_sentence :
  extract_tags_from_content
    "Kenya and Ghana sign a Trade deal; USA, McDonald and iPhone do not count"
  = ["#Kenya"; "#Ghana"; "#Trade"].
Proof. reflexivity. Qed.

End AiHelpersFacts.

(** ** The other operations of the repository *)

Module QueryFacts.
Import Session NewsRepository NewsQueries SessionDelete SqlOrder.
Import RepositoryProps RepositoryFacts PyFloatProps QueryProps.

(** *** Storing and reading back *)

Lemma filter_has_slug_app (slug : string) (rows : list NewsArticle.t)
    (row : NewsArticle.t) :
  filter (has_slug slug) rows = [] -> NewsArticle.slug row = slug ->
  filter (has_slug slug) (rows ++ [row]) = [row].
Proof.
  intros Hnone Hslug. rewrite filter_app, Hnone. cbn.
  unfold has_slug. now rewrite Hslug, String.eqb_refl.
Qed.

(** X13.  An article stored under a new identifier and read back: the query
    and the captions of its media are gone, and [ingested_at] is the time of
    the INSERT, not the one the article carried; everything else is as it
    was saved. *)
Theorem save_news_then_get_news_by_id (nan_meets_bounds : bool)
    (isoformat : Z -> string) (news : FinalNewsOutput.t) (s : Session.t) :
  clean s -> faults s = [] ->
  filter (has_slug (FinalNewsOutput.id news)) (table s) = [] ->
  NewsArticle.constraints_ok
    (NewsArticle.inserted (new_article news) (sequence s) (now s)) = true ->
  accepted_score nan_meets_bounds (FinalNewsOutput.relevance_score news) ->
  exists s',
    save_news nan_meets_bounds isoformat news s = (Ok news, s')
    /\ get_news_by_id nan_meets_bounds isoformat (FinalNewsOutput.id news) s'
       = (Ok (Some (read_back news (isoformat (now s)))), s').
Proof.
  intros Hclean Hfaults Hfree Hfits Hscore.
  eexists. split; [exact (save_news_inserts _ _ _ _ Hclean Hfaults Hfree Hfits)|].
  unfold get_news_by_id, Session.bind, select, Session.bind, statement.
  cbn [faults table].
  rewrite (filter_has_slug_app _ _ _ Hfree) by reflexivity.
  cbn [lift scalar_one_or_none]. unfold _to_output_model.
  cbn [NewsArticle.relevance_score NewsArticle.inserted new_article].
  rewrite (IngestionFacts.validate_score_accepts _ _ Hscore).
  destruct news as [id title body url pub date summary tags score
                      [q i ic v vc j] [w sent trend] [lat lng map] stamp].
  reflexivity.
Qed.

(** *** [news_exists] and [get_news_count] *)

Lemma news_exists_inv (slug : string) (s s' : Session.t) (r : result bool) :
  news_exists slug s = (r, s') ->
  frame s s'
  /\ forall b, r = Ok b ->
       b = negb (match filter (has_slug slug) (table s) with
                 | [] => true
                 | _ => false
                 end).
Proof.
  unfold news_exists, Session.bind.
  destruct (select _ s) as [[rows|e] s1] eqn:Hsel;
    destruct (select_inv _ _ _ _ Hsel) as (F & Hrows); intros [= <- <-];
    (split; [exact F|]); [|discriminate].
  intros b [= <-]. rewrite (Hrows rows eq_refl).
  destruct (filter _ _); [reflexivity|].
  cbn [List.length negb]. apply Z.ltb_lt. lia.
Qed.

Lemma get_news_count_inv (s s' : Session.t) (r : result Z) :
  get_news_count s = (r, s') ->
  frame s s'
  /\ forall n, r = Ok n -> n = Z.of_nat (List.length (table s)).
Proof.
  unfold get_news_count, Session.bind.
  destruct (select _ s) as [[rows|e] s1] eqn:Hsel;
    destruct (select_inv _ _ _ _ Hsel) as (F & Hrows); intros [= <- <-];
    (split; [exact F|]); [|discriminate].
  intros n [= <-]. rewrite (Hrows rows eq_refl).
  do 2 f_equal. clear. induction (table s) as [|x l IH]; [reflexivity|].
  cbn [filter]. now rewrite IH.
Qed.

Lemma frame_clean (s s' : Session.t) : frame s s' -> clean s -> clean s'.
Proof.
  intros (F1 & F2 & F3 & F4 & _) (C1 & C2 & C3). repeat split; congruence.
Qed.

Lemma length_replaced (obj : NewsArticle.t) (now : Z)
    (rows : list NewsArticle.t) :
  List.length (replaced obj now rows) = List.length rows.
Proof. apply length_map. Qed.

(** X14.  The count of articles around a save that returns: one more when no
    row had the identifier, the same when one had (the row is updated, not
    doubled). *)
Theorem save_news_count (nan_meets_bounds : bool) (isoformat : Z -> string)
    (news out : FinalNewsOutput.t) (s s0 s1 s2 : Session.t) (n0 n1 : Z) :
  clean s ->
  get_news_count s = (Ok n0, s0) ->
  save_news nan_meets_bounds isoformat news s0 = (Ok out, s1) ->
  get_news_count s1 = (Ok n1, s2) ->
  n1 = match filter (has_slug (FinalNewsOutput.id news)) (table s) with
       | [] => (n0 + 1)%Z
       | _ => n0
       end.
Proof.
  intros Hclean H0 Hsave H1.
  apply get_news_count_inv in H0 as (F0 & H0).
  apply get_news_count_inv in H1 as (_ & H1).
  rewrite (H0 n0 eq_refl), (H1 n1 eq_refl).
  apply (save_news_cases _ _ _ _ _ _ (frame_clean _ _ F0 Hclean)) in Hsave
    as (_ & _ & _ & _ & Hcase).
  destruct F0 as (F0 & _). rewrite F0 in Hcase.
  destruct Hcase as [(-> & -> & _) | (old & -> & -> & _)].
  - rewrite length_app. cbn. lia.
  - now rewrite length_replaced.
Qed.

(** X15.  An article that [save_news] returned is found to exist. *)
Theorem save_news_then_news_exists (nan_meets_bounds : bool)
    (isoformat : Z -> string) (news out : FinalNewsOutput.t)
    (s s' : Session.t) :
  clean s ->
  save_news nan_meets_bounds isoformat news s = (Ok out, s') ->
  match news_exists (FinalNewsOutput.id news) s' with
  | (Ok found, _) => found = true
  | (Raise _, _) => True
  end.
Proof.
  intros Hclean Hsave.
  destruct (IngestionFacts.saved_persisted _ _ _ _ _ _ Hclean Hsave)
    as (row & Hin & Hslug & _).
  destruct (news_exists _ s') as [[found|e] s''] eqn:Hex; [|exact I].
  apply news_exists_inv in Hex as (_ & Hfound).
  rewrite (Hfound found eq_refl).
  assert (Hrow : In row (filter (has_slug (FinalNewsOutput.id news)) (table s'))).
  { apply filter_In. split; [exact Hin|].
    unfold has_slug. now rewrite Hslug, String.eqb_refl. }
  now destruct (filter _ _).
Qed.

(** *** A record without a sentiment *)

(** X16.  An article whose context has no sentiment is never stored: the
    column [sentiment_label] refuses the null, [save_news] raises and the
    table is as it was. *)
Theorem save_news_needs_sentiment (nan_meets_bounds : bool)
    (isoformat : Z -> string) (news : FinalNewsOutput.t) (s : Session.t) :
  clean s ->
  EnrichedNewsContext.social_sentiment (FinalNewsOutput.context news) = None ->
  exists cause s',
    save_news nan_meets_bounds isoformat news s
    = (Raise (Wrapped save_prefix cause), s')
    /\ table s' = table s.
Proof.
  intros Hclean Hnone.
  destruct (save_news nan_meets_bounds isoformat news s) as [[out|e] s'] eqn:Hsave;
    apply (save_news_cases _ _ _ _ _ _ Hclean) in Hsave
      as (_ & _ & _ & Hcase).
  - destruct Hcase as (_ & [(_ & _ & Hok) | (old & _ & _ & Hok)]);
      unfold NewsArticle.constraints_ok in Hok; cbn in Hok;
      rewrite Hnone in Hok; discriminate.
  - destruct Hcase as (Htable & cause & ->). eauto.
Qed.

(** *** [get_all_news] *)

Lemma insert_newest_perm (r : NewsArticle.t) (l : list NewsArticle.t) :
  Permutation (insert_newest r l) (r :: l).
Proof.
  induction l as [|y l IH]; cbn [insert_newest]; [reflexivity|].
  destruct (NewsArticle.ingested_at r <=? NewsArticle.ingested_at y)%Z;
    [|reflexivity].
  rewrite IH. apply perm_swap.
Qed.

Lemma order_by_ingested_perm (rows : list NewsArticle.t) :
  Permutation (order_by_ingested_desc rows) rows.
Proof.
  induction rows as [|r rows IH]; cbn; [reflexivity|].
  rewrite insert_newest_perm. now constructor.
Qed.

Lemma insert_newest_hd (r x : NewsArticle.t) (l : list NewsArticle.t) :
  HdRel newest_first x l -> newest_first x r ->
  HdRel newest_first x (insert_newest r l).
Proof.
  intros Hl Hr. destruct l as [|y l]; cbn [insert_newest].
  - now constructor.
  - destruct (_ <=? _)%Z; constructor; [now inversion Hl | exact Hr].
Qed.

Lemma insert_newest_sorted (r : NewsArticle.t) (l : list NewsArticle.t) :
  Sorted newest_first l -> Sorted newest_first (insert_newest r l).
Proof.
  induction 1 as [|y l Hs IH Hhd]; cbn [insert_newest].
  - repeat constructor.
  - destruct (Z.leb_spec (NewsArticle.ingested_at r) (NewsArticle.ingested_at y))
      as [Hle|Hgt].
    + constructor; [exact IH|]. apply insert_newest_hd; [exact Hhd | exact Hle].
    + constructor; [now constructor|]. constructor.
      unfold newest_first. lia.
Qed.

Lemma order_by_ingested_sorted (rows : list NewsArticle.t) :
  StronglySorted newest_first (order_by_ingested_desc rows).
Proof.
  apply Sorted_StronglySorted.
  - intros a b c. unfold newest_first. lia.
  - induction rows as [|r rows IH]; cbn; [constructor|].
    now apply insert_newest_sorted.
Qed.

Lemma filter_all {A} (l : list A) : filter (fun _ => true) l = l.
Proof. induction l as [|x l IH]; cbn; [reflexivity | now rewrite IH]. Qed.

(** Every way [get_all_news] can end. *)
Lemma get_all_news_outcome (nan_meets_bounds : bool) (isoformat : Z -> string)
    (limit offset : Z) (s : Session.t) :
  match get_all_news nan_meets_bounds isoformat limit offset s with
  | (Ok outs, s') =>
      (0 <= limit)%Z /\ (0 <= offset)%Z
      /\ (exists ordered,
            Permutation ordered (table s)
            /\ StronglySorted newest_first ordered
            /\ to_output_models nan_meets_bounds isoformat
                 (page limit offset ordered) = Ok outs)
      /\ List.length outs
         = Nat.min (Z.to_nat limit) (List.length (table s) - Z.to_nat offset)
      /\ table s' = table s
  | (Raise _, s') => table s' = table s
  end.
Proof.
  unfold get_all_news, Session.bind.
  destruct (select _ s) as [[rows|e] s1] eqn:Hsel;
    destruct (select_inv _ _ _ _ Hsel) as ((F1 & _) & Hrows);
    [|exact F1].
  specialize (Hrows rows eq_refl). rewrite filter_all in Hrows. subst rows.
  destruct (Z.ltb_spec limit 0) as [Hl|Hl]; [exact F1|].
  destruct (Z.ltb_spec offset 0) as [Ho|Ho]; [exact F1|].
  cbn [orb ret lift].
  destruct (to_output_models nan_meets_bounds isoformat _) as [outs|e] eqn:Hout;
    [|exact F1].
  split; [exact Hl|]. split; [exact Ho|]. split; [|split; [|exact F1]].
  - exists (order_by_ingested_desc (table s)).
    split; [apply order_by_ingested_perm|].
    split; [apply order_by_ingested_sorted | exact Hout].
  - apply SearchFacts.to_output_models_shows in Hout.
    rewrite (SearchFacts.Forall2_length _ _ _ Hout).
    rewrite length_firstn, length_skipn.
    now rewrite (Permutation_length (order_by_ingested_perm (table s))).
Qed.

(** X17.  What [get_all_news] returns is one page of the table ordered
    newest first: the articles made of the [limit] rows that follow the
    first [offset] rows, so [min(limit, count - offset)] of them; it reads
    only.  A negative limit or offset is refused. *)
Theorem get_all_news_page (nan_meets_bounds : bool) (isoformat : Z -> string)
    (limit offset : Z) (s : Session.t) :
  match get_all_news nan_meets_bounds isoformat limit offset s with
  | (Ok outs, s') =>
      (0 <= limit)%Z /\ (0 <= offset)%Z
      /\ (exists ordered,
            Permutation ordered (table s)
            /\ StronglySorted newest_first ordered
            /\ to_output_models nan_meets_bounds isoformat
                 (page limit offset ordered) = Ok outs)
      /\ List.length outs
         = Nat.min (Z.to_nat limit) (List.length (table s) - Z.to_nat offset)
      /\ table s' = table s
  | (Raise _, s') => table s' = table s
  end.
Proof. apply get_all_news_outcome. Qed.

(** *** [delete_news] *)

Lemma delete_and_flush_clean (obj : NewsArticle.t) (s s' : Session.t)
    (r : result unit) :
  clean s -> delete_and_flush obj s = (r, s') ->
  new s' = [] /\ dirty s' = [] /\ begun s' = begun s
  /\ match r with
     | Ok _ => table s' = without (NewsArticle.id obj) (table s)
     | Raise _ => table s' = table s
     end.
Proof.
  destruct s as [tbl bg nw dt sq clock fl]. intros (Htb & Hnew & Hdirty).
  cbn in Htb, Hnew, Hdirty. subst.
  unfold delete_and_flush, Session.bind, for_each, delete_row, Session.bind,
    statement, ret.
  cbn. destruct fl as [|[|] fl]; cbn; intros [= <- <-]; cbn; auto.
Qed.

(** Every way [delete_news] can end on a clean session. *)
Lemma delete_news_outcome (slug : string) (s : Session.t) :
  clean s ->
  match delete_news slug s with
  | (Ok true, s') =>
      exists row,
        filter (has_slug slug) (table s) = [row]
        /\ table s' = without (NewsArticle.id row) (table s)
  | (Ok false, s') =>
      filter (has_slug slug) (table s) = [] /\ table s' = table s
  | (Raise _, s') => table s' = table s
  end.
Proof.
  intros Hclean. unfold delete_news, Session.bind.
  destruct (select _ s) as [[rows|e] s1] eqn:Hsel;
    destruct (select_inv _ _ _ _ Hsel) as (F & Hrows);
    [|exact (proj1 F)].
  specialize (Hrows rows eq_refl). subst rows.
  pose proof (frame_clean _ _ F Hclean) as Hclean1. destruct F as (F1 & _).
  unfold lift.
  destruct (filter (has_slug slug) (table s)) as [|row [|row' rows]] eqn:Hrows;
    cbn [scalar_one_or_none].
  - cbn. now split.
  - destruct (delete_and_flush row s1) as [[[]|e] s2] eqn:Hdel;
      apply (delete_and_flush_clean _ _ _ _ Hclean1) in Hdel
        as (_ & _ & _ & Htable); cbn [ret].
    + exists row. split; [reflexivity | congruence].
    + congruence.
  - exact F1.
Qed.

(** X18.  [delete_news] on a clean session.  When it returns [True], one row
    had the slug and the table is left without the rows of its primary key;
    when it returns [False], no row had the slug and the table is as it was;
    when it raises, the table is as it was. *)
Theorem delete_news_removes_the_row (slug : string) (s : Session.t) :
  clean s ->
  match delete_news slug s with
  | (Ok true, s') =>
      exists row,
        filter (has_slug slug) (table s) = [row]
        /\ table s' = without (NewsArticle.id row) (table s)
  | (Ok false, s') =>
      filter (has_slug slug) (table s) = [] /\ table s' = table s
  | (Raise _, s') => table s' = table s
  end.
Proof. apply delete_news_outcome. Qed.

Lemma filter_without (slug : string) (rows : list NewsArticle.t)
    (row : NewsArticle.t) :
  filter (has_slug slug) rows = [row] ->
  filter (has_slug slug) (without (NewsArticle.id row) rows) = [].
Proof.
  intros H. unfold without.
  assert (Hall : forall r, In r rows -> has_slug slug r = true ->
                           NewsArticle.id r = NewsArticle.id row).
  { intros r Hin Hslug.
    assert (Hr : In r (filter (has_slug slug) rows))
      by (apply filter_In; now split).
    rewrite H in Hr. destruct Hr as [<- | []]. reflexivity. }
  clear H. induction rows as [|r rows IH]; [reflexivity|].
  cbn [filter].
  destruct (NewsArticle.id r =? NewsArticle.id row)%Z eqn:E; cbn [negb].
  - apply IH. intros r' Hin. apply Hall. now right.
  - cbn [filter]. destruct (has_slug slug r) eqn:Hs.
    + rewrite (Hall r (or_introl eq_refl) Hs), Z.eqb_refl in E. discriminate.
    + apply IH. intros r' Hin. apply Hall. now right.
Qed.

(** X19.  An article that [delete_news] deleted is gone: looked up by its
    slug it is not found, and it does not exist. *)
Theorem delete_news_then_lookup (nan_meets_bounds : bool)
    (isoformat : Z -> string) (slug : string) (s s' : Session.t) :
  clean s ->
  delete_news slug s = (Ok true, s') ->
  match get_news_by_id nan_meets_bounds isoformat slug s' with
  | (Ok found, _) => found = None
  | (Raise _, _) => True
  end
  /\ match news_exists slug s' with
     | (Ok found, _) => found = false
     | (Raise _, _) => True
     end.
Proof.
  intros Hclean Hdel.
  pose proof (delete_news_outcome slug s Hclean) as H. rewrite Hdel in H.
  destruct H as (row & Hrow & Htable).
  pose proof (filter_without _ _ _ Hrow) as Hgone. rewrite <- Htable in Hgone.
  split.
  - destruct (get_news_by_id _ _ slug s') as [[found|e] s''] eqn:Hget;
      [|exact I].
    apply get_news_by_id_inv in Hget as (_ & Hget).
    destruct found as [out|]; [|reflexivity].
    destruct Hget as (r & Hr & _). congruence.
  - destruct (news_exists slug s') as [[found|e] s''] eqn:Hex; [|exact I].
    apply news_exists_inv in Hex as (_ & Hfound).
    rewrite (Hfound found eq_refl), Hgone. reflexivity.
Qed.

End QueryFacts.

(** ** A request: the handler inside [get_session] *)

Module RequestFacts.
Import Session NewsRepository RepositoryProps RepositoryFacts.
Import IngestionProps QueryProps QueryFacts.

Lemma commit_clean (s s' : Session.t) (r : result unit) :
  new s = [] -> dirty s = [] -> commit s = (r, s') ->
  match r with
  | Ok _ => clean s' /\ begun s' = table s
  | Raise _ => table s' = table s /\ begun s' = begun s
               /\ new s' = [] /\ dirty s' = []
  end.
Proof.
  destruct s as [tbl bg nw dt sq clock fl]. cbn. intros -> ->.
  unfold commit, flush, Session.bind, for_each, ret, statement. cbn.
  destruct fl as [|[|] fl]; cbn; intros [= <- <-]; cbn; repeat split.
Qed.

Lemma ingest_news_begun (json_loads : json_parser)
    (brave_search_service : BraveSearchService.t) (nan_meets_bounds : bool)
    (isoformat : Z -> string) (ai_service : AIService.t)
    (uuid utc_now : string) (raw_input : RawNewsInput.t) (s s' : Session.t)
    (r : result FinalNewsOutput.t) :
  clean s ->
  IngestionService.ingest_news json_loads brave_search_service
    nan_meets_bounds isoformat ai_service uuid utc_now raw_input s = (r, s') ->
  begun s' = begun s.
Proof.
  intros Hclean.
  unfold IngestionService.ingest_news, reraise, Session.bind, lift.
  destruct (AIService.enrich_news _ _ _ _) as [en|e]; [|now intros [= <- <-]].
  destruct (FinalNewsOutput.make _ _ _ _ _ _ _ _ _ _ _ _ _ _) as [out|e];
    [|now intros [= <- <-]].
  destruct (save_news _ _ out s) as [[saved|e] s1] eqn:Hsave;
    apply (save_news_cases _ _ _ _ _ _ Hclean) in Hsave as (_ & _ & Hb & _);
    cbn [ret]; now intros [= <- <-].
Qed.

(** X21.  One ingestion request, from the session [get_session] opens to the
    commit or rollback that ends it: either the article is returned and the
    committed table holds its row, or the request fails and the committed
    table is the one the request began with.  A commit that fails is a
    failed request. *)
Theorem ingest_news_request_atomic (json_loads : json_parser)
    (brave_search_service : BraveSearchService.t) (nan_meets_bounds : bool)
    (isoformat : Z -> string) (ai_service : AIService.t)
    (uuid utc_now : string) (raw_input : RawNewsInput.t) (s : Session.t) :
  clean s ->
  match get_session
          (IngestionService.ingest_news json_loads brave_search_service
             nan_meets_bounds isoformat ai_service uuid utc_now raw_input) s
  with
  | (Ok out, s') =>
      clean s' /\ persisted out (begun s')
      /\ fully_enriched nan_meets_bounds out
  | (Raise _, s') => clean s' /\ begun s' = begun s
  end.
Proof.
  intros Hclean. unfold get_session, Session.bind.
  pose proof (IngestionFacts.ingest_news_cases json_loads brave_search_service
                nan_meets_bounds isoformat ai_service uuid utc_now raw_input
                s Hclean) as H.
  destruct (IngestionService.ingest_news _ _ _ _ _ _ _ _ s)
    as [[out|e] s1] eqn:Hrun;
    pose proof (ingest_news_begun _ _ _ _ _ _ _ _ _ _ _ Hclean Hrun) as Hbegun.
  - destruct H as ((en & _ & _ & Hsave) & Hfull & Hpers).
    apply (save_news_cases _ _ _ _ _ _ Hclean) in Hsave
      as (Hnew & Hdirty & _).
    destruct (commit s1) as [[[]|e] s2] eqn:Hc;
      apply (commit_clean _ _ _ Hnew Hdirty) in Hc; cbn [ret].
    + destruct Hc as (Hc & Hb). rewrite Hb. auto.
    + destruct Hc as (_ & Hb & _). unfold rollback. cbn.
      split; [repeat split | congruence].
  - unfold rollback. cbn. split; [repeat split | exact Hbegun].
Qed.

End RequestFacts.

(** ** The routes *)

Module EndpointFacts.
Import Session NewsRepository NewsQueries RepositoryProps RepositoryFacts.
Import IngestionProps QueryProps QueryFacts Endpoints.

Lemma assemble_id (nan_meets_bounds : bool) (uuid utc_now : string)
    (raw_input : RawNewsInput.t) (e : AIService.enrichment)
    (out : FinalNewsOutput.t) :
  assemble nan_meets_bounds uuid utc_now raw_input e = Ok out ->
  FinalNewsOutput.id out = uuid.
Proof.
  unfold assemble, FinalNewsOutput.make. intros H.
  apply bind_ok in H as (tags & _ & H).
  apply bind_ok in H as (score & _ & H).
  now injection H as <-.
Qed.

(** X22.  POST /ingest on a clean session answers in one of two ways: with
    the status "success", the identifier drawn for the article and the
    article itself, whose row the table then holds; or with the status code
    500 and the wrapped error, the table being as it was.  No other
    exception leaves the route. *)
Theorem ingest_route_outcome (json_loads : json_parser)
    (brave_search_service : BraveSearchService.t) (nan_meets_bounds : bool)
    (isoformat : Z -> string) (ai_service : AIService.t)
    (uuid utc_now : string) (raw_input : RawNewsInput.t) (db : Session.t) :
  clean db ->
  match Endpoints.ingest_news json_loads brave_search_service nan_meets_bounds
          isoformat ai_service uuid utc_now raw_input db with
  | (Returned r, db') =>
      IngestionResponse.status r = "success"
      /\ IngestionResponse.id r = uuid
      /\ FinalNewsOutput.id (IngestionResponse.data r) = uuid
      /\ persisted (IngestionResponse.data r) (table db')
  | (HTTPException status_code d, db') =>
      status_code = 500%Z
      /\ (exists cause,
            d = Failure "Failed to ingest news article"
                  (Wrapped ingest_prefix cause))
      /\ table db' = table db
  | (Unhandled _, _) => False
  end.
Proof.
  intros Hclean. unfold Endpoints.ingest_news.
  pose proof (IngestionFacts.ingest_news_cases json_loads brave_search_service
                nan_meets_bounds isoformat ai_service uuid utc_now raw_input
                db Hclean) as H.
  destruct (IngestionService.ingest_news _ _ _ _ _ _ _ _ db)
    as [[out|e] db'].
  - destruct H as ((en & _ & Hout & _) & _ & Hpers).
    cbn. pose proof (assemble_id _ _ _ _ _ _ Hout). auto.
  - destruct H as (Htable & _ & _ & cause & -> & _).
    repeat split; eauto.
Qed.

(** X23.  GET /news/{id}: the status code 404 is raised exactly when the
    database answered and no row has the identifier; an article that is
    returned is the one made of the single row with the identifier, and it
    carries that identifier.  An error of the database or of the stored
    record leaves the route as it is: each answer of the route is the
    answer of the lookup, none is made of its failure. *)
Theorem get_news_route_outcome (nan_meets_bounds : bool)
    (isoformat : Z -> string) (id : string) (db : Session.t) :
  match Endpoints.get_news_by_id nan_meets_bounds isoformat id db with
  | (Returned news, _) =>
      FinalNewsOutput.id news = id
      /\ (exists row,
            filter (has_slug id) (table db) = [row]
            /\ _to_output_model nan_meets_bounds isoformat row = Ok news)
      /\ fst (NewsRepository.get_news_by_id nan_meets_bounds isoformat id db)
         = Ok (Some news)
  | (HTTPException status_code d, _) =>
      status_code = 404%Z
      /\ d = Text ("News article with ID '" ++ id ++ "' not found")
      /\ filter (has_slug id) (table db) = []
      /\ fst (NewsRepository.get_news_by_id nan_meets_bounds isoformat id db)
         = Ok None
  | (Unhandled e, _) =>
      fst (NewsRepository.get_news_by_id nan_meets_bounds isoformat id db)
      = Raise e
  end.
Proof.
  unfold Endpoints.get_news_by_id.
  destruct (NewsRepository.get_news_by_id _ _ id db) as [[[news|]|e] db'] eqn:Hget;
    try apply get_news_by_id_inv in Hget as (_ & Hget).
  - destruct Hget as (row & Hrow & Hout).
    split; [|split; [eauto | reflexivity]].
    assert (Hin : In row (filter (has_slug id) (table db)))
      by (rewrite Hrow; now left).
    apply filter_In in Hin as (_ & Hslug).
    unfold _to_output_model in Hout.
    apply bind_ok in Hout as (score & _ & Hout). injection Hout as <-.
    cbn. now apply String.eqb_eq.
  - repeat split. exact Hget.
  - reflexivity.
Qed.

(** X24.  GET /news: the listing holds [min(limit, count - offset)]
    summaries and reports as total the count of all rows, whatever the page;
    a failure of either statement is answered with the status code 500 (so
    would be a negative limit or offset, which the route's validation does
    not let through).  The route reads only. *)
Theorem list_news_route_outcome (nan_meets_bounds : bool)
    (isoformat : Z -> string) (limit offset : Z) (db : Session.t) :
  match Endpoints.list_news nan_meets_bounds isoformat limit offset db with
  | (Returned r, db') =>
      NewsListResponse.total r = Z.of_nat (List.length (table db))
      /\ List.length (NewsListResponse.items r)
         = Nat.min (Z.to_nat limit) (List.length (table db) - Z.to_nat offset)
      /\ table db' = table db
  | (HTTPException status_code d, db') =>
      status_code = 500%Z /\ table db' = table db
  | (Unhandled _, _) => False
  end.
Proof.
  unfold Endpoints.list_news, Session.bind.
  pose proof (get_all_news_outcome nan_meets_bounds isoformat limit offset db)
    as H.
  destruct (get_all_news _ _ limit offset db) as [[outs|e] db1];
    [|now split].
  destruct H as (_ & _ & _ & Hlen & Htable).
  destruct (get_news_count db1) as [[n|e] db2] eqn:Hcount;
    apply get_news_count_inv in Hcount as ((F & _) & Hn); cbn [ret].
  - cbn. rewrite (Hn n eq_refl), length_map, Hlen, Htable.
    repeat split. congruence.
  - split; [reflexivity | congruence].
Qed.

(** GET /stats reports the count of all rows, or lets the error of the
    database through. *)
Example get_stats_counts :
  Endpoints.get_stats Runs.one_article = (Returned 1%Z, Runs.one_article).
Proof. reflexivity. Qed.

End EndpointFacts.

(** ** The migration script *)

Module MigrationFacts.
Import Database.

(** X25.  [run_migration] never reports success and never runs a statement
    of its block: with a URL configured, the lookup of [database.session]
    raises, the handler returns [False], and the connection manager is
    closed again; without one it returns [False] at once.  Only an error of
    the closing [dispose] leaves it. *)
Theorem run_migration_never_migrates (settings_database_url : option string)
    (create_async_engine : string -> result unit)
    (dispose : string -> result unit) (statements : io bool) (database : t) :
  run_migration settings_database_url create_async_engine dispose statements
    database
  = run_migration settings_database_url create_async_engine dispose
      (fun db => (Ok true, db)) database
  /\ match run_migration settings_database_url create_async_engine dispose
             statements database with
     | (Ok migrated, database') =>
         migrated = false
         /\ (no_url settings_database_url = false -> engine database' = None)
     | (Raise e, database') =>
         exists url, engine database' = Some url /\ dispose url = Raise e
     end.
Proof.
  unfold run_migration.
  destruct (no_url settings_database_url) eqn:Hurl.
  { split; [reflexivity|]. split; [reflexivity | discriminate]. }
  unfold init, session, close.
  assert (Hsame : url_or_settings settings_database_url settings_database_url
                  = settings_database_url).
  { unfold url_or_settings. destruct settings_database_url as [u|]; [|reflexivity].
    now destruct (Py.truthy u). }
  rewrite Hsame, Hurl.
  destruct settings_database_url as [u|]; [|discriminate Hurl].
  destruct (create_async_engine u) as [[]|e]; cbn.
  - destruct (dispose u) as [[]|x] eqn:Hd; cbn.
    + split; [reflexivity|]. now split.
    + split; [reflexivity|]. eauto.
  - destruct (engine database) as [url|] eqn:He; cbn.
    + destruct (dispose url) as [[]|x] eqn:Hd; cbn.
      * split; [reflexivity|]. now split.
      * split; [reflexivity|]. eauto.
    + split; [reflexivity|]. split; [reflexivity|]. intros _. exact He.
Qed.

Example run_migration_configured :
  run_migration (Some "postgresql+asyncpg://u:p@db/swen")
    (fun _ => Ok tt) (fun _ => Ok tt) (fun db => (Ok true, db)) fresh
  = (Ok false, fresh).
Proof. reflexivity. Qed.

End MigrationFacts.

(** ** The other operations, run *)

Module QueryScenario.
Import Session NewsRepository NewsQueries RepositoryProps RepositoryFacts.
Import IngestionProps QueryProps QueryFacts RequestFacts EndpointFacts.
Import Runs QueryRuns.

Lemma save_news_then_get_news_by_id_witness :
  exists s',
    save_news true epoch_text second_version empty_db = (Ok second_version, s')
    /\ get_news_by_id true epoch_text uuid s'
       = (Ok (Some (read_back second_version "1714555800")), s').
Proof.
  exact (save_news_then_get_news_by_id true epoch_text second_version empty_db
           (opened_clean _ _ _ _) eq_refl eq_refl eq_refl
           (or_introl (conj eq_refl eq_refl))).
Defined.

(** What is read back differs from what was saved. *)
Example read_back_differs :
  EnrichedNewsMedia.search_query (FinalNewsOutput.media second_version)
  = Some "African development technology"
  /\ EnrichedNewsMedia.search_query
       (FinalNewsOutput.media (read_back second_version "1714555800")) = None
  /\ FinalNewsOutput.ingested_at second_version = "2024-05-01T09:30:00+00:00"
  /\ FinalNewsOutput.ingested_at (read_back second_version "1714555800")
     = "1714555800".
Proof. repeat split. Qed.

Lemma save_news_count_witness :
  (1 = match filter (has_slug (FinalNewsOutput.id second_version))
               (table empty_db) with
       | [] => 0 + 1
       | _ => 0
       end)%Z
  /\ (1 = match filter (has_slug (FinalNewsOutput.id second_version))
                 (table one_article) with
          | [] => 1 + 1
          | _ => 1
          end)%Z.
Proof.
  split.
  - eapply (save_news_count true epoch_text second_version second_version
              empty_db);
      [apply opened_clean | reflexivity | reflexivity | reflexivity].
  - eapply (save_news_count true epoch_text second_version second_version
              one_article);
      [apply opened_clean | reflexivity | reflexivity | reflexivity].
Defined.

Lemma save_news_then_news_exists_witness :
  match news_exists uuid after_save with
  | (Ok found, _) => found = true
  | (Raise _, _) => False
  end.
Proof.
  exact (save_news_then_news_exists true epoch_text second_version
           second_version empty_db after_save (opened_clean _ _ _ _) eq_refl).
Defined.

Lemma save_news_needs_sentiment_witness :
  exists cause s',
    save_news true epoch_text unlabelled empty_db
    = (Raise (Wrapped save_prefix cause), s')
    /\ table s' = [].
Proof.
  exact (save_news_needs_sentiment true epoch_text unlabelled empty_db
           (opened_clean _ _ _ _) eq_refl).
Defined.

(** The live pipeline with a context answer whose sentiment is null: the
    enrichment succeeds and the ingestion fails at the INSERT. *)
Example ingest_news_null_sentiment :
  fst (IngestionService.ingest_news
         (AIServiceProps.one_answer null_sentiment) offline_brave true
         epoch_text (parrot "{}") uuid utc_now solar empty_db)
  = Raise (Wrapped ingest_prefix (Wrapped save_prefix SQLAlchemyError)).
Proof. vm_compute. reflexivity. Qed.

Example get_all_news_second_page :
  match fst (get_all_news true epoch_text 2 1 three_days) with
  | Ok outs => map FinalNewsOutput.id outs = ["tue"; "mon"]
  | Raise _ => False
  end.
Proof. reflexivity. Qed.

Example get_all_news_past_the_end :
  fst (get_all_news true epoch_text 5 7 three_days) = Ok [].
Proof. reflexivity. Qed.

Example get_all_news_negative_offset :
  fst (get_all_news true epoch_text 5 (-1) three_days) = Raise SQLAlchemyError.
Proof. reflexivity. Qed.

Lemma delete_news_removes_the_row_witness :
  match delete_news uuid one_article with
  | (Ok true, s') =>
      exists row,
        filter (has_slug uuid) (table one_article) = [row]
        /\ table s' = without (NewsArticle.id row) (table one_article)
  | (Ok false, s') => False
  | (Raise _, s') => False
  end
  /\ match delete_news "no-such-slug" one_article with
     | (Ok true, s') => False
     | (Ok false, s') =>
         filter (has_slug "no-such-slug") (table one_article) = []
         /\ table s' = table one_article
     | (Raise _, s') => False
     end.
Proof.
  split.
  - exact (delete_news_removes_the_row uuid one_article (opened_clean _ _ _ _)).
  - exact (delete_news_removes_the_row "no-such-slug" one_article
             (opened_clean _ _ _ _)).
Defined.

Example delete_news_empties_the_table : table after_delete = [].
Proof. reflexivity. Qed.

Lemma delete_news_then_lookup_witness :
  match get_news_by_id true epoch_text uuid after_delete with
  | (Ok found, _) => found = None
  | (Raise _, _) => False
  end
  /\ match news_exists uuid after_delete with
     | (Ok found, _) => found = false
     | (Raise _, _) => False
     end.
Proof.
  exact (delete_news_then_lookup true epoch_text uuid one_article after_delete
           (opened_clean _ _ _ _) eq_refl).
Defined.

Lemma ingest_news_request_atomic_witness :
  match get_session mock_ingest empty_db with
  | (Ok out, s') =>
      clean s' /\ persisted out (begun s') /\ fully_enriched true out
  | (Raise _, _) => False
  end
  /\ match get_session mock_ingest
             (opened [] 1 1714555800 [false; false; true]) with
     | (Ok _, _) => False
     | (Raise _, s') => clean s' /\ begun s' = []
     end.
Proof.
  split.
  - match goal with
    | |- ?G =>
        exact (ingest_news_request_atomic no_json offline_brave true
                 epoch_text MediaQueryProps.mock_service uuid utc_now solar
                 empty_db (opened_clean _ _ _ _) <: G)
    end.
  - match goal with
    | |- ?G =>
        exact (ingest_news_request_atomic no_json offline_brave true
                 epoch_text MediaQueryProps.mock_service uuid utc_now solar
                 (opened [] 1 1714555800 [false; false; true])
                 (opened_clean _ _ _ _) <: G)
    end.
Defined.

Lemma ingest_route_outcome_witness :
  match Endpoints.ingest_news no_json offline_brave true epoch_text
          MediaQueryProps.mock_service uuid utc_now solar empty_db with
  | (Endpoints.Returned r, db') =>
      IngestionResponse.status r = "success"
      /\ IngestionResponse.id r = uuid
      /\ FinalNewsOutput.id (IngestionResponse.data r) = uuid
      /\ persisted (IngestionResponse.data r) (table db')
  | (Endpoints.HTTPException _ _, _) => False
  | (Endpoints.Unhandled _, _) => False
  end
  /\ match Endpoints.ingest_news no_json offline_brave true epoch_text
             MediaQueryProps.mock_service uuid utc_now solar failing_insert with
     | (Endpoints.Returned _, _) => False
     | (Endpoints.HTTPException status_code d, db') =>
         status_code = 500%Z
         /\ (exists cause,
               d = Endpoints.Failure "Failed to ingest news article"
                     (Wrapped ingest_prefix cause))
         /\ table db' = table failing_insert
     | (Endpoints.Unhandled _, _) => False
     end.
Proof.
  split.
  - exact (ingest_route_outcome no_json offline_brave true epoch_text
             MediaQueryProps.mock_service uuid utc_now solar empty_db
             (opened_clean _ _ _ _)).
  - exact (ingest_route_outcome no_json offline_brave true epoch_text
             MediaQueryProps.mock_service uuid utc_now solar failing_insert
             (opened_clean _ _ _ _)).
Defined.

Example get_news_route_missing :
  fst (Endpoints.get_news_by_id true epoch_text "abc" empty_db)
  = Endpoints.HTTPException 404
      (Endpoints.Text "News article with ID 'abc' not found").
Proof. reflexivity. Qed.

Example list_news_route_first_page :
  match fst (Endpoints.list_news true epoch_text 2 0 three_days) with
  | Endpoints.Returned r =>
      NewsListResponse.total r = 3%Z
      /\ map NewsSummary.id (NewsListResponse.items r) = ["wed"; "tue"]
  | _ => False
  end.
Proof. split; reflexivity. Qed.

End QueryScenario.
(** ** The facets without their services *)

Module OfflineFacts.
Import AiConstants AIService AIServiceFacts FacetProps FacetFacts.
Import BraveSearchService BraveMediaFacts.

Lemma generate_media_search_query_returns (self : AIService.t)
    (title body : string) :
  exists q, generate_media_search_query self title body = Ok q.
Proof.
  unfold generate_media_search_query.
  destruct (use_mock self); [eauto|].
  destruct (client self _) as [[text|]|e]; caught; eauto.
Qed.

Lemma brave_discover_media_no_key (self : BraveSearchService.t) (q : string) :
  no_api_key self = true ->
  BraveSearchService.discover_media self q
  = Ok (mk_results q JNull None JNull None).
Proof.
  intros Hkey. unfold BraveSearchService.discover_media, search_images,
    search_videos.
  now rewrite Hkey.
Qed.

(** X5.  Without an API key for the lookup the live media facet still
    answers: with the query it generated, the stock image and its caption,
    and an empty video URL without a caption. *)
Theorem discover_media_without_key
    (brave_search_service : BraveSearchService.t) (self : AIService.t)
    (title body : string) (tags : list json) :
  use_mock self = false ->
  no_api_key brave_search_service = true ->
  exists q,
    generate_media_search_query self title body = Ok q
    /\ AIService.discover_media brave_search_service self title body tags
       = Ok (EnrichedNewsMedia.mk (Some q)
               (Some DEFAULT_FALLBACKS.featured_image_url)
               (Some "High-quality image relevant to African development")
               (Some EmptyString) None
               (Some (justification_of q JNull JNull))).
Proof.
  intros Hlive Hkey.
  destruct (generate_media_search_query_returns self title body) as (q & Hq).
  exists q. split; [exact Hq|].
  unfold AIService.discover_media. rewrite Hlive, Hq. cbn [bind].
  rewrite (brave_discover_media_no_key _ _ Hkey). reflexivity.
Qed.

(** X6.  In mock mode the enrichment calls neither the generative service
    nor the parser nor the lookup: whatever they are, its result is the
    same, and it is not a failure. *)
Theorem enrich_news_mock_is_offline (json_loads json_loads' : json_parser)
    (brave brave' : BraveSearchService.t) (self self' : AIService.t)
    (raw_input : RawNewsInput.t) :
  use_mock self = true -> use_mock self' = true ->
  enrich_news json_loads brave self raw_input
  = enrich_news json_loads' brave' self' raw_input
  /\ exists e, enrich_news json_loads brave self raw_input = Ok e.
Proof.
  intros H H'.
  rewrite (IngestionFacts.enrich_news_mock json_loads brave self raw_input H).
  rewrite (IngestionFacts.enrich_news_mock json_loads' brave' self' raw_input H').
  split; [reflexivity | eauto].
Qed.

End OfflineFacts.

(** ** The facets without their services, run *)

Module OfflineScenario.
Import AiConstants AIService OfflineFacts Runs.

Lemma discover_media_without_key_witness :
  exists q,
    generate_media_search_query (parrot "solar farm kenya")
      "Solar plant opens in Kenya" solar_body = Ok q
    /\ AIService.discover_media (BraveProps.answering None (Ok BraveProps.one_image))
         (parrot "solar farm kenya") "Solar plant opens in Kenya" solar_body []
       = Ok (EnrichedNewsMedia.mk (Some q)
               (Some DEFAULT_FALLBACKS.featured_image_url)
               (Some "High-quality image relevant to African development")
               (Some EmptyString) None
               (Some (justification_of q JNull JNull))).
Proof.
  exact (discover_media_without_key
           (BraveProps.answering None (Ok BraveProps.one_image))
           (parrot "solar farm kenya") "Solar plant opens in Kenya" solar_body
           [] eq_refl eq_refl).
Defined.

Lemma enrich_news_mock_is_offline_witness :
  enrich_news no_json offline_brave MediaQueryProps.mock_service solar
  = enrich_news (AIServiceProps.one_answer JNull)
      (BraveProps.answering (Some "key") (Ok BraveProps.one_image))
      (AIService.mk true (fun _ => Ok (Some "anything"))) solar
  /\ exists e,
       enrich_news no_json offline_brave MediaQueryProps.mock_service solar
       = Ok e.
Proof.
  exact (enrich_news_mock_is_offline no_json (AIServiceProps.one_answer JNull)
           offline_brave
           (BraveProps.answering (Some "key") (Ok BraveProps.one_image))
           MediaQueryProps.mock_service
           (AIService.mk true (fun _ => Ok (Some "anything"))) solar
           eq_refl eq_refl).
Defined.

End OfflineScenario.
